(** * GaiaSentinel proof importer: a shallow embedding and its properties

    The development follows [tools/import_from_stamped.py] (and, for the
    record it assembles, [tools/extract_proofs_from_pdfs.py]).

    Conventions of the embedding.
    - Text is a [string] of bytes holding UTF-8.  [lower] covers ASCII and
      the Latin-1 capitals (the range the importer's own transliteration
      table is written for).  The version patterns are read on the
      characters of the text, with the Unicode classes [\d] and [\s]; the
      patterns of the sibling tool are read on ASCII text.
    - A raised Python exception is an explicit result ([Raise]); a
      [try/except Exception] block is a [match] on it.
    - Library calls whose result is not fixed by the script itself
      ([datetime.fromisoformat], [json.loads], [json.dumps], the [csv]
      writer, [mimetypes.guess_type], [str] of a non-string value) are
      section variables; [hashlib.sha256] is written out. *)

From Stdlib Require Import ZArith NArith List String Ascii Bool Arith Lia DecimalString.
Import ListNotations.
Open Scope string_scope.
Open Scope list_scope.
Set Warnings "-register-all".

(* ================================================================== *)
(** ** Text *)

Module Text.

Definition ascii_in (lo hi : nat) (c : ascii) : bool :=
  let n := nat_of_ascii c in (lo <=? n)%nat && (n <=? hi)%nat.

Definition is_digit (c : ascii) : bool := ascii_in 48 57 c.
Definition is_lower_letter (c : ascii) : bool := ascii_in 97 122 c.
Definition is_upper_letter (c : ascii) : bool := ascii_in 65 90 c.
Definition is_slug_char (c : ascii) : bool := is_lower_letter c || is_digit c.

(** [[a-f0-9]] under [re.I]. *)
Definition is_hexdigit (c : ascii) : bool :=
  is_digit c || ascii_in 97 102 c || ascii_in 65 70 c.

(** The white space of ASCII: TAB..CR, FS..US and the space. *)
Definition is_space (c : ascii) : bool :=
  ascii_in 9 13 c || ascii_in 28 31 c || (nat_of_ascii c =? 32)%nat.

Definition shift_ascii (k : nat) (c : ascii) : ascii :=
  ascii_of_nat (nat_of_ascii c + k).

(** Lead byte of the two-byte UTF-8 sequences U+00C0..U+00FF. *)
Definition lead_c3 : ascii := ascii_of_nat 195.

(** Second byte of a Latin-1 capital (U+00C0..U+00DE, the sign U+00D7
    left out). *)
Definition is_latin1_upper_tail (c : ascii) : bool :=
  ascii_in 128 158 c && negb (nat_of_ascii c =? 151)%nat.

(** [str.lower()]. *)
Fixpoint lower (s : string) : string :=
  match s with
  | EmptyString => EmptyString
  | String c s' =>
      if is_upper_letter c then String (shift_ascii 32 c) (lower s')
      else
        match s' with
        | String d s'' =>
            if (c =? lead_c3)%char && is_latin1_upper_tail d
            then String c (String (shift_ascii 32 d) (lower s''))
            else String c (lower s')
        | EmptyString => String c EmptyString
        end
  end.

(** [str.replace(old, new)] for a one-character [old], the only form the
    importer uses. *)
Fixpoint replace_char (old : ascii) (new : string) (s : string) : string :=
  match s with
  | EmptyString => EmptyString
  | String c s' =>
      if (c =? old)%char then new ++ replace_char old new s'
      else String c (replace_char old new s')
  end.

(** [pat in s]. *)
Fixpoint contains (pat s : string) : bool :=
  prefix pat s ||
  match s with
  | EmptyString => false
  | String _ s' => contains pat s'
  end.

(** [s[:n]]. *)
Fixpoint take (n : nat) (s : string) : string :=
  match n, s with
  | S k, String c s' => String c (take k s')
  | _, _ => EmptyString
  end.

Fixpoint drop (n : nat) (s : string) : string :=
  match n, s with
  | S k, String _ s' => drop k s'
  | _, _ => s
  end.

Fixpoint forallb_str (p : ascii -> bool) (s : string) : bool :=
  match s with
  | EmptyString => true
  | String c s' => p c && forallb_str p s'
  end.

(** Splits at the last ["."]: the text before it, and the text from it on. *)
Fixpoint rsplit_dot (s : string) : option (string * string) :=
  match s with
  | EmptyString => None
  | String c s' =>
      match rsplit_dot s' with
      | Some (a, b) => Some (String c a, b)
      | None => if (c =? ".")%char then Some (EmptyString, s) else None
      end
  end.

(** [PurePath.suffix]: [i = name.rfind('.')], kept when
    [0 < i < len(name) - 1]. *)
Definition suffix (name : string) : string :=
  match rsplit_dot name with
  | Some (a, b) =>
      if negb (a =? "") && (2 <=? length b)%nat then b else ""
  | None => ""
  end.

(** [PurePath.stem]. *)
Definition stem (name : string) : string :=
  match rsplit_dot name with
  | Some (a, b) =>
      if negb (a =? "") && (2 <=? length b)%nat then a else name
  | None => name
  end.

Definition newline : string := String (ascii_of_nat 10) EmptyString.

(** What [$] accepts: the end of the text, or a last line feed. *)
Definition at_dollar (s : string) : bool := (s =? "") || (s =? newline).

(** *** Characters

    The importer works on Python strings: a name is a sequence of
    characters, and the classes [\d] and [\s] of its patterns are those
    of Unicode.  A text of bytes is read as [os.fsdecode] reads a name:
    a well-formed UTF-8 sequence is one character, any other byte is
    kept as the lone surrogate U+DC00 + byte. *)

(** A character: its code point and the bytes that hold it. *)
Record uchar : Type := { code : N; bytes : string }.

Definition byte (c : ascii) : N := N_of_ascii c.

(** A continuation byte, and the bits it brings. *)
Definition is_cont (c : ascii) : bool := ascii_in 128 191 c.
Definition low6 (c : ascii) : N := byte c - 128.

Definition is_byte (n : nat) (c : ascii) : bool := (nat_of_ascii c =? n)%nat.

(** The well-formed sequences of two, three and four bytes: no overlong
    form, no surrogate, nothing above U+10FFFF. *)
Definition two_ok (a b : ascii) : bool := ascii_in 194 223 a && is_cont b.

Definition three_ok (a b c : ascii) : bool :=
  (is_byte 224 a && ascii_in 160 191 b
   || (ascii_in 225 236 a || ascii_in 238 239 a) && is_cont b
   || is_byte 237 a && ascii_in 128 159 b)
  && is_cont c.

Definition four_ok (a b c d : ascii) : bool :=
  (is_byte 240 a && ascii_in 144 191 b
   || ascii_in 241 243 a && is_cont b
   || is_byte 244 a && ascii_in 128 143 b)
  && is_cont c && is_cont d.

Definition one_byte (a : ascii) : uchar :=
  {| code := if ascii_in 0 127 a then byte a else 56320 + byte a;
     bytes := String a EmptyString |}.

Definition two_bytes (a b : ascii) : uchar :=
  {| code := (byte a - 192) * 64 + low6 b;
     bytes := String a (String b EmptyString) |}.

Definition three_bytes (a b c : ascii) : uchar :=
  {| code := (byte a - 224) * 4096 + low6 b * 64 + low6 c;
     bytes := String a (String b (String c EmptyString)) |}.

Definition four_bytes (a b c d : ascii) : uchar :=
  {| code := (byte a - 240) * 262144 + low6 b * 4096 + low6 c * 64 + low6 d;
     bytes := String a (String b (String c (String d EmptyString))) |}.

(** The characters of a text. *)
Fixpoint uchars (s : string) : list uchar :=
  match s with
  | EmptyString => []
  | String a s1 =>
      let lone := one_byte a :: uchars s1 in
      match s1 with
      | String b s2 =>
          if two_ok a b then two_bytes a b :: uchars s2
          else
            match s2 with
            | String c s3 =>
                if three_ok a b c then three_bytes a b c :: uchars s3
                else
                  match s3 with
                  | String d s4 =>
                      if four_ok a b c d then four_bytes a b c d :: uchars s4
                      else lone
                  | EmptyString => lone
                  end
            | EmptyString => lone
            end
      | EmptyString => lone
      end
  end.

(** The text of a list of characters. *)
Fixpoint text_of (l : list uchar) : string :=
  match l with
  | [] => EmptyString
  | c :: rest => bytes c ++ text_of rest
  end.

(** The code points of the digits zero of Unicode 14, the version of the
    tables Python 3.11 carries: each opens a run of ten decimal digits,
    and the runs are the class [\d] of a text pattern. *)
Definition decimal_zeros : list N :=
  [48; 1632; 1776; 1984; 2406; 2534; 2662; 2790; 2918; 3046; 3174; 3302;
   3430; 3558; 3664; 3792; 3872; 4160; 4240; 6112; 6160; 6470; 6608; 6784;
   6800; 6992; 7088; 7232; 7248; 42528; 43216; 43264; 43472; 43504; 43600;
   44016; 65296; 66720; 68912; 69734; 69872; 69942; 70096; 70384; 70736;
   70864; 71248; 71360; 71472; 71904; 72016; 72784; 73040; 73120; 92768;
   92864; 93008; 120782; 120792; 120802; 120812; 120822; 123200; 123632;
   125264; 130032]%N.

(** [\d]. *)
Definition u_digit (n : N) : bool :=
  existsb (fun z => (z <=? n) && (n <? z + 10))%N decimal_zeros.

(** [\s]: the characters for which [str.isspace] holds. *)
Definition u_space (n : N) : bool :=
  ((9 <=? n) && (n <=? 13) || (28 <=? n) && (n <=? 32)
   || (n =? 133) || (n =? 160) || (n =? 5760)
   || (8192 <=? n) && (n <=? 8202)
   || (n =? 8232) || (n =? 8233) || (n =? 8239) || (n =? 8287)
   || (n =? 12288))%N.

(** The class [[_\-\s]] that may precede a version token. *)
Definition u_sep (n : N) : bool := ((n =? 95) || (n =? 45))%N || u_space n.

(** The letter [v] under [re.I], and the dot. *)
Definition u_v (n : N) : bool := ((n =? 118) || (n =? 86))%N.
Definition u_dot (n : N) : bool := (n =? 46)%N.

End Text.
Import Text.

(* ================================================================== *)
(** ** The importer's pure helpers *)

(** [HEX64.match]: sixty-four characters of [[a-f0-9]] (either case, the
    pattern carries [re.I]) from the start, then [$]. *)
Definition HEX64_match (s : string) : bool :=
  (length (take 64 s) =? 64)%nat
  && forallb_str is_hexdigit (take 64 s)
  && at_dollar (drop 64 s).

(** *** [slugify] *)

(** [str.translate] with the table of the fifteen accented letters, read
    on their UTF-8 encodings (lead byte 0xC3). *)
Definition translit_tail (d : ascii) : option ascii :=
  let n := nat_of_ascii d in
  let among := existsb (Nat.eqb n) in
  if among [160; 162; 164]%nat then Some "a"%char
  else if among [169; 168; 170; 171]%nat then Some "e"%char
  else if among [175; 174]%nat then Some "i"%char
  else if among [180; 182]%nat then Some "o"%char
  else if among [185; 187; 188]%nat then Some "u"%char
  else if among [167]%nat then Some "c"%char
  else None.

Fixpoint translate_accents (s : string) : string :=
  match s with
  | EmptyString => EmptyString
  | String c s' =>
      match s' with
      | String d s'' =>
          match (if (c =? lead_c3)%char then translit_tail d else None) with
          | Some r => String r (translate_accents s'')
          | None => String c (translate_accents s')
          end
      | EmptyString => String c EmptyString
      end
  end.

(** The substitution of one dash for every maximal run outside
    [[a-z0-9]]: [in_run] tells that the dash of the current run has been
    written. *)
Fixpoint squeeze (in_run : bool) (s : string) : string :=
  match s with
  | EmptyString => EmptyString
  | String c s' =>
      if is_slug_char c then String c (squeeze false s')
      else if in_run then squeeze true s'
      else String "-" (squeeze true s')
  end.

Fixpoint lstrip_dash (s : string) : string :=
  match s with
  | String c s' => if (c =? "-")%char then lstrip_dash s' else s
  | EmptyString => EmptyString
  end.

Fixpoint rstrip_dash (s : string) : string :=
  match s with
  | EmptyString => EmptyString
  | String c s' =>
      let r := rstrip_dash s' in
      if (c =? "-")%char && (r =? "") then EmptyString else String c r
  end.

Definition strip_dash (s : string) : string := rstrip_dash (lstrip_dash s).

Definition slugify (s : string) : string :=
  let s := lower s in
  let s := translate_accents s in
  strip_dash (squeeze false s).

(** *** Version tokens *)

(** The rest of a version number once its first digit is known to be
    there: the longest run of digits and of dots followed by a digit
    (one or more digits, then any number of groups made of a dot and one
    or more digits). *)
Fixpoint vtail (s : list uchar) : list uchar :=
  match s with
  | [] => []
  | c :: s' =>
      if u_digit (code c) then c :: vtail s'
      else if u_dot (code c) then
        match s' with
        | d :: _ => if u_digit (code d) then c :: vtail s' else []
        | [] => []
        end
      else []
  end.

(** The version token, a letter v of either case and a version number,
    matched greedily at the head of [s]. *)
Definition version_at (s : list uchar) : option (list uchar) :=
  match s with
  | c :: (d :: _) as s' =>
      if u_v (code c) && u_digit (code d) then Some (c :: vtail s') else None
  | _ => None
  end.

(** The search of [parse_version_from_name]: a version token at the start
    of the name or right after one of [[_\-\s]]; group 1 is the token.  At
    each position the alternative [^] is tried before the separator. *)
Fixpoint search_version (at_start : bool) (s : list uchar) : option (list uchar) :=
  match (if at_start then version_at s else None) with
  | Some tok => Some tok
  | None =>
      match s with
      | [] => None
      | c :: s' =>
          match (if u_sep (code c) then version_at s' else None) with
          | Some tok => Some tok
          | None => search_version false s'
          end
      end
  end.

Definition parse_version_from_name (name : string) : option string :=
  match search_version true (uchars name) with
  | None => None
  | Some tok => Some (replace_char "." "-" (lower (text_of tok)))
  end.

(** The token followed by [$]: what is left after it when the match
    succeeds. *)
Definition version_to_dollar (s : list uchar) : option (list uchar) :=
  match version_at s with
  | Some tok =>
      let r := skipn (List.length tok) s in
      if at_dollar (text_of r) then Some r else None
  | None => None
  end.

(** The substitution of [collect_folder]: the first version token that
    starts the label or follows a separator, and runs up to [$], is
    removed together with that separator. *)
Fixpoint strip_version_suffix (at_start : bool) (s : list uchar) : list uchar :=
  match (if at_start then version_to_dollar s else None) with
  | Some r => r
  | None =>
      match s with
      | [] => []
      | c :: s' =>
          match (if u_sep (code c) then version_to_dollar s' else None) with
          | Some r => r
          | None => c :: strip_version_suffix false s'
          end
      end
  end.

(** *** [base_of] *)

(** [(attestation|receipt)$] under [(?i)]: what is left after the word. *)
Definition word_to_dollar (s : string) : option string :=
  let l := lower s in
  if prefix "attestation" l && at_dollar (drop 11 s) then Some (drop 11 s)
  else if prefix "receipt" l && at_dollar (drop 7 s) then Some (drop 7 s)
  else None.

(** The substitution of [base_of]: an optional underscore and one of the
    two words, in either case, up to [$], are removed. *)
Fixpoint base_of (s : string) : string :=
  match s with
  | EmptyString => EmptyString
  | String c s' =>
      match (if (c =? "_")%char then word_to_dollar s' else None) with
      | Some r => r
      | None =>
          match word_to_dollar s with
          | Some r => r
          | None => String c (base_of s')
          end
      end
  end.

(** [build_slug_version]; the [anchored_utc] argument is not used by the
    source either. *)
Definition build_slug_version (base_slug pdf_name folder_label : string)
    (anchored_utc : option string) : string :=
  let version :=
    match parse_version_from_name pdf_name with
    | Some v => Some v
    | None => parse_version_from_name folder_label
    end in
  let version := match version with Some v => v | None => "v1-0" end in
  base_slug ++ "_" ++ version.

(* ================================================================== *)
(** ** Values decoded from JSON, as Python sees them *)

(** What [json.loads] returns: [None], [bool], [int], [float] (a finite
    float is [m * 2^e]), [str], [list], and [dict] as the list of its
    items, looked up by the first item of a key. *)
Inductive json : Type :=
| JNull
| JBool (b : bool)
| JInt (n : Z)
| JFloat (m e : Z)
| JStr (s : string)
| JArr (xs : list json)
| JObj (kv : list (string * json)).

(** Truth value of an object, as [if x] and [x or y] test it. *)
Definition truthy (v : json) : bool :=
  match v with
  | JNull => false
  | JBool b => b
  | JInt n => negb (n =? 0)%Z
  | JFloat m _ => negb (m =? 0)%Z
  | JStr s => negb (s =? "")
  | JArr xs => match xs with [] => false | _ => true end
  | JObj kv => match kv with [] => false | _ => true end
  end.

(** [x or y]. *)
Definition py_or (x y : json) : json := if truthy x then x else y.

Fixpoint assoc {A : Type} (k : string) (kv : list (string * A)) : option A :=
  match kv with
  | [] => None
  | (k', v) :: rest => if (k' =? k) then Some v else assoc k rest
  end.

(** [d[k] = v]: the item of [k] is replaced where it stands, a new key
    comes last. *)
Fixpoint dict_set {A : Type} (k : string) (v : A) (kv : list (string * A))
    : list (string * A) :=
  match kv with
  | [] => [(k, v)]
  | (k', v') :: rest =>
      if (k' =? k) then (k, v) :: rest else (k', v') :: dict_set k v rest
  end.

(** [d.get(k, default)] and [d.get(k)]. *)
Definition dget_or (kv : list (string * json)) (k : string) (default : json) : json :=
  match assoc k kv with Some v => v | None => default end.
Definition dget (kv : list (string * json)) (k : string) : json :=
  dget_or kv k JNull.

(** Why a call stopped. *)
Inductive exn : Type :=
| BadValue      (** [AttributeError], [TypeError] or [KeyError] on a value *)
| ReadFailed    (** [OSError] while an input is read *)
| WriteFailed   (** [OSError] of a call that produces an output *)
| FileExists.   (** [FileExistsError] of [os.symlink] *)

(** The entry [k] of a record, null when it has none: how the statements
    read a record the importer has built. *)
Definition jget (v : json) (k : string) : json :=
  match v with
  | JObj kv => dget kv k
  | _ => JNull
  end.

(** Outcome of a call that may raise. *)
Inductive res (A : Type) : Type :=
| Ret (a : A)
| Raise (e : exn).
Arguments Ret {A} a.
Arguments Raise {A} e.

Definition bind {A B : Type} (r : res A) (k : A -> res B) : res B :=
  match r with Ret a => k a | Raise e => Raise e end.

Notation "'let*' x := r 'in' k" := (bind r (fun x => k))
  (at level 10, x pattern, r at level 100, k at level 200).

(** [v[k]] for a text key: the entry of a [dict]; a [KeyError] when the
    key is not there, a [TypeError] on a value that is not a [dict]. *)
Definition subscript (v : json) (k : string) : res json :=
  match v with
  | JObj kv =>
      match assoc k kv with
      | Some x => Ret x
      | None => Raise BadValue
      end
  | _ => Raise BadValue
  end.

(** [x.lower()] on a value that is truthy: an [AttributeError] unless it
    is a [str]. *)
Definition lower_if_truthy (v : json) : res (option string) :=
  if truthy v then
    match v with JStr s => Ret (Some (lower s)) | _ => Raise BadValue end
  else Ret None.

(** *** Dates *)

(** The fields of a [datetime]; [utcoffset] is the offset of an aware
    value, in seconds. *)
Record datetime : Type := {
  year : Z; month : Z; day : Z;
  hour : Z; minute : Z; second : Z; microsecond : Z;
  utcoffset : option Z
}.


(** The last decimal digit of [n]. *)
Definition digit (n : Z) : ascii := ascii_of_nat (48 + Z.to_nat (n mod 10)).

(** The decimal writing of a natural number, most significant digit
    first. *)
Fixpoint decimal_fuel (fuel : nat) (n : Z) : string :=
  match fuel with
  | O => EmptyString
  | S f =>
      if (n <? 10)%Z then String (digit n) EmptyString
      else (decimal_fuel f (n / 10) ++ String (digit n) EmptyString)%string
  end.

Definition decimal (n : Z) : string := decimal_fuel (S (Z.to_nat n)) n.

Fixpoint zeros (k : nat) : string :=
  match k with
  | O => EmptyString
  | S k' => String "0" (zeros k')
  end.

(** [str.zfill]: zeros in front, up to the width. *)
Definition zfill (width : nat) (s : string) : string :=
  (zeros (width - String.length s) ++ s)%string.

(** A field of two digits ([%m], [%d], [%H], [%M], [%S]). *)
Definition pad2 (n : Z) : string := zfill 2 (decimal n).

(** [dt.strftime("%Y-%m-%dT%H:%M:%SZ")].  The year is written by the C
    library, which does not pad it: a year below 1000 comes out on fewer
    than four digits.  The offset is not looked at: the letter Z is part
    of the format text. *)
Definition strftime_isoZ (d : datetime) : string :=
  decimal (year d) ++ "-" ++ pad2 (month d) ++ "-" ++ pad2 (day d) ++ "T" ++
  pad2 (hour d) ++ ":" ++ pad2 (minute d) ++ ":" ++ pad2 (second d) ++ "Z".

(** The shape [\d{4}-\d{2}-\d{2}T\d{2}:\d{2}:\d{2}Z] (it is [RE_ISO] of
    the sibling tool), over a whole text. *)
Definition is_iso_utc_seconds (s : string) : bool :=
  match list_ascii_of_string s with
  | [y1; y2; y3; y4; d1; m1; m2; d2; a1; a2; t; h1; h2; c1; n1; n2; c2; s1; s2; z] =>
      forallb is_digit [y1; y2; y3; y4; m1; m2; a1; a2; h1; h2; n1; n2; s1; s2]
      && (d1 =? "-")%char && (d2 =? "-")%char && (t =? "T")%char
      && (c1 =? ":")%char && (c2 =? ":")%char && (z =? "Z")%char
  | _ => false
  end.

(** The first value of a list of optional values. *)
Fixpoint first_some {A : Type} (l : list (option A)) : option A :=
  match l with
  | [] => None
  | Some x :: _ => Some x
  | None :: rest => first_some rest
  end.

(** [a or b] on results of [norm_iso]: [None] and the empty text are
    false. *)
Definition opt_or (a b : option string) : option string :=
  match a with
  | Some s => if (s =? "") then b else a
  | None => b
  end.

(** The family of ledger type tags. *)
Definition ledger_family : list string :=
  ["btc"; "bitcoin"; "opreturn"; "op-return"; "op_return"].

(** What [parse_woleet_receipt] returns. *)
Record receipt_info : Type := {
  proof_id : json;
  sha256 : option string;
  txid : option string;
  block_height : json;
  anchored_utc : option string;
  link : json
}.


(** The three variables the loop over the anchors updates. *)
Record anchor_acc : Type := {
  acc_txid : json;
  acc_block_height : json;
  acc_block_time : json
}.

Section Receipts.

(** [str(v)] for a value that is not a [str]. *)
Variable repr : json -> string.

(** [datetime.fromisoformat]; [None] stands for its [ValueError]. *)
Variable fromisoformat : string -> option datetime.

Definition py_str (v : json) : string :=
  match v with JStr s => s | _ => repr v end.

(** [norm_iso]: every exception is caught by its [except Exception]. *)
Definition norm_iso (dt_like : json) : option string :=
  if negb (truthy dt_like) then None
  else
    match fromisoformat (replace_char "Z" "+00:00" (py_str dt_like)) with
    | Some dt => Some (strftime_isoZ dt)
    | None => None
    end.

Definition is_ledger_anchor (kv : list (string * json)) : bool :=
  let atype := lower (py_str (dget_or kv "type" (JStr ""))) in
  existsb (String.eqb atype) ledger_family.

(** The body of [for a in anchors]; [a.get] raises unless [a] is a
    [dict]. *)
Definition anchor_step (acc : anchor_acc) (a : json) : res anchor_acc :=
  match a with
  | JObj kv =>
      if is_ledger_anchor kv then
        Ret {| acc_txid :=
                 py_or (dget kv "txId") (py_or (dget kv "txid") (acc_txid acc));
               acc_block_height :=
                 py_or (dget kv "blockHeight") (acc_block_height acc);
               acc_block_time :=
                 py_or (dget kv "time")
                   (py_or (dget kv "timestamp")
                      (py_or (dget kv "confirmedAt") (acc_block_time acc))) |}
      else Ret acc
  | _ => Raise BadValue
  end.

Fixpoint anchor_loop (acc : anchor_acc) (anchors : list json) : res anchor_acc :=
  match anchors with
  | [] => Ret acc
  | a :: rest => let* acc' := anchor_step acc a in anchor_loop acc' rest
  end.

(** What [for a in anchors] iterates over: a [dict] has been wrapped in a
    list; a text yields its characters, on which [a.get] raises at once
    (the text is not empty here); the other values are not iterable. *)
Definition anchors_to_iterate (anchors : json) : res (list json) :=
  match anchors with
  | JObj _ => Ret [anchors]
  | JArr xs => Ret xs
  | _ => Raise BadValue
  end.

Definition acc0 : anchor_acc :=
  {| acc_txid := JNull; acc_block_height := JNull; acc_block_time := JNull |}.

(** The chain of four [norm_iso] calls joined by [or]. *)
Definition resolve_anchored_utc (block_time : json) (data : list (string * json))
    : option string :=
  opt_or (norm_iso block_time)
    (opt_or (norm_iso (dget data "blockTime"))
       (opt_or (norm_iso (dget data "anchoredOn"))
          (norm_iso (dget data "created")))).

(** [parse_woleet_receipt]; [data.get] raises unless [data] is a [dict]. *)
Definition parse_woleet_receipt (data : json) : res receipt_info :=
  match data with
  | JObj d =>
      let proof_id := py_or (dget d "id") (py_or (dget d "proof_id") (dget d "proofId")) in
      let* target_hash :=
        lower_if_truthy
          (py_or (py_or (dget d "targetHash") (py_or (dget d "hash") (JStr ""))) JNull) in
      let anchors := py_or (dget d "anchors") (py_or (dget d "anchor") (JArr [])) in
      let* anchors := anchors_to_iterate anchors in
      let* acc := anchor_loop acc0 anchors in
      let* txid :=
        lower_if_truthy
          (py_or (acc_txid acc) (py_or (dget d "txid") (py_or (dget d "txId") JNull))) in
      let anchored_utc := resolve_anchored_utc (acc_block_time acc) d in
      let link := py_or (dget d "receiptUrl") (py_or (dget d "url") JNull) in
      Ret {| proof_id := proof_id;
             sha256 := target_hash;
             txid := txid;
             block_height := acc_block_height acc;
             anchored_utc := anchored_utc;
             link := link |}
  | _ => Raise BadValue
  end.

End Receipts.

(* ================================================================== *)
(** ** SHA-256 ([hashlib.sha256], FIPS 180-4) *)

Module SHA256.
Local Open Scope Z_scope.

(** A 32-bit word is a [Z] reduced modulo [2^32]. *)
Definition w32 (x : Z) : Z := x mod 4294967296.

Definition add32 (x y : Z) : Z := w32 (x + y).
Definition rotr (n x : Z) : Z := w32 (Z.lor (Z.shiftr x n) (Z.shiftl x (32 - n))).
Definition shr (n x : Z) : Z := Z.shiftr x n.
Definition not32 (x : Z) : Z := Z.lxor x 4294967295.

Definition Ch (x y z : Z) : Z := Z.lxor (Z.land x y) (Z.land (not32 x) z).
Definition Maj (x y z : Z) : Z :=
  Z.lxor (Z.lxor (Z.land x y) (Z.land x z)) (Z.land y z).
Definition Sigma0 (x : Z) : Z := Z.lxor (Z.lxor (rotr 2 x) (rotr 13 x)) (rotr 22 x).
Definition Sigma1 (x : Z) : Z := Z.lxor (Z.lxor (rotr 6 x) (rotr 11 x)) (rotr 25 x).
Definition sigma0 (x : Z) : Z := Z.lxor (Z.lxor (rotr 7 x) (rotr 18 x)) (shr 3 x).
Definition sigma1 (x : Z) : Z := Z.lxor (Z.lxor (rotr 17 x) (rotr 19 x)) (shr 10 x).

(** The first prime numbers, by trial division. *)
Fixpoint primes_from (fuel : nat) (n : Z) (count : nat) (found : list Z) : list Z :=
  match fuel, count with
  | S f, S c =>
      if existsb (fun q => n mod q =? 0) found
      then primes_from f (n + 1) count found
      else primes_from f (n + 1) c (n :: found)
  | _, _ => rev found
  end.

Definition first_primes (count : nat) : list Z := primes_from 400 2 count [].

(** The greatest [r] below [2^bits] that [keep] accepts, built bit by
    bit; [keep] is downward closed. *)
Fixpoint greatest (keep : Z -> bool) (bits : nat) (r : Z) : Z :=
  match bits with
  | O => r
  | S b =>
      let r' := r + 2 ^ Z.of_nat b in
      greatest keep b (if keep r' then r' else r)
  end.

(** The integer cube root. *)
Definition cube_root (n : Z) : Z := greatest (fun r => r * r * r <=? n) 40 0.

(** The constants: the first thirty-two bits of the fractional parts of
    the cube roots of the first sixty-four primes. *)
Definition K : list Z :=
  map (fun p => w32 (cube_root (p * 2 ^ 96))) (first_primes 64).

(** The eight working variables, and the hash value between blocks. *)
Record state : Type := {
  ha : Z; hb : Z; hc : Z; hd : Z; he : Z; hf : Z; hg : Z; hh : Z
}.

(** The initial hash value: the first thirty-two bits of the fractional
    parts of the square roots of the first eight primes. *)
Definition H0 : state :=
  let h := map (fun p => w32 (Z.sqrt (p * 2 ^ 64))) (first_primes 8) in
  {| ha := nth 0 h 0; hb := nth 1 h 0; hc := nth 2 h 0; hd := nth 3 h 0;
     he := nth 4 h 0; hf := nth 5 h 0; hg := nth 6 h 0; hh := nth 7 h 0 |}.

(** Padding: the bit 1, zeros up to 56 modulo 64 bytes, and the length in
    bits on eight bytes, most significant first. *)
Definition pad (msg : list Z) : list Z :=
  let n := Z.of_nat (List.length msg) in
  let zeros := Z.to_nat ((55 - n) mod 64) in
  let bits := 8 * n in
  msg ++ [128] ++ repeat 0 zeros
      ++ map (fun i => Z.shiftr bits (8 * i) mod 256) [7; 6; 5; 4; 3; 2; 1; 0].

(** Big-endian words of a block. *)
Fixpoint words (bs : list Z) : list Z :=
  match bs with
  | b3 :: b2 :: b1 :: b0 :: rest =>
      (((b3 * 256 + b2) * 256 + b1) * 256 + b0) :: words rest
  | _ => []
  end.

(** The message schedule, held newest word first while it grows. *)
Fixpoint schedule_rev (n : nat) (w : list Z) : list Z :=
  match n with
  | O => w
  | S k =>
      let x := add32 (add32 (sigma1 (nth 1 w 0)) (nth 6 w 0))
                     (add32 (sigma0 (nth 14 w 0)) (nth 15 w 0)) in
      schedule_rev k (x :: w)
  end.

Definition schedule (block : list Z) : list Z :=
  rev (schedule_rev 48 (rev (words block))).

Definition round (s : state) (kw : Z * Z) : state :=
  let (k, w) := kw in
  let t1 := add32 (add32 (add32 (hh s) (Sigma1 (he s))) (add32 (Ch (he s) (hf s) (hg s)) k)) w in
  let t2 := add32 (Sigma0 (ha s)) (Maj (ha s) (hb s) (hc s)) in
  {| ha := add32 t1 t2; hb := ha s; hc := hb s; hd := hc s;
     he := add32 (hd s) t1; hf := he s; hg := hf s; hh := hg s |}.

Definition compress (h : state) (block : list Z) : state :=
  let s := fold_left round (combine K (schedule block)) h in
  {| ha := add32 (ha h) (ha s); hb := add32 (hb h) (hb s);
     hc := add32 (hc h) (hc s); hd := add32 (hd h) (hd s);
     he := add32 (he h) (he s); hf := add32 (hf h) (hf s);
     hg := add32 (hg h) (hg s); hh := add32 (hh h) (hh s) |}.

Fixpoint blocks (n : nat) (h : state) (bs : list Z) : state :=
  match n with
  | O => h
  | S k => blocks k (compress h (firstn 64 bs)) (skipn 64 bs)
  end.

Definition digest (msg : list Z) : state :=
  let p := pad msg in
  blocks (List.length p / 64) H0 p.

Definition hexchar (n : Z) : ascii :=
  let k := Z.to_nat (n mod 16) in
  if (k <? 10)%nat then ascii_of_nat (48 + k) else ascii_of_nat (87 + k).

Definition hex_word (w : Z) (tail : string) : string :=
  String (hexchar (Z.shiftr w 28)) (String (hexchar (Z.shiftr w 24))
  (String (hexchar (Z.shiftr w 20)) (String (hexchar (Z.shiftr w 16))
  (String (hexchar (Z.shiftr w 12)) (String (hexchar (Z.shiftr w 8))
  (String (hexchar (Z.shiftr w 4)) (String (hexchar w) tail))))))).

Definition hex_state (s : state) : string :=
  hex_word (ha s) (hex_word (hb s) (hex_word (hc s) (hex_word (hd s)
  (hex_word (he s) (hex_word (hf s) (hex_word (hg s) (hex_word (hh s) ""))))))).

Definition bytes_of (data : string) : list Z :=
  map (fun c => Z.of_nat (nat_of_ascii c)) (list_ascii_of_string data).

(** [hashlib.sha256(data).hexdigest()]. *)
Definition hexdigest (data : string) : string := hex_state (digest (bytes_of data)).

End SHA256.

Arguments SHA256.hexdigest : simpl never.

(* ================================================================== *)
(** ** The file tree under the root of the repository *)

(** An entry of the tree.  A directory keeps its entries in the order
    [iterdir] yields them.  A link is a leaf: the tree does not follow
    links, and a link counts as an existing entry, as it does for the
    file system when its target is there (the importer only links to
    entries it has just listed).  Where a link whose target is missing,
    or a write through a link, would make a difference, the statements
    leave such trees out ([resolves], [settled], [no_link]). *)
Inductive node : Type :=
| File (mtime : Z) (data : string)
| Dir (mtime : Z) (entries : list (string * node))
| Link (target : list string).

(** A path, as its components below the root. *)
Definition path : Type := list string.

Module FS.

Fixpoint lookup (n : node) (p : path) : option node :=
  match p with
  | [] => Some n
  | x :: rest =>
      match n with
      | Dir _ es =>
          match assoc x es with
          | Some c => lookup c rest
          | None => None
          end
      | _ => None
      end
  end.

(** [Path.exists]. *)
Definition exists_ (fs : node) (p : path) : bool :=
  match lookup fs p with Some _ => true | None => false end.

(** [Path.is_dir]. *)
Definition is_dir (fs : node) (p : path) : bool :=
  match lookup fs p with Some (Dir _ _) => true | _ => false end.

(** [Path.iterdir], as the names it yields. *)
Definition iterdir (fs : node) (p : path) : res (list string) :=
  match lookup fs p with
  | Some (Dir _ es) => Ret (map fst es)
  | _ => Raise ReadFailed
  end.

(** The whole content of a file, as [open("rb")] and [read_text] get it. *)
Definition read_bytes (fs : node) (p : path) : res string :=
  match lookup fs p with
  | Some (File _ d) => Ret d
  | _ => Raise ReadFailed
  end.

(** [Path.stat().st_mtime]; a float, stood for by an integer that orders
    the same way. *)
Definition st_mtime (fs : node) (p : path) : res Z :=
  match lookup fs p with
  | Some (File m _) => Ret m
  | Some (Dir m _) => Ret m
  | _ => Raise ReadFailed
  end.

(** [Path.stat().st_size] of a file.  The importer hashes the file right
    after it asks for its size, so that a directory stops it either way. *)
Definition st_size (fs : node) (p : path) : res Z :=
  match lookup fs p with
  | Some (File _ d) => Ret (Z.of_nat (String.length d))
  | _ => Raise ReadFailed
  end.

(** Replaces the entry [x], or adds it after the others. *)
Definition set_entry (x : string) (c : node) (es : list (string * node))
    : list (string * node) := dict_set x c es.

Section Writes.

(** The clock reading given to what a run creates; the importer never
    reads it back. *)
Variable now : Z.

(** [Path.mkdir(parents=True, exist_ok=True)]. *)
Fixpoint mkdir_p (n : node) (p : path) : res node :=
  match n with
  | Dir m es =>
      match p with
      | [] => Ret n
      | x :: rest =>
          match mkdir_p (match assoc x es with Some c => c | None => Dir now [] end) rest with
          | Ret c' => Ret (Dir (match assoc x es with Some _ => m | None => now end)
                             (set_entry x c' es))
          | Raise e => Raise e
          end
      end
  | _ => Raise WriteFailed
  end.

(** Puts the leaf [leaf] at [p], whose parent has to be a directory.
    [may_replace] tells whether a file already there is replaced (opening
    for writing) or reported ([os.symlink]).  A directory or a link in the
    place of the leaf stops the write. *)
Fixpoint put_leaf (may_replace : bool) (leaf : node) (n : node) (p : path)
    : res node :=
  match n, p with
  | Dir m es, [x] =>
      match assoc x es with
      | None => Ret (Dir now (set_entry x leaf es))
      | Some (File _ _) =>
          if may_replace then Ret (Dir m (set_entry x leaf es))
          else Raise FileExists
      | Some _ => Raise (if may_replace then WriteFailed else FileExists)
      end
  | Dir m es, x :: rest =>
      match assoc x es with
      | Some c =>
          match put_leaf may_replace leaf c rest with
          | Ret c' => Ret (Dir m (set_entry x c' es))
          | Raise e => Raise e
          end
      | None => Raise WriteFailed
      end
  | _, _ => Raise WriteFailed
  end.

(** [Path.write_text] and [open("w")] followed by the writes. *)
Definition write_file (fs : node) (p : path) (data : string) : res node :=
  put_leaf true (File now data) fs p.

(** [shutil.copy2]: the content and the modification time of [src]; the
    importer calls it for a [dst] that is not there. *)
Definition copy2 (fs : node) (src dst : path) : res node :=
  match lookup fs src with
  | Some (File m d) => put_leaf true (File m d) fs dst
  | _ => Raise WriteFailed
  end.

(** [os.symlink(os.path.relpath(src, start=dst.parent), dst)]; the link
    is recorded with the path it resolves to. *)
Definition symlink (fs : node) (src dst : path) : res node :=
  put_leaf false (Link src) fs dst.

End Writes.

End FS.

(* ================================================================== *)
(** ** The importer *)

(** What a run prints.  A message is kept as the place it comes from and
    the values it shows; [ErrMissingStamped] goes to the error stream, the
    others to the standard output. *)
Inductive event : Type :=
| InfoPaths
| ErrMissingStamped
| WarnNoSubdir
| LogFolder (folder_label base_slug : string)
| WarnNoJson (d : string)
| WarnNoPdf (d : string)
| WarnHashFailed (d pdf : string)
| WarnBadJson (d jname : string)
| WarnUnmatched (jname base_json hash12 : string)
| WarnHashMismatch (pdf_name recalc12 target12 : string)
| DryWrite (p : path)
| DryCopy (symlink : bool) (src dst : path)
| OkDone (n : nat)
| WarnNothingIndexed
| Analyse (rel : path)
| WarnFooterMismatch (rel : path).

(** The lines that only a simulation prints. *)
Definition is_dry_event (e : event) : bool :=
  match e with
  | DryWrite _ | DryCopy _ _ _ => true
  | _ => false
  end.

(** The tree and what has been printed so far. *)
Record world : Type := { w_fs : node; w_out : list event }.

Inductive outcome (A : Type) : Type :=
| Done (a : A) (w : world)
| Stopped (e : exn) (w : world).
Arguments Done {A} a w.
Arguments Stopped {A} e w.

Definition M (A : Type) : Type := world -> outcome A.

Definition mret {A : Type} (a : A) : M A := fun w => Done a w.

Definition mbind {A B : Type} (m : M A) (k : A -> M B) : M B :=
  fun w => match m w with
           | Done a w' => k a w'
           | Stopped e w' => Stopped e w'
           end.

Notation "x <- m ;; k" := (mbind m (fun x => k))
  (at level 61, m at next level, right associativity).
Notation "m ;; k" := (mbind m (fun _ => k))
  (at level 61, right associativity).

(** [print]. *)
Definition emit (e : event) : M unit :=
  fun w => Done tt {| w_fs := w_fs w; w_out := w_out w ++ [e] |}.

(** [log(msg, verbose=v)]. *)
Definition log (e : event) (v : bool) : M unit :=
  if v then emit e else mret tt.

(** A call that reads the tree. *)
Definition reading {A : Type} (f : node -> res A) : M A :=
  fun w => match f (w_fs w) with
           | Ret a => Done a w
           | Raise e => Stopped e w
           end.

(** A call that changes the tree. *)
Definition writing (f : node -> res node) : M unit :=
  fun w => match f (w_fs w) with
           | Ret fs' => Done tt {| w_fs := fs'; w_out := w_out w |}
           | Raise e => Stopped e w
           end.

Definition lift {A : Type} (r : res A) : M A := reading (fun _ => r).

(** The command line: [--symlink], [--dry-run], [--verbose]. *)
Record args : Type := { symlink : bool; dry_run : bool; verbose : bool }.

Definition STAMPED : path := ["stamped"].
Definition PROOFS : path := ["proofs"].
Definition BY_DOC : path := ["proofs"; "by-doc"].

(** A row of the mapping, a line of the index: a [dict]. *)
Definition row : Type := list (string * json).

(** What a run that reaches its end leaves: its exit status and the two
    lists it has filled. *)
Record run_result : Type := {
  exit_status : Z;
  rows : list row;
  index_lines : list row
}.

(** [sorted(xs, key=...)]: a stable sort, [le] the order on the keys. *)
Fixpoint insert_sorted {A : Type} (le : A -> A -> bool) (x : A) (l : list A) : list A :=
  match l with
  | [] => [x]
  | y :: rest => if le x y then x :: l else y :: insert_sorted le x rest
  end.

Definition sort_by {A : Type} (le : A -> A -> bool) (l : list A) : list A :=
  fold_right (insert_sorted le) [] l.

(** [str(path)] with the backslashes turned, for a path below the root. *)
Definition rel_str (p : path) : string :=
  replace_char "\" "/" (String.concat "/" p).

(** [sha256_file]; reading by blocks of 8192 bytes feeds the same bytes. *)
Definition sha256_file (fs : node) (p : path) : res string :=
  let* data := FS.read_bytes fs p in Ret (SHA256.hexdigest data).

(** [target and HEX64.match(target)]. *)
Definition well_formed (target : option string) : bool :=
  match target with
  | Some t => negb (t =? "") && HEX64_match t
  | None => false
  end.

(** The four lists of [collect_folder], as file names of the folder. *)
Record folder_files : Type := {
  jsons : list string;
  pdf_canons : list string;
  attestations : list string;
  screenshots : list string
}.

(** The body of the loop of [collect_folder]. *)
Definition classify (acc : folder_files) (name : string) : folder_files :=
  let low := lower name in
  let ext := lower (suffix name) in
  if (ext =? ".json") then
    {| jsons := jsons acc ++ [name]; pdf_canons := pdf_canons acc;
       attestations := attestations acc; screenshots := screenshots acc |}
  else if (ext =? ".pdf") && (contains "receipt" low || contains "attestation" low) then
    {| jsons := jsons acc; pdf_canons := pdf_canons acc;
       attestations := attestations acc ++ [name]; screenshots := screenshots acc |}
  else if (ext =? ".pdf") then
    {| jsons := jsons acc; pdf_canons := pdf_canons acc ++ [name];
       attestations := attestations acc; screenshots := screenshots acc |}
  else if ((ext =? ".png") || (ext =? ".jpg") || (ext =? ".jpeg"))
          && (contains "woleet" low || contains "receipt" low || contains "attestation" low) then
    {| jsons := jsons acc; pdf_canons := pdf_canons acc;
       attestations := attestations acc; screenshots := screenshots acc ++ [name] |}
  else acc.

Definition no_files : folder_files :=
  {| jsons := []; pdf_canons := []; attestations := []; screenshots := [] |}.

(** The base slug of a folder. *)
Definition base_slug_of (folder_label : string) : string :=
  slugify (text_of (strip_version_suffix true (uchars folder_label))).

(** The substitution of [pick_attestation_for]: the extension [.pdf], in
    either case and up to [$], is removed. *)
Fixpoint strip_pdf_ext (s : string) : string :=
  match s with
  | EmptyString => EmptyString
  | String c s' =>
      if (lower (take 4 s) =? ".pdf") && at_dollar (drop 4 s) then drop 4 s
      else String c (strip_pdf_ext s')
  end.

(** [pick_attestation_for]. *)
Definition pick_attestation_for (pdf_name : string) (attestations : list string)
    : option string :=
  let pref := lower (strip_pdf_ext pdf_name) in
  find (fun a =>
          let low := lower a in
          contains pref low || contains "attestation" low || contains "receipt" low)
       attestations.

(** [pdf_by_base.setdefault(b, []).append(pdf)]. *)
Fixpoint dict_append (k : string) (v : string) (d : list (string * list string))
    : list (string * list string) :=
  match d with
  | [] => [(k, [v])]
  | (k', vs) :: rest =>
      if (k' =? k) then (k', vs ++ [v]) :: rest else (k', vs) :: dict_append k v rest
  end.

Definition build_pdf_by_base (pdf_canons : list string) : list (string * list string) :=
  fold_left (fun d pdf => dict_append (lower (base_of (stem pdf))) pdf d) pdf_canons [].

(** [s.split("_", 1)]: the two parts around the first underscore. *)
Fixpoint split_underscore (s : string) : option (string * string) :=
  match s with
  | EmptyString => None
  | String c s' =>
      if (c =? "_")%char then Some (EmptyString, s')
      else match split_underscore s' with
           | Some (a, b) => Some (String c a, b)
           | None => None
           end
  end.

(** The [version] entry of a record. *)
Definition version_of_slug (slug_version : string) : string :=
  match split_underscore slug_version with
  | Some (_, v) => v
  | None => "v1-0"
  end.

Definition of_opt (o : option string) : json :=
  match o with Some s => JStr s | None => JNull end.

(** [x or ""] for [x] a text or [None]. *)
Definition or_empty (o : option string) : json :=
  match o with
  | Some s => if (s =? "") then JStr "" else JStr s
  | None => JStr ""
  end.

(** The smallest element for [sorted(...)[0]]: the first of the least. *)
Fixpoint first_min {A : Type} (le : A -> A -> bool) (x : A) (l : list A) : A :=
  match l with
  | [] => x
  | y :: rest => if le x y then first_min le x rest else first_min le y rest
  end.

(** The order on the keys [(st_mtime, name)]. *)
Definition key_le (a b : Z * string) : bool :=
  (fst a <? fst b)%Z || ((fst a =? fst b)%Z && String.leb (snd a) (snd b)).

Section Importer.

Variable repr : json -> string.
Variable fromisoformat : string -> option datetime.

(** [json.loads] on the text of a file; [None] stands for any exception
    of the decoding. *)
Variable json_loads : string -> option json.

(** [json.dumps(v, ensure_ascii=False, indent=2)] when the flag is set,
    [json.dumps(v, ensure_ascii=False)] otherwise. *)
Variable json_dumps : bool -> json -> string.

(** What [csv.DictWriter] writes for a header and rows. *)
Variable csv_text : list string -> list row -> string.

(** [mimetypes.guess_type(name)[0]]. *)
Variable guess_type : string -> option string.

(** The clock reading of the run. *)
Variable now : Z.

Definition ensure_dir (p : path) (dry : bool) : M unit :=
  if dry then mret tt else writing (fun fs => FS.mkdir_p now fs p).

Definition copy_or_link (src dst : path) (symlink dry verbose : bool) : M unit :=
  if dry then log (DryCopy symlink src dst) verbose
  else fun w =>
    if FS.exists_ (w_fs w) dst then Done tt w
    else if symlink then
      match FS.symlink now (w_fs w) src dst with
      | Ret fs' => Done tt {| w_fs := fs'; w_out := w_out w |}
      | Raise FileExists => Done tt w
      | Raise e => Stopped e w
      end
    else writing (fun fs => FS.copy2 now fs src dst) w.

(** The line of [checksums.txt]; [proof_json['document']['sha256']]
    raises when the record has no such entry. *)
Definition checksum_line (proof_json : json) (pdf_path : path) : res string :=
  let* document := subscript proof_json "document" in
  let* sha := subscript document "sha256" in
  Ret ("SHA256  " ++ py_str repr sha ++ "  " ++ rel_str pdf_path ++ newline)%string.

(** [write_proof_set].  [open("w")] creates or empties [checksums.txt]
    before its line is computed. *)
Definition write_proof_set (outdir : path) (proof_json : json) (pdf_path : path)
    (receipt_json_path : path) (attestation_pdf : option path)
    (screenshots : list path) (symlink dry verbose : bool) : M unit :=
  ensure_dir outdir dry ;;
  (if dry then log (DryWrite (outdir ++ ["proof.json"])) verbose
   else writing (fun fs =>
          FS.write_file now fs (outdir ++ ["proof.json"]) (json_dumps true proof_json))) ;;
  (if dry then log (DryWrite (outdir ++ ["checksums.txt"])) verbose
   else
     writing (fun fs => FS.write_file now fs (outdir ++ ["checksums.txt"]) "") ;;
     line <- lift (checksum_line proof_json pdf_path) ;;
     writing (fun fs => FS.write_file now fs (outdir ++ ["checksums.txt"]) line)) ;;
  copy_or_link receipt_json_path (outdir ++ ["woleet_receipt.json"]) symlink dry verbose ;;
  (match attestation_pdf with
   | Some a => copy_or_link a (outdir ++ ["woleet_receipt.pdf"]) symlink dry verbose
   | None => mret tt
   end) ;;
  (match screenshots with
   | s :: _ => copy_or_link s (outdir ++ [last s ""]) symlink dry verbose
   | [] => mret tt
   end).

(** [collect_folder]; the label and the base slug are those of [d]. *)
Definition collect_folder (d : string) (verbose : bool) : M folder_files :=
  log (LogFolder d (base_slug_of d)) verbose ;;
  names <- reading (fun fs => FS.iterdir fs (STAMPED ++ [d])) ;;
  mret (fold_left classify (sort_by String.leb names) no_files).

(** The index of the documents by their hash; a file that cannot be
    hashed is reported and left out. *)
Fixpoint build_pdf_index (d : string) (pdfs : list string)
    (idx : list (string * string)) : M (list (string * string)) :=
  match pdfs with
  | [] => mret idx
  | pdf :: rest =>
      fun w =>
        match sha256_file (w_fs w) (STAMPED ++ [d; pdf]) with
        | Ret h => build_pdf_index d rest (dict_set h pdf idx) w
        | Raise _ => (emit (WarnHashFailed d pdf) ;; build_pdf_index d rest idx) w
        end
  end.

(** The loop that looks, among several candidates, for the one whose hash
    is the declared one. *)
Fixpoint find_by_hash (fs : node) (d : string) (target : string)
    (candidates : list string) : res (option string) :=
  match candidates with
  | [] => Ret None
  | c :: rest =>
      let* h := sha256_file fs (STAMPED ++ [d; c]) in
      if (lower h =? target) then Ret (Some c) else find_by_hash fs d target rest
  end.

(** The keys [(p.stat().st_mtime, p.name)] of the candidates. *)
Fixpoint mtime_keys (fs : node) (d : string) (candidates : list string)
    : res (list (Z * string)) :=
  match candidates with
  | [] => Ret []
  | c :: rest =>
      let* m := FS.st_mtime fs (STAMPED ++ [d; c]) in
      let* ks := mtime_keys fs d rest in
      Ret ((m, c) :: ks)
  end.

(** [sorted(candidates, key=...)[0]]. *)
Definition oldest (fs : node) (d : string) (candidates : list string)
    : res (option string) :=
  let* ks := mtime_keys fs d candidates in
  match ks with
  | [] => Ret None
  | k :: rest => Ret (Some (snd (first_min key_le k rest)))
  end.

Definition hash12 (target : option string) : string :=
  match target with
  | Some t => if (t =? "") then "None" else take 12 t
  | None => "None"
  end.

(** The matching of a receipt: by name first, then by hash.  [None] is the
    receipt left without a document (the [continue]). *)
Definition match_pdf (d : string) (pdf_by_base : list (string * list string))
    (pdf_index : list (string * string)) (jname : string)
    (target : option string) : M (option string) :=
  let base_json := lower (base_of (stem jname)) in
  let candidates :=
    match assoc base_json pdf_by_base with Some cs => cs | None => [] end in
  match candidates with
  | c :: more =>
      match more with
      | [] => mret (Some c)
      | _ =>
          by_hash <-
            (if well_formed target
             then reading (fun fs =>
                    find_by_hash fs d (match target with Some t => t | None => "" end)
                      candidates)
             else mret None) ;;
          match by_hash with
          | Some p => mret (Some p)
          | None => reading (fun fs => oldest fs d candidates)
          end
      end
  | [] =>
      match (if well_formed target
             then assoc (match target with Some t => t | None => "" end) pdf_index
             else None) with
      | Some p => mret (Some p)
      | None =>
          emit (WarnUnmatched jname base_json (hash12 target)) ;;
          mret None
      end
  end.

(** The record of a matched pair. *)
Definition make_proof_json (folder_label base_slug slug_version rel_filename
    mimetype : string) (size_bytes : Z) (calc_sha : string)
    (info : receipt_info) (jname : string) : json :=
  JObj [
    ("schema_version", JStr "1.0");
    ("document", JObj [
       ("title", JStr folder_label);
       ("slug", JStr base_slug);
       ("version", JStr (version_of_slug slug_version));
       ("filename", JStr rel_filename);
       ("mimetype", JStr mimetype);
       ("size_bytes", JInt size_bytes);
       ("sha256", JStr calc_sha);
       ("canonical_uri", JNull) ]);
    ("authorship", JObj [
       ("author", JStr "Caroline Caldwell – GaiaSentinel");
       ("copyright", JStr "© 2025 Caroline Caldwell – GaiaSentinel");
       ("license", JStr "CC BY-NC-ND 4.0 International") ]);
    ("anchoring", JObj [
       ("anchor_network", JStr "bitcoin-mainnet");
       ("txid", of_opt (txid info));
       ("block_height", block_height info);
       ("block_time_utc", of_opt (anchored_utc info));
       ("op_return", JNull) ]);
    ("woleet", JObj [
       ("proof_id", proof_id info);
       ("link", link info) ]);
    ("dates", JObj [
       ("created_utc", JNull);
       ("anchored_utc", of_opt (anchored_utc info));
       ("published_utc", JNull) ]);
    ("notes", JStr ("Import depuis stamped/ ; reçu = " ++ jname)) ].

Definition make_row (folder_label slug_version rel_filename mimetype : string)
    (size_bytes : Z) (calc_sha : string) (info : receipt_info) : row :=
  [ ("slug", JStr slug_version);
    ("filename", JStr rel_filename);
    ("sha256", JStr calc_sha);
    ("bitcoin_txid", or_empty (txid info));
    ("woleet_proof_id", py_or (proof_id info) (JStr ""));
    ("anchored_utc", or_empty (anchored_utc info));
    ("canonical_uri", JStr "");
    ("title", JStr folder_label);
    ("version", JStr (version_of_slug slug_version));
    ("mimetype", JStr mimetype);
    ("size_bytes", JInt size_bytes) ].

Definition make_index_line (slug_version rel_filename calc_sha : string)
    (info : receipt_info) : row :=
  [ ("slug", JStr slug_version);
    ("filename", JStr rel_filename);
    ("sha256", JStr calc_sha);
    ("bitcoin_txid", or_empty (txid info));
    ("woleet_proof_id", py_or (proof_id info) (JStr ""));
    ("anchored_utc", or_empty (anchored_utc info)) ].

(** What the loops of [main] carry: [rows] and [index_lines]. *)
Definition tables : Type := (list row * list row)%type.

(** What the loop body has computed for a matched pair when it calls
    [write_proof_set]. *)
Record assembled : Type := {
  a_slug_version : string;
  a_outdir : path;
  a_proof_json : json;
  a_pdf_path : path;
  a_attestation : option path;
  a_row : row;
  a_index_line : row
}.

(** The part of the loop over the receipts that follows the matching, up
    to the record. *)
Definition assemble_record (d : string) (files : folder_files)
    (jname : string) (info : receipt_info) (pdf_match : string) : M assembled :=
  let target := sha256 info in
  let pdf_path := STAMPED ++ [d; pdf_match] in
  let mimetype :=
    match guess_type pdf_match with
    | Some m => if (m =? "") then "application/pdf" else m
    | None => "application/pdf"
    end in
  size_bytes <- reading (fun fs => FS.st_size fs pdf_path) ;;
  calc_sha <- reading (fun fs => sha256_file fs pdf_path) ;;
  (if well_formed target
      && negb (calc_sha =? match target with Some t => t | None => "" end)
   then emit (WarnHashMismatch pdf_match (take 12 calc_sha) (hash12 target))
   else mret tt) ;;
  let base_slug := base_slug_of d in
  let slug_version := build_slug_version base_slug pdf_match d (anchored_utc info) in
  let att_pdf := pick_attestation_for pdf_match (attestations files) in
  let rel_filename := rel_str pdf_path in
  mret {| a_slug_version := slug_version;
          a_outdir := BY_DOC ++ [slug_version];
          a_proof_json :=
            make_proof_json d base_slug slug_version rel_filename mimetype
              size_bytes calc_sha info jname;
          a_pdf_path := pdf_path;
          a_attestation :=
            match att_pdf with Some x => Some (STAMPED ++ [d; x]) | None => None end;
          a_row :=
            make_row d slug_version rel_filename mimetype size_bytes calc_sha info;
          a_index_line := make_index_line slug_version rel_filename calc_sha info |}.

(** The whole of it: the record, its files, and the two tables. *)
Definition assemble (a : args) (d : string) (files : folder_files)
    (jname : string) (info : receipt_info) (pdf_match : string)
    (acc : tables) : M tables :=
  r <- assemble_record d files jname info pdf_match ;;
  write_proof_set (a_outdir r) (a_proof_json r) (a_pdf_path r) (STAMPED ++ [d; jname])
    (a_attestation r)
    (map (fun x => STAMPED ++ [d; x]) (screenshots files))
    (symlink a) (dry_run a) (verbose a) ;;
  mret (fst acc ++ [a_row r], snd acc ++ [a_index_line r]).

(** The body of the loop over the receipts of a folder. *)
Definition import_receipt (a : args) (d : string) (files : folder_files)
    (pdf_by_base : list (string * list string))
    (pdf_index : list (string * string)) (acc : tables) (jname : string)
    : M tables :=
  fun w =>
    match (let* text := FS.read_bytes (w_fs w) (STAMPED ++ [d; jname]) in
           match json_loads text with
           | Some v => Ret v
           | None => Raise BadValue
           end) with
    | Raise _ => (emit (WarnBadJson d jname) ;; mret acc) w
    | Ret jdata =>
        (info <- lift (parse_woleet_receipt repr fromisoformat jdata) ;;
         m <- match_pdf d pdf_by_base pdf_index jname (sha256 info) ;;
         match m with
         | None => mret acc
         | Some pdf_match => assemble a d files jname info pdf_match acc
         end) w
    end.

Fixpoint for_each {A B : Type} (body : B -> A -> M B) (acc : B) (l : list A) : M B :=
  match l with
  | [] => mret acc
  | x :: rest => acc' <- body acc x ;; for_each body acc' rest
  end.

(** The body of the loop over the folders of [stamped/]. *)
Definition import_folder (a : args) (acc : tables) (d : string) : M tables :=
  files <- collect_folder d (verbose a) ;;
  match jsons files with
  | [] => emit (WarnNoJson d) ;; mret acc
  | _ =>
      match pdf_canons files with
      | [] => emit (WarnNoPdf d) ;; mret acc
      | _ =>
          pdf_index <- build_pdf_index d (pdf_canons files) [] ;;
          let pdf_by_base := build_pdf_by_base (pdf_canons files) in
          for_each (import_receipt a d files pdf_by_base pdf_index) acc (jsons files)
      end
  end.

Definition headers : list string :=
  ["slug"; "filename"; "sha256"; "bitcoin_txid"; "woleet_proof_id";
   "anchored_utc"; "canonical_uri"; "title"; "version"; "mimetype"; "size_bytes"].

Definition index_text (lines : list row) : string :=
  String.concat "" (map (fun l => (json_dumps false (JObj l) ++ newline)%string) lines).

(** The end of [main]: the two tables are written in full. *)
Definition write_tables (a : args) (t : tables) : M unit :=
  match fst t with
  | [] => emit WarnNothingIndexed
  | _ =>
      (if dry_run a then mret tt
       else
         writing (fun fs =>
           FS.write_file now fs (PROOFS ++ ["mapping.csv"]) (csv_text headers (fst t))) ;;
         writing (fun fs =>
           FS.write_file now fs (PROOFS ++ ["index.jsonl"]) (index_text (snd t)))) ;;
      emit (OkDone (List.length (fst t)))
  end.

(** [main]; [sys.exit(1)] is the result with status 1, the end of the
    function the result with status 0. *)
Definition main (a : args) : M run_result :=
  emit InfoPaths ;;
  present <- reading (fun fs => Ret (FS.exists_ fs STAMPED)) ;;
  if negb present then
    emit ErrMissingStamped ;;
    mret {| exit_status := 1; rows := []; index_lines := [] |}
  else
    ensure_dir PROOFS (dry_run a) ;;
    ensure_dir BY_DOC (dry_run a) ;;
    subdirs <- reading (fun fs =>
                 let* names := FS.iterdir fs STAMPED in
                 Ret (filter (fun n => FS.is_dir fs (STAMPED ++ [n])) names)) ;;
    (match subdirs with [] => emit WarnNoSubdir | _ => mret tt end) ;;
    t <- for_each (import_folder a) ([], [])
           (sort_by (fun x y => String.leb (lower x) (lower y)) subdirs) ;;
    write_tables a t ;;
    mret {| exit_status := 0; rows := fst t; index_lines := snd t |}.

(** *** [tools/extract_proofs_from_pdfs.py]

    The body of the loop of its [main] over the documents below [docs/],
    from the metadata of the file on.  The text of the last pages comes
    from the PDF reader, and [parse_proof] from regular expressions over
    that text: what they give is the argument [proof]. *)

Record footer_proof : Type := {
  f_sha256 : option string;
  f_bitcoin_txid : option string;
  f_woleet_proof_id : option string;
  f_anchored_utc : option string
}.

(** The [slugify] of that tool, which has no table of accents. *)
Definition extract_slugify (name : string) : string :=
  strip_dash (squeeze false (lower name)).

Definition extract_proof_json (rel : path) (base mimetype : string)
    (size_bytes : Z) (calc_sha : string) (proof : footer_proof) : json :=
  JObj [
    ("schema_version", JStr "1.0");
    ("document", JObj [
       ("title", JStr base);
       ("slug", JStr (extract_slugify base));
       ("filename", JStr (rel_str rel));
       ("mimetype", JStr mimetype);
       ("size_bytes", JInt size_bytes);
       ("sha256", JStr calc_sha);
       ("canonical_uri", JNull);
       ("version", JNull) ]);
    ("authorship", JObj [
       ("author", JStr "Caroline Caldwell – GaiaSentinel");
       ("copyright", JStr "© 2025 Caroline Caldwell – GaiaSentinel");
       ("license", JStr "CC BY-NC-ND 4.0 International") ]);
    ("anchoring", JObj [
       ("anchor_network", JStr "bitcoin-mainnet");
       ("txid", of_opt (f_bitcoin_txid proof));
       ("block_height", JNull);
       ("block_time_utc", of_opt (f_anchored_utc proof));
       ("op_return", JNull) ]);
    ("woleet", JObj [
       ("proof_id", of_opt (f_woleet_proof_id proof));
       ("link", JNull) ]);
    ("dates", JObj [
       ("created_utc", JNull);
       ("anchored_utc", of_opt (f_anchored_utc proof));
       ("published_utc", JNull) ]);
    ("notes", JStr "Preuve extraite automatiquement depuis le pied de page du PDF.") ].

Definition extract_row (rel : path) (base mimetype : string) (size_bytes : Z)
    (calc_sha : string) (proof : footer_proof) : row :=
  [ ("slug", JStr (extract_slugify base));
    ("filename", JStr (rel_str rel));
    ("sha256", JStr calc_sha);
    ("bitcoin_txid", of_opt (f_bitcoin_txid proof));
    ("woleet_proof_id", of_opt (f_woleet_proof_id proof));
    ("anchored_utc", of_opt (f_anchored_utc proof));
    ("canonical_uri", JStr "");
    ("title", JStr base);
    ("version", JStr "");
    ("mimetype", JStr mimetype);
    ("size_bytes", JInt size_bytes) ].

(** One turn of the loop: the record of [rel] is written and returned
    with its row. *)
Definition extract_pdf (rel : path) (proof : footer_proof) : M (json * row) :=
  let name := last rel "" in
  emit (Analyse rel) ;;
  size_bytes <- reading (fun fs => FS.st_size fs rel) ;;
  let mimetype :=
    match guess_type name with
    | Some m => if (m =? "") then "application/pdf" else m
    | None => "application/pdf"
    end in
  calc_sha <- reading (fun fs => sha256_file fs rel) ;;
  (match f_sha256 proof with
   | Some s =>
       if negb (s =? "") && negb (s =? calc_sha)
       then emit (WarnFooterMismatch rel) else mret tt
   | None => mret tt
   end) ;;
  let base := stem name in
  let pdir := BY_DOC ++ [extract_slugify base] in
  let pj := extract_proof_json rel base mimetype size_bytes calc_sha proof in
  writing (fun fs => FS.mkdir_p now fs pdir) ;;
  writing (fun fs => FS.write_file now fs (pdir ++ ["proof.json"]) (json_dumps true pj)) ;;
  writing (fun fs =>
    FS.write_file now fs (pdir ++ ["checksums.txt"])
      ("SHA256  " ++ calc_sha ++ "  " ++ String.concat "/" rel ++ newline)) ;;
  mret (pj, extract_row rel base mimetype size_bytes calc_sha proof).

End Importer.

(* ================================================================== *)
(** ** The footer of a document ([parse_proof] of the extraction tool)

    The three patterns of the tool are read on ASCII text, where the
    classes [\w] and [\d] of Python are [[A-Za-z0-9_]] and [[0-9]]. *)

(** A character of [\w]. *)
Definition is_word (c : ascii) : bool :=
  is_lower_letter c || is_upper_letter c || is_digit c || (c =? "_")%char.

(** The [\b] that closes a pattern whose last character is of [\w]: the
    end of the text, or a character outside [\w]. *)
Definition boundary_after (s : string) : bool :=
  match s with
  | EmptyString => true
  | String c _ => negb (is_word c)
  end.

(** [n] characters of [[a-f0-9]], in either case. *)
Definition hex_run (n : nat) (s : string) : bool :=
  (length (take n s) =? n)%nat && forallb_str is_hexdigit (take n s).

Definition char_among (cs : string) (s : string) : bool :=
  match s with
  | String c _ => existsb (Ascii.eqb c) (list_ascii_of_string cs)
  | EmptyString => false
  end.

(** [RE_HEX64] from the first character of [s], its opening [\b] apart. *)
Definition hex64_here (s : string) : bool :=
  hex_run 64 s && boundary_after (drop 64 s).

(** [RE_UUID], likewise. *)
Definition uuid_here (s : string) : bool :=
  hex_run 8 s && char_among "-" (drop 8 s)
  && hex_run 4 (drop 9 s) && char_among "-" (drop 13 s)
  && char_among "12345" (drop 14 s) && hex_run 3 (drop 15 s)
  && char_among "-" (drop 18 s)
  && char_among "89abAB" (drop 19 s) && hex_run 3 (drop 20 s)
  && char_among "-" (drop 23 s)
  && hex_run 12 (drop 24 s) && boundary_after (drop 36 s).

(** [RE_ISO], likewise. *)
Definition iso_here (s : string) : bool :=
  is_iso_utc_seconds (take 20 s) && boundary_after (drop 20 s).

(** [pattern.findall(text)] for a pattern that matches [n + 1] characters
    of [\w] at their first and last place: [prev_word] tells whether the
    character before [s] is of [\w], [skip] how many characters of the
    last match are still to be passed. *)
Fixpoint findall (here : string -> bool) (n : nat) (skip : nat) (prev_word : bool)
    (s : string) : list string :=
  match s with
  | EmptyString => []
  | String c s' =>
      match skip with
      | S k => findall here n k true s'
      | O =>
          if negb prev_word && here s
          then take (S n) s :: findall here n n true s'
          else findall here n 0 (is_word c) s'
      end
  end.

(** [pattern.search(text)], as the text of the match. *)
Definition search (here : string -> bool) (n : nat) (s : string) : option string :=
  match findall here n 0 false s with
  | m :: _ => Some m
  | [] => None
  end.

(** [parse_proof]. *)
Definition parse_proof (text : string) : footer_proof :=
  let hexes := findall hex64_here 63 0 false text in
  let sha256 :=
    match hexes with
    | h :: _ => Some (lower h)
    | [] => None
    end in
  let txid :=
    match hexes with
    | h :: rest =>
        match find (fun x => negb (lower x =? lower h)) rest with
        | Some x => Some (lower x)
        | None => None
        end
    | [] => None
    end in
  {| f_sha256 := sha256;
     f_bitcoin_txid := txid;
     f_woleet_proof_id :=
       match search uuid_here 35 text with
       | Some m => Some (lower m)
       | None => None
       end;
     f_anchored_utc := search iso_here 19 text |}.

(* ================================================================== *)
(** ** Reading of the anchors, for the statements

    The three values an anchor may carry, as the loop of
    [parse_woleet_receipt] reads them, and the anchors that carry one. *)

Definition anchor_txid (kv : list (string * json)) : json :=
  py_or (dget kv "txId") (dget kv "txid").

Definition anchor_height (kv : list (string * json)) : json :=
  dget kv "blockHeight".

Definition anchor_time (kv : list (string * json)) : json :=
  py_or (dget kv "time") (py_or (dget kv "timestamp") (dget kv "confirmedAt")).

(** An entry of the ledger family that carries a value for [f]. *)
Definition carries (repr : json -> string) (f : list (string * json) -> json)
    (a : json) : bool :=
  match a with
  | JObj kv => is_ledger_anchor repr kv && truthy (f kv)
  | _ => false
  end.

(** The value of [f] in the last entry that carries one, [init] when no
    entry does. *)
Definition last_carrying (repr : json -> string) (f : list (string * json) -> json)
    (init : json) (anchors : list json) : json :=
  match find (carries repr f) (rev anchors) with
  | Some (JObj kv) => f kv
  | _ => init
  end.






(* ================================================================== *)
(** ** Times, for the statements *)

(** A time as a text shows it: year, month, day, hour, minute, second. *)
Definition clock : Type := (Z * Z * Z * Z * Z * Z)%type.


(** The number a run of ASCII digits writes. *)
Fixpoint number_from (acc : Z) (s : string) : Z :=
  match s with
  | EmptyString => acc
  | String c r => number_from (10 * acc + (Z.of_nat (nat_of_ascii c) - 48)) r
  end.

(** The longest run of digits that starts a text, and what follows it. *)
Fixpoint span_digits (s : string) : string * string :=
  match s with
  | String c r =>
      if is_digit c then (String c (fst (span_digits r)), snd (span_digits r))
      else (EmptyString, s)
  | EmptyString => (EmptyString, EmptyString)
  end.

Definition read_number (s : string) : option (Z * string) :=
  let ds := fst (span_digits s) in
  if (ds =? "") then None else Some (number_from 0 ds, snd (span_digits s)).

Definition read_two (s : string) : option (Z * string) :=
  match s with
  | String a (String b r) =>
      if is_digit a && is_digit b
      then Some (number_from 0 (String a (String b EmptyString)), r)
      else None
  | _ => None
  end.

Definition read_char (c : ascii) (s : string) : option string :=
  match s with
  | String x r => if (x =? c)%char then Some r else None
  | EmptyString => None
  end.

Definition and_then {A B : Type} (o : option A) (k : A -> option B) : option B :=
  match o with
  | Some a => k a
  | None => None
  end.

(** The reading of a text [Y-MM-DDTHH:MM:SSZ], the year on any number of
    digits: the time it shows. *)
Definition read_isoZ (s : string) : option clock :=
  and_then (read_number s) (fun y =>
  and_then (read_char "-" (snd y)) (fun r1 =>
  and_then (read_two r1) (fun mo =>
  and_then (read_char "-" (snd mo)) (fun r2 =>
  and_then (read_two r2) (fun d =>
  and_then (read_char "T" (snd d)) (fun r3 =>
  and_then (read_two r3) (fun h =>
  and_then (read_char ":" (snd h)) (fun r4 =>
  and_then (read_two r4) (fun mi =>
  and_then (read_char ":" (snd mi)) (fun r5 =>
  and_then (read_two r5) (fun se =>
    if (snd se =? "Z") then Some (fst y, fst mo, fst d, fst h, fst mi, fst se)
    else None))))))))))).








(* ================================================================== *)
(** ** Version tokens, for the statements *)

(** A version number: one or more digits, then any number of groups made
    of a dot and one or more digits. *)
Inductive version_number : list uchar -> Prop :=
| vn_last (c : uchar) :
    u_digit (code c) = true -> version_number [c]
| vn_more (c : uchar) (s : list uchar) :
    u_digit (code c) = true -> version_number s -> version_number (c :: s)
| vn_dot (c p : uchar) (s : list uchar) :
    u_digit (code c) = true -> u_dot (code p) = true -> version_number s ->
    version_number (c :: p :: s).

(** A version token: the letter v, in either case, and a version number. *)
Definition version_token (tok : list uchar) : Prop :=
  exists c n, tok = c :: n /\ u_v (code c) = true /\ version_number n.





(** The form a token takes in a slug. *)
Definition version_form (tok : string) : string := replace_char "." "-" (lower tok).

(** The forms a character read from a text takes. *)
Definition uform (c : uchar) : Prop :=
  (exists a, c = one_byte a)
  \/ (exists a b, two_ok a b = true /\ c = two_bytes a b)
  \/ (exists a b x, three_ok a b x = true /\ c = three_bytes a b x)
  \/ (exists a b x y, four_ok a b x y = true /\ c = four_bytes a b x y).

(** The characters of a slug: a lower-case letter, a digit or a dash. *)
Definition slug_or_dash (c : ascii) : bool := is_slug_char c || (c =? "-")%char.

(** A character that [lower] leaves alone wherever it stands. *)
Definition plain (c : ascii) : bool :=
  negb (is_upper_letter c) && negb (c =? lead_c3)%char.

(* ================================================================== *)
(** ** The shape of a receipt, for the statements *)

(** A value on which [.lower()] is not called, or is defined: a false
    value or a text. *)
Definition text_or_false (v : json) : Prop :=
  truthy v = false \/ exists s, v = JStr s.

Definition is_object (v : json) : Prop :=
  match v with JObj _ => True | _ => False end.

(** What the receipt gives for its anchors. *)
Definition anchors_value (d : list (string * json)) : json :=
  py_or (dget d "anchors") (py_or (dget d "anchor") (JArr [])).

(** The keys [parse_woleet_receipt] looks at, at the top level. *)
Definition receipt_keys : list string :=
  ["id"; "proof_id"; "proofId"; "targetHash"; "hash"; "anchors"; "anchor";
   "txid"; "txId"; "blockTime"; "anchoredOn"; "created"; "receiptUrl"; "url"].

(* ================================================================== *)
(** ** The two tables, for the statements *)

(** The index lines are the rows cut after their sixth column, and every
    row has the columns of the header. *)
Definition aligned (t : tables) : Prop :=
  snd t = map (firstn 6) (fst t)
  /\ Forall (fun r => map fst r = headers) (fst t).

(* ================================================================== *)
(** ** The shape of a slug, for the statements *)

Definition starts_dash (s : string) : bool :=
  match s with
  | String c _ => (c =? "-")%char
  | EmptyString => false
  end.

Fixpoint ends_dash (s : string) : bool :=
  match s with
  | EmptyString => false
  | String c EmptyString => (c =? "-")%char
  | String _ s' => ends_dash s'
  end.

Fixpoint no_double_dash (s : string) : bool :=
  match s with
  | EmptyString => true
  | String c s' => negb ((c =? "-")%char && starts_dash s') && no_double_dash s'
  end.

(** Lower-case letters, digits and single dashes, with no dash at either
    end. *)
Definition well_slugged (s : string) : bool :=
  forallb_str slug_or_dash s && negb (starts_dash s) && negb (ends_dash s)
  && no_double_dash s.

(** The characters of a composite slug. *)
Definition slug_version_char (c : ascii) : bool := slug_or_dash c || (c =? "_")%char.

(** A character of [[a-f0-9]]. *)
Definition is_lower_hex (c : ascii) : bool := is_digit c || ascii_in 97 102 c.

Definition is_ascii_char (c : ascii) : bool := (nat_of_ascii c <? 128)%nat.

(** A byte that does not start the encoding of a character of U+00C0 to
    U+00FF, where the accented letters of [slugify] are. *)
Definition not_c3 (c : ascii) : bool := negb (c =? lead_c3)%char.

(** A byte of the text of a version number: an ASCII digit, the dot, or
    a byte of a digit that is not an ASCII one. *)
Definition number_byte (c : ascii) : bool :=
  is_digit c || (c =? ".")%char || (negb (is_ascii_char c) && not_c3 c).

(** A byte of a version in a slug: a character of a slug, or a byte of a
    digit that is not an ASCII one. *)
Definition version_char (c : ascii) : bool :=
  slug_or_dash c || negb (is_ascii_char c).

(* ================================================================== *)
(** ** Comparing a run and its simulation, for the statements *)

(** What has been printed, without the lines that only a simulation
    prints. *)
Definition quiet (l : list event) : list event :=
  filter (fun e => negb (is_dry_event e)) l.

(** Two trees with the same [stamped/]. *)
Definition same_input (fs1 fs2 : node) : Prop :=
  FS.lookup fs1 STAMPED = FS.lookup fs2 STAMPED.

Definition world_of {A : Type} (o : outcome A) : world :=
  match o with
  | Done _ w => w
  | Stopped _ w => w
  end.

(** The run was stopped by the error of a call that produces an output. *)
Definition stopped_by_output {A : Type} (o : outcome A) : Prop :=
  match o with
  | Stopped WriteFailed _ => True
  | _ => False
  end.

(** Two worlds a run and its simulation may be in at the same point. *)
Definition related (wn wd : world) : Prop :=
  same_input (w_fs wn) (w_fs wd) /\ w_out wn = quiet (w_out wd).

(** A run and its simulation end alike: with the same result, or stopped
    by the same kind of exception, having printed the same lines. *)
Definition same_decisions {A : Type} (normal dry : outcome A) : Prop :=
  match normal, dry with
  | Done a wn, Done b wd => a = b /\ related wn wd
  | Stopped e wn, Stopped e' wd => e = e' /\ related wn wd
  | _, _ => False
  end.

(** [md] simulates [mn]. *)
Definition simulates {A : Type} (mn md : M A) : Prop :=
  forall wn wd, related wn wd ->
    stopped_by_output (mn wn) \/ same_decisions (mn wn) (md wd).

(** A computation that leaves the tree as it is. *)
Definition frozen {A : Type} (m : M A) : Prop :=
  forall w, w_fs (world_of (m w)) = w_fs w.

(** A reading that only looks below [stamped/]. *)
Definition reads_input {A : Type} (f : node -> res A) : Prop :=
  forall fs1 fs2, same_input fs1 fs2 -> f fs1 = f fs2.

(** A write that leaves [stamped/] as it is and fails as an output. *)
Definition writes_output (f : node -> res node) : Prop :=
  (forall fs fs', f fs = Ret fs' -> same_input fs fs')
  /\ (forall fs e, f fs = Raise e -> e = WriteFailed).


(* ================================================================== *)
(** ** The places of a pattern in a text, for the statements *)

(** The [\b] that opens a pattern whose first character is of [\w]: the
    text before it is empty, or ends on a character outside [\w]. *)
Fixpoint boundary_before (pre : string) : bool :=
  match pre with
  | EmptyString => true
  | String c r =>
      match r with
      | EmptyString => negb (is_word c)
      | String _ _ => boundary_before r
      end
  end.

(** The pattern holds in the text from its character number [k] on,
    counted from zero. *)
Definition occurs_at (here : string -> bool) (text : string) (k : nat) : bool :=
  (k <? length text)%nat && boundary_before (take k text) && here (drop k text).

(** [k] is the first place of the pattern in the text. *)
Definition first_place (here : string -> bool) (text : string) (k : nat) : Prop :=
  occurs_at here text k = true
  /\ forall j, (j < k)%nat -> occurs_at here text j = false.

(* ================================================================== *)
(** ** Links, for the statements *)

(** [Path.exists] where it follows a link: the entry at [p] is a file, a
    directory, or a link whose target is a file or a directory of the
    tree. *)
Definition resolves (fs : node) (p : path) : bool :=
  match FS.lookup fs p with
  | Some (Link t) =>
      match FS.lookup fs t with
      | Some (File _ _) | Some (Dir _ _) => true
      | _ => false
      end
  | Some _ => true
  | None => false
  end.

Definition is_link (fs : node) (p : path) : bool :=
  match FS.lookup fs p with
  | Some (Link _) => true
  | _ => false
  end.

(** The directory [outdir] is one where links make no difference to
    [write_proof_set]: each link it holds resolves, and neither of the
    two files written into it is a link. *)
Definition settled (fs : node) (outdir : path) : Prop :=
  (forall x, is_link fs (outdir ++ [x]) = true -> resolves fs (outdir ++ [x]) = true)
  /\ is_link fs (outdir ++ ["proof.json"]) = false
  /\ is_link fs (outdir ++ ["checksums.txt"]) = false.

(** A tree without links. *)
Fixpoint no_link (n : node) : bool :=
  match n with
  | File _ _ => true
  | Dir _ es =>
      (fix all (l : list (string * node)) : bool :=
         match l with
         | [] => true
         | (_, c) :: rest => no_link c && all rest
         end) es
  | Link _ => false
  end.

(* ================================================================== *)
(** ** What a run leaves in place, for the statements *)

(** Every file of the first tree is a file of the second, at the same
    path. *)
Definition still_files (fs fs' : node) : Prop :=
  forall q m d, FS.lookup fs q = Some (File m d) ->
                exists m' d', FS.lookup fs' q = Some (File m' d').

(** The input is the same and no file has gone. *)
Definition untouched (fs fs' : node) : Prop :=
  same_input fs fs' /\ still_files fs fs'.

(** A computation whose tree, wherever it ends or stops, is in the
    relation [R] with the tree it started from. *)
Definition keeps {A : Type} (R : node -> node -> Prop) (m : M A) : Prop :=
  forall w, R (w_fs w) (w_fs (world_of (m w))).

(* ================================================================== *)
(** ** A runtime to run the importer on concrete trees

    Small stand-ins for the library calls, enough for the receipts and
    the trees of the examples: a decoder for JSON without escapes and
    without fractions, a printer without layout, the extended ISO format
    with seconds and an optional offset. *)

Module Sample.

Definition dq : ascii := ascii_of_nat 34.

(** A text written with apostrophes, read with double quotes. *)
Definition quoted (s : string) : string :=
  replace_char "'" (String dq EmptyString) s.

Fixpoint skip_ws (s : list ascii) : list ascii :=
  match s with
  | c :: rest => if is_space c then skip_ws rest else s
  | [] => []
  end.

Fixpoint read_string (s : list ascii) : option (string * list ascii) :=
  match s with
  | [] => None
  | c :: rest =>
      if (c =? dq)%char then Some (EmptyString, rest)
      else if (c =? "\")%char then None
      else match read_string rest with
           | Some (t, r) => Some (String c t, r)
           | None => None
           end
  end.

Fixpoint read_digits (acc : Z) (s : list ascii) : Z * list ascii :=
  match s with
  | c :: rest =>
      if is_digit c
      then read_digits (10 * acc + Z.of_nat (nat_of_ascii c - 48)) rest
      else (acc, s)
  | [] => (acc, [])
  end.

Definition starts (w : string) (s : list ascii) : option (list ascii) :=
  let l := list_ascii_of_string w in
  if list_eq_dec ascii_dec (firstn (List.length l) s) l
  then Some (skipn (List.length l) s) else None.

Fixpoint read_value (fuel : nat) (s : list ascii) : option (json * list ascii) :=
  match fuel with
  | O => None
  | S k =>
      match skip_ws s with
      | [] => None
      | c :: rest =>
          if (c =? dq)%char then
            match read_string rest with
            | Some (t, r) => Some (JStr t, r)
            | None => None
            end
          else if (c =? "[")%char then
            match skip_ws rest with
            | "]"%char :: r => Some (JArr [], r)
            | _ => read_items k rest
            end
          else if (c =? "{")%char then
            match skip_ws rest with
            | "}"%char :: r => Some (JObj [], r)
            | _ => read_members k rest
            end
          else if (c =? "-")%char then
            match rest with
            | d :: _ =>
                if is_digit d
                then let (n, r) := read_digits 0 rest in Some (JInt (- n), r)
                else None
            | [] => None
            end
          else if is_digit c then
            let (n, r) := read_digits 0 (c :: rest) in Some (JInt n, r)
          else
            match starts "null" (c :: rest), starts "true" (c :: rest),
                  starts "false" (c :: rest) with
            | Some r, _, _ => Some (JNull, r)
            | _, Some r, _ => Some (JBool true, r)
            | _, _, Some r => Some (JBool false, r)
            | _, _, _ => None
            end
      end
  end
with read_items (fuel : nat) (s : list ascii) : option (json * list ascii) :=
  match fuel with
  | O => None
  | S k =>
      match read_value k s with
      | Some (v, r) =>
          match skip_ws r with
          | ","%char :: r' =>
              match read_items k r' with
              | Some (JArr vs, r'') => Some (JArr (v :: vs), r'')
              | _ => None
              end
          | "]"%char :: r' => Some (JArr [v], r')
          | _ => None
          end
      | None => None
      end
  end
with read_members (fuel : nat) (s : list ascii) : option (json * list ascii) :=
  match fuel with
  | O => None
  | S k =>
      match skip_ws s with
      | c :: rest =>
          if (c =? dq)%char then
            match read_string rest with
            | Some (key, r) =>
                match skip_ws r with
                | ":"%char :: r1 =>
                    match read_value k r1 with
                    | Some (v, r2) =>
                        match skip_ws r2 with
                        | ","%char :: r3 =>
                            match read_members k r3 with
                            | Some (JObj kv, r4) =>
                                Some (JObj ((key, match assoc key kv with
                                                  | Some v' => v'
                                                  | None => v
                                                  end)
                                            :: filter (fun it => negb (fst it =? key)) kv),
                                      r4)
                            | _ => None
                            end
                        | "}"%char :: r3 => Some (JObj [(key, v)], r3)
                        | _ => None
                        end
                    | None => None
                    end
                | _ => None
                end
            | None => None
            end
          else None
      | [] => None
      end
  end.

Definition json_loads (text : string) : option json :=
  let s := list_ascii_of_string text in
  match read_value (S (List.length s)) s with
  | Some (v, r) => match skip_ws r with [] => Some v | _ => None end
  | None => None
  end.

Definition show_Z (n : Z) : string := DecimalString.NilZero.string_of_int (Z.to_int n).

(** [str] of a value that is not a text: exact on [None], booleans and
    integers; a float and a container are only named. *)
Definition repr (v : json) : string :=
  match v with
  | JNull => "None"
  | JBool true => "True"
  | JBool false => "False"
  | JInt n => show_Z n
  | JFloat _ _ => "<float>"
  | JStr s => s
  | JArr _ => "<list>"
  | JObj _ => "<dict>"
  end.

Fixpoint show_json (v : json) : string :=
  match v with
  | JNull => "null"
  | JBool true => "true"
  | JBool false => "false"
  | JInt n => show_Z n
  | JFloat m e => show_Z m ++ "p" ++ show_Z e
  | JStr s => String dq (s ++ String dq EmptyString)
  | JArr xs => "[" ++ String.concat ", " (map show_json xs) ++ "]"
  | JObj kv =>
      "{" ++ String.concat ", "
               (map (fun it => (String dq (fst it ++ String dq EmptyString)
                                ++ ": " ++ show_json (snd it))%string) kv)
          ++ "}"
  end.

Definition json_dumps (indent : bool) (v : json) : string := show_json v.

Definition csv_text (header : list string) (rows : list row) : string :=
  String.concat newline
    (String.concat "," header
     :: map (fun r => String.concat "," (map (fun h => py_str repr (dget r h)) header)) rows)
  ++ newline.

Definition guess_type (name : string) : option string :=
  if (lower (suffix name) =? ".pdf") then Some "application/pdf" else None.

(** Two digits, four digits. *)
Definition two (s : list ascii) : option (Z * list ascii) :=
  match s with
  | a :: b :: r =>
      if is_digit a && is_digit b
      then Some (Z.of_nat ((nat_of_ascii a - 48) * 10 + (nat_of_ascii b - 48)), r)
      else None
  | _ => None
  end.

Definition four (s : list ascii) : option (Z * list ascii) :=
  match two s with
  | Some (hi, r) =>
      match two r with
      | Some (lo, r') => Some ((hi * 100 + lo)%Z, r')
      | None => None
      end
  | None => None
  end.

Definition days_in_month (y m : Z) : Z :=
  if (m =? 2)%Z then
    if ((y mod 4 =? 0) && (negb (y mod 100 =? 0) || (y mod 400 =? 0)))%Z then 29 else 28
  else if ((m =? 4) || (m =? 6) || (m =? 9) || (m =? 11))%Z then 30
  else 31.

Definition expect (c : ascii) (s : list ascii) : option (list ascii) :=
  match s with
  | x :: r => if (x =? c)%char then Some r else None
  | [] => None
  end.

Definition and_then {A B : Type} (o : option A) (k : A -> option B) : option B :=
  match o with
  | Some a => k a
  | None => None
  end.

(** The offset [+HH:MM] or [-HH:MM], or nothing. *)
Definition read_offset (s : list ascii) : option (option Z) :=
  match s with
  | [] => Some None
  | sign :: r =>
      if (sign =? "+")%char || (sign =? "-")%char then
        and_then (two r) (fun hr =>
        and_then (expect ":" (snd hr)) (fun r1 =>
        and_then (two r1) (fun mr =>
          match snd mr with
          | [] =>
              if ((fst hr <? 24) && (fst mr <? 60))%Z
              then Some (Some ((if (sign =? "-")%char then -1 else 1)
                               * (fst hr * 3600 + fst mr * 60))%Z)
              else None
          | _ => None
          end)))
      else None
  end.

(** The time [HH:MM:SS] and an offset, after the date [y]-[mo]-[d]. *)
Definition read_time (y mo d : Z) (s : list ascii) : option datetime :=
  and_then (two s) (fun hr =>
  and_then (expect ":" (snd hr)) (fun r1 =>
  and_then (two r1) (fun mr =>
  and_then (expect ":" (snd mr)) (fun r2 =>
  and_then (two r2) (fun sr =>
  and_then (read_offset (snd sr)) (fun off =>
    if ((fst hr <? 24) && (fst mr <? 60) && (fst sr <? 60))%Z
    then Some {| year := y; month := mo; day := d;
                 hour := fst hr; minute := fst mr; second := fst sr;
                 microsecond := 0; utcoffset := off |}
    else None)))))).

(** [YYYY-MM-DD], then possibly a separator, [HH:MM:SS] and an offset. *)
Definition fromisoformat (text : string) : option datetime :=
  and_then (four (list_ascii_of_string text)) (fun yr =>
  and_then (expect "-" (snd yr)) (fun r1 =>
  and_then (two r1) (fun mor =>
  and_then (expect "-" (snd mor)) (fun r2 =>
  and_then (two r2) (fun dr =>
    if ((1 <=? fst yr) && (1 <=? fst mor) && (fst mor <=? 12) && (1 <=? fst dr)
        && (fst dr <=? days_in_month (fst yr) (fst mor)))%Z then
      match snd dr with
      | [] => Some {| year := fst yr; month := fst mor; day := fst dr; hour := 0;
                      minute := 0; second := 0; microsecond := 0;
                      utcoffset := None |}
      | _ :: r3 => read_time (fst yr) (fst mor) (fst dr) r3
      end
    else None))))).

Definition now : Z := 1700000000.

(** A receipt with two anchors of the ledger family. *)
Definition receipt_two_anchors : json :=
  JObj [
    ("id", JStr "P1");
    ("anchors", JArr [
       JObj [("type", JStr "btc"); ("txId", JStr "aa"); ("blockHeight", JInt 100);
             ("time", JStr "2024-01-01T00:00:00Z")];
       JObj [("type", JStr "Bitcoin"); ("txId", JStr "bb"); ("blockHeight", JInt 200);
             ("time", JStr "2024-02-02T00:00:00Z")] ]) ].



(** The digest of the six bytes of [B.pdf] below. *)
Definition hash_B : string :=
  "585ed6ba40a56b2b0cbb19115c181fb48a38047ab2d219c137739ada4009275e".

Definition receipt_text_B : string :=
  quoted ("{'id': 'P1', 'targetHash': '" ++ hash_B ++ "'}").

(** A folder [Report_v2] with two documents and a receipt that has the
    name of the second and declares its hash. *)
Definition tree_two_docs : node :=
  Dir 0 [("stamped", Dir 0 [("Report_v2", Dir 0 [
     ("A.pdf", File 10 "%PDF-A");
     ("B.pdf", File 20 "%PDF-B");
     ("B.json", File 30 receipt_text_B) ])])].

(** The same documents; the receipt declares the hash of [B.pdf] and has
    the name of [A.pdf]. *)
Definition tree_name_first : node :=
  Dir 0 [("stamped", Dir 0 [("Report_v2", Dir 0 [
     ("A.pdf", File 10 "%PDF-A");
     ("B.pdf", File 20 "%PDF-B");
     ("A.json", File 30 receipt_text_B) ])])].

(** One document and one receipt whose names differ; the receipt
    declares no hash. *)
Definition tree_one_pair : node :=
  Dir 0 [("stamped", Dir 0 [("Report", Dir 0 [
     ("Report.pdf", File 10 "%PDF-A");
     ("woleet.json", File 30 (quoted "{'id': 'P1'}")) ])])].

(** [tree_two_docs] after an earlier run whose receipt annex differs
    from the receipt of the folder. *)
Definition tree_old_annex : node :=
  Dir 0 [("stamped", Dir 0 [("Report_v2", Dir 0 [
     ("A.pdf", File 10 "%PDF-A");
     ("B.pdf", File 20 "%PDF-B");
     ("B.json", File 30 receipt_text_B) ])]);
         ("proofs", Dir 5 [("by-doc", Dir 5 [("report_v2", Dir 5 [
     ("woleet_receipt.json", File 5 "an older receipt") ])])])].

(** The same input after a run in link mode: the receipt annex is a link
    to the receipt. *)
Definition tree_linked_annex : node :=
  Dir 0 [("stamped", Dir 0 [("Report_v2", Dir 0 [
     ("A.pdf", File 10 "%PDF-A");
     ("B.pdf", File 20 "%PDF-B");
     ("B.json", File 30 receipt_text_B) ])]);
         ("proofs", Dir 5 [("by-doc", Dir 5 [("report_v2", Dir 5 [
     ("woleet_receipt.json", Link ["stamped"; "Report_v2"; "B.json"]) ])])])].

(** The record the importer builds for [B.pdf] of the folder
    [Report_v2]. *)
Definition record_B : json :=
  make_proof_json "Report_v2" "report" "report_v2" "stamped/Report_v2/B.pdf"
    "application/pdf" 6 hash_B
    {| proof_id := JStr "PB"; sha256 := Some hash_B; txid := None;
       block_height := JNull; anchored_utc := None; link := JNull |}
    "B.json".


(** A folder with a document, its receipt, two attestations, a
    screenshot and a file of no kind. *)
Definition tree_annexes : node :=
  Dir 0 [("stamped", Dir 0 [("Report_v2", Dir 0 [
     ("woleet-capture.png", File 40 "PNG");
     ("notes.txt", File 40 "to do");
     ("Report_receipt.pdf", File 35 "%PDF-R");
     ("Report.pdf", File 10 "%PDF-A");
     ("Attestation-2.PDF", File 36 "%PDF-T");
     ("Report.json", File 30 (quoted "{'id': 'P1'}")) ])])].

(** Two documents whose names differ by their case only, and a receipt
    with that name and no hash. *)
Definition tree_same_base : node :=
  Dir 0 [("stamped", Dir 0 [("Doc", Dir 0 [
     ("Report.pdf", File 20 "%PDF-A");
     ("report.PDF", File 10 "%PDF-B");
     ("report.json", File 30 (quoted "{'id': 'P1'}")) ])])].

(** A document with two receipts: one that is no JSON text, one that is
    a JSON list. *)
Definition tree_bad_receipts : node :=
  Dir 0 [("stamped", Dir 0 [("Doc", Dir 0 [
     ("Doc.pdf", File 10 "%PDF-A");
     ("broken.json", File 30 "{oops");
     ("list.json", File 30 "[1, 2]") ])])].

(** Two documents without a version token, each with its receipt. *)
Definition tree_two_pairs : node :=
  Dir 0 [("stamped", Dir 0 [("Report_v2", Dir 0 [
     ("A.pdf", File 10 "%PDF-A");
     ("B.pdf", File 20 "%PDF-B");
     ("A.json", File 30 (quoted "{'id': 'PA'}"));
     ("B.json", File 31 (quoted "{'id': 'PB'}")) ])])].

(** A published document for the extraction tool. *)
Definition tree_docs : node :=
  Dir 0 [("docs", Dir 0 [("Guide Final.pdf", File 10 "%PDF-B")])].

(** The text of a footer: a hash, a transaction, an id and a time. *)
Definition footer_B : string :=
  "SHA-256: " ++ hash_B
  ++ " TXID: 1111111111111111AAAAAAAAAAAAAAAA2222222222222222bbbbbbbbbbbbbbbb"
  ++ " Woleet 123E4567-e89b-42d3-a456-426614174000, 2024-01-02T03:04:05Z.".

(** The text of a footer where the hash is written twice, the second
    time in capitals, before the transaction. *)
Definition footer_twice : string :=
  "SHA-256: " ++ hash_B
  ++ " (585ED6BA40A56B2B0CBB19115C181FB48A38047AB2D219C137739ADA4009275E)"
  ++ " TXID: 1111111111111111AAAAAAAAAAAAAAAA2222222222222222bbbbbbbbbbbbbbbb".

(** An input directory without any folder. *)
Definition tree_no_folder : node := Dir 0 [("stamped", Dir 0 [])].

(** A tree without the input directory. *)
Definition tree_no_input : node := Dir 0 [("docs", Dir 0 [])].

Definition normal_run : args := {| symlink := false; dry_run := false; verbose := true |}.
Definition simulation : args := {| symlink := false; dry_run := true; verbose := true |}.

Definition parse_receipt : json -> res receipt_info :=
  parse_woleet_receipt repr fromisoformat.

Definition run (a : args) (fs : node) : outcome run_result :=
  main repr fromisoformat json_loads json_dumps csv_text guess_type now a
    {| w_fs := fs; w_out := [] |}.

End Sample.


(* ================================================================== *)
(** ** First checks of the embedding *)

Example slugify_ex : slugify "Report Final (2)" = "report-final-2".
Proof. reflexivity. Qed.
Example version_ex1 : parse_version_from_name "Doc_V2.1.pdf" = Some "v2-1".
Proof. reflexivity. Qed.
Example version_ex2 : parse_version_from_name "Report_v2" = Some "v2".
Proof. reflexivity. Qed.
Example version_ex3 : parse_version_from_name "review3.pdf" = None.
Proof. reflexivity. Qed.
Example version_ex4 :
  parse_version_from_name
    ("doc" ++ String (ascii_of_nat 194) (String (ascii_of_nat 160) "v2.pdf"))
  = Some "v2".
Proof. reflexivity. Qed.
Example version_ex5 :
  parse_version_from_name
    ("doc_v" ++ String (ascii_of_nat 217) (String (ascii_of_nat 163) ".pdf"))
  = Some (String "v" (String (ascii_of_nat 217) (String (ascii_of_nat 163) ""))).
Proof. reflexivity. Qed.
Example strip_ex : text_of (strip_version_suffix true (uchars "Report_v2")) = "Report".
Proof. reflexivity. Qed.
Example base_ex1 : base_of "Report_receipt" = "Report".
Proof. reflexivity. Qed.
Example base_ex2 : base_of "ReportAttestation" = "Report".
Proof. reflexivity. Qed.
Example stem_ex : stem "a.b.json" = "a.b" /\ suffix "a.b.json" = ".json" /\ stem ".json" = ".json".
Proof. repeat split. Qed.
Example sha256_abc :
  SHA256.hexdigest "abc"
  = "ba7816bf8f01cfea414140de5dae2223b00361a396177a9cb410ff61f20015ad".
Proof. vm_compute. reflexivity. Qed.
Example sha256_empty :
  SHA256.hexdigest ""
  = "e3b0c44298fc1c149afbf4c8996fb92427ae41e4649b934ca495991b7852b855".
Proof. vm_compute. reflexivity. Qed.

(* ================================================================== *)
(** ** Text lemmas *)

Lemma eqb_char_refl (c : ascii) : (c =? c)%char = true.
Proof. apply Ascii.eqb_refl. Qed.

Lemma lower_plain (s : string) :
  forallb_str plain s = true -> lower s = s.
Proof.
  induction s as [|c s IH]; simpl; [reflexivity|].
  intro H. apply andb_true_iff in H as [Hc Hs].
  unfold plain in Hc. apply andb_true_iff in Hc as [Hu H3].
  apply negb_true_iff in Hu, H3. rewrite Hu, H3. simpl.
  rewrite (IH Hs). destruct s; reflexivity.
Qed.

Lemma lower_cons (c : ascii) (s : string) :
  lower (String c s) =
  if is_upper_letter c then String (shift_ascii 32 c) (lower s)
  else match s with
       | String d s'' =>
           if (c =? lead_c3)%char && is_latin1_upper_tail d
           then String c (String (shift_ascii 32 d) (lower s''))
           else String c (lower s)
       | EmptyString => String c EmptyString
       end.
Proof. destruct s; reflexivity. Qed.

Lemma length_lower_le (n : nat) (s : string) :
  (String.length s <= n)%nat -> String.length (lower s) = String.length s.
Proof.
  revert s; induction n as [|n IH]; intros [|c s] H; try reflexivity;
    simpl in H; try lia.
  rewrite lower_cons.
  destruct (is_upper_letter c); [simpl; rewrite IH; [reflexivity|lia]|].
  destruct s as [|d s]; [reflexivity|].
  destruct ((c =? lead_c3)%char && is_latin1_upper_tail d).
  - simpl. rewrite IH; [reflexivity|simpl in H; lia].
  - change (S (String.length (lower (String d s))) = S (String.length (String d s))).
    rewrite IH; [reflexivity|lia].
Qed.

Lemma length_lower (s : string) : String.length (lower s) = String.length s.
Proof. apply (length_lower_le (String.length s)). lia. Qed.

Module SHA256_facts.
Import SHA256.

Lemma hexchar_spec (n : Z) :
  is_hexdigit (hexchar n) = true /\ plain (hexchar n) = true.
Proof.
  unfold hexchar.
  assert (H : (Z.to_nat (n mod 16) < 16)%nat).
  { pose proof (Z.mod_pos_bound n 16 ltac:(lia)). lia. }
  remember (Z.to_nat (n mod 16)) as k eqn:E. clear E.
  do 16 (destruct k as [|k]; [split; reflexivity|]).
  lia.
Qed.

Lemma hex_word_all (p : ascii -> bool) (w : Z) (tail : string) :
  (forall n, p (hexchar n) = true) ->
  forallb_str p (hex_word w tail) = forallb_str p tail.
Proof.
  intro H. unfold hex_word. simpl. now rewrite !H.
Qed.

Lemma hex_word_length (w : Z) (tail : string) :
  String.length (hex_word w tail) = (8 + String.length tail)%nat.
Proof. reflexivity. Qed.

Lemma hex_state_all (p : ascii -> bool) (s : state) :
  (forall n, p (hexchar n) = true) -> forallb_str p (hex_state s) = true.
Proof.
  intro H. unfold hex_state. now rewrite !(hex_word_all p _ _ H).
Qed.

Lemma hex_state_length (s : state) : String.length (hex_state s) = 64%nat.
Proof. reflexivity. Qed.

End SHA256_facts.

Lemma take_all (n : nat) (s : string) :
  (String.length s <= n)%nat -> take n s = s.
Proof.
  revert n; induction s as [|c s IH]; intros [|n] H; simpl in *; try reflexivity; try lia.
  f_equal. apply IH. lia.
Qed.

Lemma drop_all (n : nat) (s : string) :
  (String.length s <= n)%nat -> drop n s = "".
Proof.
  revert n; induction s as [|c s IH]; intros [|n] H; simpl in *; try reflexivity; try lia.
  apply IH. lia.
Qed.

(** The digest is a lower-case text of sixty-four hexadecimal digits. *)
Lemma hexdigest_length (data : string) :
  String.length (SHA256.hexdigest data) = 64%nat.
Proof. apply SHA256_facts.hex_state_length. Qed.

Lemma hexdigest_HEX64 (data : string) : HEX64_match (SHA256.hexdigest data) = true.
Proof.
  unfold HEX64_match.
  rewrite take_all, drop_all by (rewrite hexdigest_length; lia).
  rewrite hexdigest_length, Nat.eqb_refl.
  change (at_dollar "") with true. rewrite andb_true_r, andb_true_l.
  apply SHA256_facts.hex_state_all.
  intro n. apply SHA256_facts.hexchar_spec.
Qed.

Lemma hexdigest_lower (data : string) :
  lower (SHA256.hexdigest data) = SHA256.hexdigest data.
Proof.
  apply lower_plain. apply SHA256_facts.hex_state_all.
  intro n. apply SHA256_facts.hexchar_spec.
Qed.

Lemma hexdigest_not_empty (data : string) : (SHA256.hexdigest data =? "") = false.
Proof.
  apply String.eqb_neq. intro H.
  pose proof (hexdigest_length data) as L. rewrite H in L. discriminate.
Qed.

Lemma well_formed_hexdigest (data : string) :
  well_formed (Some (SHA256.hexdigest data)) = true.
Proof.
  unfold well_formed. now rewrite hexdigest_not_empty, hexdigest_HEX64.
Qed.


(** The digest is used through the three lemmas above only. *)
Opaque SHA256.hexdigest.

(* ================================================================== *)
(** ** Steps of the monad *)

Lemma mbind_mret {A B : Type} (a : A) (k : A -> M B) (w : world) :
  mbind (mret a) k w = k a w.
Proof. reflexivity. Qed.

Lemma mbind_emit {B : Type} (e : event) (k : unit -> M B) (w : world) :
  mbind (emit e) k w = k tt {| w_fs := w_fs w; w_out := w_out w ++ [e] |}.
Proof. reflexivity. Qed.

Lemma mbind_reading {A B : Type} (f : node -> res A) (k : A -> M B) (w : world) :
  mbind (reading f) k w =
  match f (w_fs w) with
  | Ret a => k a w
  | Raise e => Stopped e w
  end.
Proof. unfold mbind, reading. destruct (f (w_fs w)); reflexivity. Qed.

Lemma mbind_writing {B : Type} (f : node -> res node) (k : unit -> M B) (w : world) :
  mbind (writing f) k w =
  match f (w_fs w) with
  | Ret fs' => k tt {| w_fs := fs'; w_out := w_out w |}
  | Raise e => Stopped e w
  end.
Proof. unfold mbind, writing. destruct (f (w_fs w)); reflexivity. Qed.

Lemma mbind_if_emit {B : Type} (c : bool) (e : event) (k : unit -> M B) (w : world) :
  mbind (if c then emit e else mret tt) k w =
  k tt {| w_fs := w_fs w; w_out := w_out w ++ (if c then [e] else []) |}.
Proof. destruct c, w; cbn; [reflexivity|]. now rewrite app_nil_r. Qed.

Lemma mbind_assoc {A B C : Type} (m : M A) (k : A -> M B) (h : B -> M C) (w : world) :
  mbind (mbind m k) h w = mbind m (fun a => mbind (k a) h) w.
Proof. unfold mbind. destruct (m w); reflexivity. Qed.

(* ================================================================== *)
(** ** The recorded hash is the computed one (C1) *)

Lemma read_bytes_file (fs : node) (p : path) (data : string) :
  FS.read_bytes fs p = Ret data ->
  exists m, FS.lookup fs p = Some (File m data).
Proof.
  unfold FS.read_bytes. destruct (FS.lookup fs p) as [[m d| |]|]; try discriminate.
  intro H. injection H as ->. now exists m.
Qed.

Lemma st_size_file (fs : node) (p : path) (data : string) :
  FS.read_bytes fs p = Ret data ->
  FS.st_size fs p = Ret (Z.of_nat (String.length data)).
Proof.
  intro H. destruct (read_bytes_file _ _ _ H) as [m Hl].
  unfold FS.st_size. now rewrite Hl.
Qed.

Lemma sha256_file_read (fs : node) (p : path) (data : string) :
  FS.read_bytes fs p = Ret data -> sha256_file fs p = Ret (SHA256.hexdigest data).
Proof. unfold sha256_file. now intros ->. Qed.

Lemma HEX64_not_empty (t : string) : HEX64_match t = true -> (t =? "") = false.
Proof. destruct t; [discriminate|reflexivity]. Qed.

Lemma well_formed_target (t : string) :
  well_formed (Some t) = HEX64_match t.
Proof.
  unfold well_formed. destruct (HEX64_match t) eqn:E.
  - now rewrite (HEX64_not_empty _ E).
  - apply andb_false_r.
Qed.

(** C1.  A matched document that can be read always gets its record, and
    the [sha256] entry of the [document] block, of the mapping row and of
    the index line is the digest of the bytes of that document, whatever
    the receipt declares; a well-formed declared hash that differs only
    adds the warning.  The sibling tool records the computed digest in
    the same way and warns about a different hash read in the footer. *)
Theorem C1_recorded_hash_is_computed
    (json_dumps : bool -> json -> string) (guess_type : string -> option string)
    (now : Z) (w : world) (data : string) :
  (forall d files jname info pdf_match,
      FS.read_bytes (w_fs w) (STAMPED ++ [d; pdf_match]) = Ret data ->
      exists r w',
        assemble_record guess_type d files jname info pdf_match w = Done r w'
        /\ jget (jget (a_proof_json r) "document") "sha256" = JStr (SHA256.hexdigest data)
        /\ dget (a_row r) "sha256" = JStr (SHA256.hexdigest data)
        /\ dget (a_index_line r) "sha256" = JStr (SHA256.hexdigest data)
        /\ w_fs w' = w_fs w
        /\ (forall t, sha256 info = Some t -> HEX64_match t = true ->
                      t <> SHA256.hexdigest data ->
              w_out w' = w_out w ++
                [WarnHashMismatch pdf_match (take 12 (SHA256.hexdigest data)) (take 12 t)]))
  /\
  (forall rel proof pj r w',
      FS.read_bytes (w_fs w) rel = Ret data ->
      extract_pdf json_dumps guess_type now rel proof w = Done (pj, r) w' ->
      jget (jget pj "document") "sha256" = JStr (SHA256.hexdigest data)
      /\ dget r "sha256" = JStr (SHA256.hexdigest data)
      /\ (forall t, f_sha256 proof = Some t -> t <> "" -> t <> SHA256.hexdigest data ->
            In (WarnFooterMismatch rel) (w_out w'))).
Proof.
  split.
  - intros d files jname info pdf_match Hread.
    unfold assemble_record.
    rewrite mbind_reading, (st_size_file _ _ _ Hread).
    rewrite mbind_reading, (sha256_file_read _ _ _ Hread).
    destruct (well_formed (sha256 info)
              && negb (SHA256.hexdigest data =? match sha256 info with
                                                | Some t => t
                                                | None => ""
                                                end)) eqn:E.
    + rewrite mbind_emit. eexists _, _. split; [reflexivity|]. cbn.
      repeat split. intros t Ht Hx Hne. rewrite Ht. unfold hash12.
      now rewrite (HEX64_not_empty _ Hx).
    + rewrite mbind_mret. eexists _, _. split; [reflexivity|]. cbn.
      repeat split. intros t Ht Hx Hne. exfalso.
      rewrite Ht, well_formed_target, Hx, andb_true_l in E.
      apply negb_false_iff, String.eqb_eq in E. congruence.
  - intros rel proof pj r w' Hread Hrun.
    unfold extract_pdf in Hrun.
    rewrite mbind_emit, mbind_reading in Hrun. cbn [w_fs w_out] in Hrun.
    rewrite (st_size_file _ _ _ Hread) in Hrun.
    rewrite mbind_reading in Hrun. cbn [w_fs w_out] in Hrun.
    rewrite (sha256_file_read _ _ _ Hread) in Hrun.
    set (warned :=
           match f_sha256 proof with
           | Some s => negb (s =? "") && negb (s =? SHA256.hexdigest data)
           | None => false
           end).
    replace (match f_sha256 proof with
             | Some s =>
                 if negb (s =? "") && negb (s =? SHA256.hexdigest data)
                 then emit (WarnFooterMismatch rel) else mret tt
             | None => mret tt
             end)
      with (if warned then emit (WarnFooterMismatch rel) else mret tt) in Hrun
      by (unfold warned; destruct (f_sha256 proof); reflexivity).
    rewrite mbind_if_emit in Hrun. cbn [w_fs w_out] in Hrun.
    rewrite mbind_writing in Hrun. cbn [w_fs w_out] in Hrun.
    destruct (FS.mkdir_p now (w_fs w) _) as [fs1|]; [|discriminate].
    rewrite mbind_writing in Hrun. cbn [w_fs w_out] in Hrun.
    destruct (FS.write_file now fs1 _ _) as [fs2|]; [|discriminate].
    rewrite mbind_writing in Hrun. cbn [w_fs w_out] in Hrun.
    destruct (FS.write_file now fs2 _ _) as [fs3|]; [|discriminate].
    unfold mret in Hrun. injection Hrun as <- <- <-. cbn [w_fs w_out].
    split; [reflexivity|]. split; [reflexivity|].
    intros t Ht H1 H2. apply in_or_app. right.
    unfold warned. rewrite Ht.
    apply String.eqb_neq in H1, H2. rewrite H1, H2. now left.
Qed.

(** The theorem at the folder [Report_v2] of [tree_two_docs]: the record
    of [B.pdf] carries the digest of its six bytes. *)
Lemma C1_recorded_hash_witness :
  FS.read_bytes Sample.tree_two_docs (STAMPED ++ ["Report_v2"; "B.pdf"]) = Ret "%PDF-B"
  /\ exists r w',
       assemble_record Sample.guess_type "Report_v2" no_files "B.json"
         {| proof_id := JStr "P1"; sha256 := Some "00"; txid := None;
            block_height := JNull; anchored_utc := None; link := JNull |}
         "B.pdf" {| w_fs := Sample.tree_two_docs; w_out := [] |} = Done r w'
       /\ jget (jget (a_proof_json r) "document") "sha256" = JStr Sample.hash_B.
Proof.
  split; [reflexivity|].
  destruct (C1_recorded_hash_is_computed Sample.json_dumps Sample.guess_type
              Sample.now {| w_fs := Sample.tree_two_docs; w_out := [] |} "%PDF-B")
    as [H _].
  destruct (H "Report_v2" no_files "B.json"
              {| proof_id := JStr "P1"; sha256 := Some "00"; txid := None;
                 block_height := JNull; anchored_utc := None; link := JNull |}
              "B.pdf" eq_refl) as (r & w' & H1 & H2 & _).
  exists r, w'. split; [exact H1|]. rewrite H2. vm_compute. reflexivity.
Defined.
(* ================================================================== *)
(** ** Which anchor gives the transaction, the height and the time (C2) *)

Lemma find_snoc {A : Type} (p : A -> bool) (l : list A) (a : A) :
  find p (l ++ [a]) =
  match find p l with
  | Some x => Some x
  | None => if p a then Some a else None
  end.
Proof.
  induction l as [|x l IH]; simpl; [reflexivity|].
  destruct (p x); [reflexivity|exact IH].
Qed.

Lemma py_or_assoc (x y z : json) : py_or (py_or x y) z = py_or x (py_or y z).
Proof.
  unfold py_or. destruct (truthy x) eqn:Ex; [now rewrite Ex|reflexivity].
Qed.

Section Anchors.

Variable repr : json -> string.

(** One turn of the loop, read field by field. *)
Lemma anchor_step_fields (acc acc' : anchor_acc) (a : json) :
  anchor_step repr acc a = Ret acc' ->
  acc_txid acc' = (if carries repr anchor_txid a
                   then match a with JObj kv => anchor_txid kv | _ => JNull end
                   else acc_txid acc)
  /\ acc_block_height acc' = (if carries repr anchor_height a
                              then match a with JObj kv => anchor_height kv | _ => JNull end
                              else acc_block_height acc)
  /\ acc_block_time acc' = (if carries repr anchor_time a
                            then match a with JObj kv => anchor_time kv | _ => JNull end
                            else acc_block_time acc).
Proof.
  destruct a as [| | | | | |kv]; try discriminate.
  unfold anchor_step, carries.
  destruct (is_ledger_anchor repr kv); intro H; injection H as <-; simpl.
  - unfold anchor_txid, anchor_time, anchor_height.
    rewrite <- !py_or_assoc. repeat split; reflexivity.
  - repeat split.
Qed.

Lemma last_carrying_cons (f : list (string * json) -> json) (init : json)
    (a : json) (rest : list json) :
  last_carrying repr f init (a :: rest)
  = last_carrying repr f
      (if carries repr f a
       then match a with JObj kv => f kv | _ => JNull end
       else init) rest.
Proof.
  unfold last_carrying. simpl rev. rewrite find_snoc.
  destruct (find (carries repr f) (rev rest)) as [x|] eqn:Ef.
  - apply find_some in Ef as [_ Hx].
    destruct x; try discriminate. reflexivity.
  - destruct (carries repr f a) eqn:Ea; [|reflexivity].
    destruct a; try discriminate. reflexivity.
Qed.

(** The loop keeps, for each field, the value of the last entry that
    carries one. *)
Lemma anchor_loop_last (anchors : list json) (acc acc' : anchor_acc) :
  anchor_loop repr acc anchors = Ret acc' ->
  acc_txid acc' = last_carrying repr anchor_txid (acc_txid acc) anchors
  /\ acc_block_height acc' =
       last_carrying repr anchor_height (acc_block_height acc) anchors
  /\ acc_block_time acc' = last_carrying repr anchor_time (acc_block_time acc) anchors.
Proof.
  revert acc. induction anchors as [|a rest IH]; intros acc H; simpl in H.
  - injection H as <-. repeat split.
  - destruct (anchor_step repr acc a) as [acc1|e] eqn:E; [|discriminate].
    simpl in H. destruct (IH _ H) as (T & B & C).
    destruct (anchor_step_fields _ _ _ E) as (T1 & B1 & C1).
    rewrite !last_carrying_cons, <- T1, <- B1, <- C1. auto.
Qed.

Lemma last_carrying_none (f : list (string * json) -> json) (init : json)
    (post : list json) :
  (forall a, In a post -> carries repr f a = false) ->
  last_carrying repr f init post = init.
Proof.
  revert init. induction post as [|p post IH]; intros init H; [reflexivity|].
  rewrite last_carrying_cons, (H p) by now left.
  apply IH. intros a Ha. apply H. now right.
Qed.

(** The last carrying entry, when the list is given around it. *)
Lemma last_carrying_at (f : list (string * json) -> json) (init : json)
    (pre post : list json) (kv : list (string * json)) :
  carries repr f (JObj kv) = true ->
  (forall a, In a post -> carries repr f a = false) ->
  last_carrying repr f init (pre ++ JObj kv :: post) = f kv.
Proof.
  intros Hk Hpost. revert init.
  induction pre as [|p pre IH]; intro init.
  - cbn [app]. rewrite last_carrying_cons, Hk. now apply last_carrying_none.
  - cbn [app]. rewrite last_carrying_cons. apply IH.
Qed.

End Anchors.

(** What [parse_woleet_receipt] returns, step by step. *)
Lemma parse_woleet_receipt_inv (repr : json -> string)
    (fromisoformat : string -> option datetime)
    (d : list (string * json)) (info : receipt_info) :
  parse_woleet_receipt repr fromisoformat (JObj d) = Ret info ->
  exists anchors acc,
    anchors_to_iterate (py_or (dget d "anchors") (py_or (dget d "anchor") (JArr [])))
      = Ret anchors
    /\ anchor_loop repr acc0 anchors = Ret acc
    /\ lower_if_truthy
         (py_or (py_or (dget d "targetHash") (py_or (dget d "hash") (JStr ""))) JNull)
       = Ret (sha256 info)
    /\ lower_if_truthy
         (py_or (acc_txid acc) (py_or (dget d "txid") (py_or (dget d "txId") JNull)))
       = Ret (txid info)
    /\ block_height info = acc_block_height acc
    /\ anchored_utc info = resolve_anchored_utc repr fromisoformat (acc_block_time acc) d
    /\ proof_id info = py_or (dget d "id") (py_or (dget d "proof_id") (dget d "proofId"))
    /\ link info = py_or (dget d "receiptUrl") (py_or (dget d "url") JNull).
Proof.
  unfold parse_woleet_receipt, bind.
  destruct (lower_if_truthy _) as [th|] eqn:E1; [|discriminate].
  destruct (anchors_to_iterate _) as [anchors|] eqn:E2; [|discriminate].
  destruct (anchor_loop repr acc0 anchors) as [acc|] eqn:E3; [|discriminate].
  destruct (lower_if_truthy (py_or (acc_txid acc) _)) as [tx|] eqn:E4; [|discriminate].
  intro H. injection H as <-. exists anchors, acc. simpl. repeat split; assumption.
Qed.

Lemma lower_if_truthy_inv (v : json) (o : option string) :
  lower_if_truthy v = Ret o -> truthy v = true ->
  exists s, v = JStr s /\ o = Some (lower s).
Proof.
  unfold lower_if_truthy. intros H T. rewrite T in H.
  destruct v; try discriminate. injection H as <-. eauto.
Qed.

(** C2, amended.  Field by field (transaction id, block height, time),
    the value a receipt resolves from its anchors is the one of the last
    entry of the ledger family that carries the field: an entry of the
    family that carries it, and is followed by no other that does, gives
    the resolved value, whatever the entries before it carry. *)
Theorem C2_last_carrying_anchor_wins (repr : json -> string)
    (fromisoformat : string -> option datetime)
    (d : list (string * json)) (info : receipt_info)
    (pre post : list json) (kv : list (string * json)) :
  parse_woleet_receipt repr fromisoformat (JObj d) = Ret info ->
  anchors_to_iterate (py_or (dget d "anchors") (py_or (dget d "anchor") (JArr [])))
    = Ret (pre ++ JObj kv :: post) ->
  is_ledger_anchor repr kv = true ->
  (truthy (anchor_txid kv) = true ->
   (forall a, In a post -> carries repr anchor_txid a = false) ->
   exists s, anchor_txid kv = JStr s /\ txid info = Some (lower s))
  /\ (truthy (anchor_height kv) = true ->
      (forall a, In a post -> carries repr anchor_height a = false) ->
      block_height info = anchor_height kv)
  /\ (truthy (anchor_time kv) = true ->
      (forall a, In a post -> carries repr anchor_time a = false) ->
      anchored_utc info
      = resolve_anchored_utc repr fromisoformat (anchor_time kv) d).
Proof.
  intros Hp Ha Hk.
  destruct (parse_woleet_receipt_inv _ _ _ _ Hp)
    as (anchors & acc & Ea & El & _ & Etx & Ebh & Eutc & _).
  rewrite Ha in Ea. injection Ea as <-.
  destruct (anchor_loop_last _ _ _ _ El) as (T & B & C). simpl in T, B, C.
  repeat split.
  - intros Ht Hpost.
    rewrite (last_carrying_at repr anchor_txid JNull pre post kv) in T.
    + rewrite T in Etx. unfold py_or at 1 in Etx. rewrite Ht in Etx.
      apply (lower_if_truthy_inv _ _ Etx Ht).
    + simpl. now rewrite Hk, Ht.
    + exact Hpost.
  - intros Ht Hpost. rewrite Ebh, B.
    apply last_carrying_at; [simpl; now rewrite Hk, Ht|exact Hpost].
  - intros Ht Hpost. rewrite Eutc, C. f_equal.
    apply last_carrying_at; [simpl; now rewrite Hk, Ht|exact Hpost].
Qed.

(** The theorem at [receipt_two_anchors]: its second anchor gives the
    three values. *)
Lemma C2_last_carrying_witness :
  Sample.parse_receipt Sample.receipt_two_anchors
  = Ret {| proof_id := JStr "P1"; sha256 := None; txid := Some "bb";
           block_height := JInt 200;
           anchored_utc := Some "2024-02-02T00:00:00Z"; link := JNull |}
  /\ (exists s, JStr "bb" = JStr s /\ Some "bb" = Some (lower s))
  /\ JInt 200 = JInt 200.
Proof.
  split; [reflexivity|].
  pose proof (C2_last_carrying_anchor_wins Sample.repr Sample.fromisoformat
    [("id", JStr "P1");
     ("anchors", JArr [
        JObj [("type", JStr "btc"); ("txId", JStr "aa"); ("blockHeight", JInt 100);
              ("time", JStr "2024-01-01T00:00:00Z")];
        JObj [("type", JStr "Bitcoin"); ("txId", JStr "bb"); ("blockHeight", JInt 200);
              ("time", JStr "2024-02-02T00:00:00Z")] ])]
    _
    [JObj [("type", JStr "btc"); ("txId", JStr "aa"); ("blockHeight", JInt 100);
           ("time", JStr "2024-01-01T00:00:00Z")]]
    []
    [("type", JStr "Bitcoin"); ("txId", JStr "bb"); ("blockHeight", JInt 200);
     ("time", JStr "2024-02-02T00:00:00Z")]
    eq_refl eq_refl eq_refl) as (T & B & _).
  split.
  - apply T; [reflexivity|]. intros a [].
  - apply B; [reflexivity|]. intros a [].
Defined.

(** C2 as the specification states it fails: with two anchors of the
    family that both carry the three values, the receipt resolves to the
    values of the second, not to those of the first. *)
Lemma C2_first_anchor_is_overridden :
  exists info,
    Sample.parse_receipt Sample.receipt_two_anchors = Ret info
    /\ txid info = Some "bb" /\ txid info <> Some "aa"
    /\ block_height info = JInt 200 /\ block_height info <> JInt 100
    /\ anchored_utc info = Some "2024-02-02T00:00:00Z"
    /\ anchored_utc info <> Some "2024-01-01T00:00:00Z".
Proof.
  eexists. split; [reflexivity|]. simpl.
  repeat split; discriminate.
Qed.

(* ================================================================== *)
(** ** The matcher (C3, C4) *)

Lemma build_pdf_index_cons (d pdf : string) (rest : list string)
    (idx : list (string * string)) (w : world) :
  build_pdf_index d (pdf :: rest) idx w =
  match sha256_file (w_fs w) (STAMPED ++ [d; pdf]) with
  | Ret h => build_pdf_index d rest (dict_set h pdf idx) w
  | Raise _ => mbind (emit (WarnHashFailed d pdf)) (fun _ => build_pdf_index d rest idx) w
  end.
Proof. reflexivity. Qed.

(** C3, amended.  In a folder with exactly one document and one receipt,
    the receipt is paired with the document whenever their base names
    agree, whatever hash the receipt declares or omits.  When the base
    names differ the pair is made only through the hash: the receipt is
    paired exactly when it declares the computed hash of the document,
    and is reported and left out otherwise. *)
Theorem C3_single_pair (d : string) (files : folder_files) (pdf jname : string)
    (target : option string) (data : string) (w : world) :
  pdf_canons files = [pdf] ->
  jsons files = [jname] ->
  FS.read_bytes (w_fs w) (STAMPED ++ [d; pdf]) = Ret data ->
  exists idx,
    build_pdf_index d (pdf_canons files) [] w = Done idx w
    /\ (lower (base_of (stem jname)) = lower (base_of (stem pdf)) ->
        match_pdf d (build_pdf_by_base (pdf_canons files)) idx jname target w
        = Done (Some pdf) w)
    /\ (lower (base_of (stem jname)) <> lower (base_of (stem pdf)) ->
        match_pdf d (build_pdf_by_base (pdf_canons files)) idx jname target w
        = if match target with
             | Some t => (t =? SHA256.hexdigest data)
             | None => false
             end
          then Done (Some pdf) w
          else Done None
                 {| w_fs := w_fs w;
                    w_out := w_out w ++
                      [WarnUnmatched jname (lower (base_of (stem jname))) (hash12 target)] |}).
Proof.
  intros Hc _ Hread. rewrite Hc.
  pose proof (sha256_file_read _ _ _ Hread) as SA.
  exists [(SHA256.hexdigest data, pdf)]. split; [|split].
  - rewrite build_pdf_index_cons, SA. reflexivity.
  - intro Hb. unfold match_pdf, build_pdf_by_base.
    cbn [fold_left dict_append assoc].
    rewrite Hb, String.eqb_refl. reflexivity.
  - intro Hb. unfold match_pdf, build_pdf_by_base.
    cbn [fold_left dict_append assoc].
    apply not_eq_sym in Hb. apply String.eqb_neq in Hb. rewrite Hb.
    destruct target as [t|]; [|reflexivity].
    rewrite well_formed_target. cbn [assoc].
    rewrite (String.eqb_sym (SHA256.hexdigest data) t).
    destruct (t =? SHA256.hexdigest data) eqn:Et.
    + apply String.eqb_eq in Et. subst t. now rewrite hexdigest_HEX64.
    + destruct (HEX64_match t); reflexivity.
Qed.

(** The theorem at a folder holding [Report.pdf] and
    [Report_receipt.json]: the base names agree and the pair is made,
    though the receipt declares a hash that is not the one of the
    document. *)
Lemma C3_single_pair_witness :
  lower (base_of (stem "Report_receipt.json")) = lower (base_of (stem "Report.pdf"))
  /\ exists idx,
       match_pdf "Report" (build_pdf_by_base ["Report.pdf"]) idx "Report_receipt.json"
         (Some Sample.hash_B) {| w_fs := Sample.tree_one_pair; w_out := [] |}
       = Done (Some "Report.pdf") {| w_fs := Sample.tree_one_pair; w_out := [] |}.
Proof.
  split; [reflexivity|].
  destruct (C3_single_pair "Report"
              {| jsons := ["Report_receipt.json"]; pdf_canons := ["Report.pdf"];
                 attestations := []; screenshots := [] |}
              "Report.pdf" "Report_receipt.json" (Some Sample.hash_B) "%PDF-A"
              {| w_fs := Sample.tree_one_pair; w_out := [] |}
              eq_refl eq_refl eq_refl) as (idx & _ & Hname & _).
  exists idx. apply Hname. reflexivity.
Defined.

(** C3 as the specification states it fails: in [tree_one_pair] the only
    folder holds one document and one receipt, their names differ and the
    receipt declares no hash; the receipt is reported and no record is
    made. *)
Lemma C3_single_pair_left_unmatched :
  exists w',
    Sample.run Sample.normal_run Sample.tree_one_pair
    = Done {| exit_status := 0; rows := []; index_lines := [] |} w'
    /\ w_out w' = [InfoPaths; LogFolder "Report" "report";
                   WarnUnmatched "woleet.json" "woleet" "None"; WarnNothingIndexed].
Proof. eexists. split; vm_compute; reflexivity. Qed.

Lemma find_by_hash_cons (fs : node) (d target c : string) (rest : list string) :
  find_by_hash fs d target (c :: rest) =
  match sha256_file fs (STAMPED ++ [d; c]) with
  | Ret h => if (lower h =? target) then Ret (Some c) else find_by_hash fs d target rest
  | Raise e => Raise e
  end.
Proof. reflexivity. Qed.

(** C4, amended.  In a folder with two documents [A] and [B] of different
    hashes, a receipt that declares the hash of [B] is paired with [B],
    except when its base name is the base name of [A] and not the one of
    [B]: the name is looked at first, a single candidate by name is taken
    without any look at the hash, and the receipt is paired with [A]. *)
Theorem C4_declared_hash_after_name (d jname A B dataA dataB : string)
    (canons : list string) (w : world) :
  canons = [A; B] \/ canons = [B; A] ->
  FS.read_bytes (w_fs w) (STAMPED ++ [d; A]) = Ret dataA ->
  FS.read_bytes (w_fs w) (STAMPED ++ [d; B]) = Ret dataB ->
  SHA256.hexdigest dataA <> SHA256.hexdigest dataB ->
  exists idx,
    build_pdf_index d canons [] w = Done idx w
    /\ match_pdf d (build_pdf_by_base canons) idx jname
         (Some (SHA256.hexdigest dataB)) w
       = Done (Some (if (lower (base_of (stem jname)) =? lower (base_of (stem A)))
                        && negb (lower (base_of (stem A)) =? lower (base_of (stem B)))
                     then A else B)) w.
Proof.
  intros Hc HA HB Hne.
  pose proof (sha256_file_read _ _ _ HA) as SA.
  pose proof (sha256_file_read _ _ _ HB) as SB.
  assert (NAB : (SHA256.hexdigest dataA =? SHA256.hexdigest dataB) = false)
    by now apply String.eqb_neq.
  assert (NBA : (SHA256.hexdigest dataB =? SHA256.hexdigest dataA) = false)
    by (rewrite String.eqb_sym; exact NAB).
  set (bj := lower (base_of (stem jname))).
  set (bA := lower (base_of (stem A))).
  set (bB := lower (base_of (stem B))).
  destruct Hc as [-> | ->].
  - exists [(SHA256.hexdigest dataA, A); (SHA256.hexdigest dataB, B)]. split.
    + rewrite build_pdf_index_cons, SA, build_pdf_index_cons, SB.
      cbn [dict_set]. rewrite NAB. reflexivity.
    + unfold match_pdf, build_pdf_by_base.
      cbn [fold_left dict_append]. fold bj bA bB.
      rewrite well_formed_hexdigest.
      destruct (bA =? bB) eqn:EAB; cbn [assoc app negb].
      * rewrite andb_false_r.
        destruct (bA =? bj) eqn:EAj.
        -- rewrite mbind_reading, !find_by_hash_cons, SA, SB.
           rewrite !hexdigest_lower, NAB, String.eqb_refl. reflexivity.
        -- rewrite NAB, String.eqb_refl. reflexivity.
      * rewrite andb_true_r, (String.eqb_sym bj bA).
        destruct (bA =? bj) eqn:EAj; [reflexivity|].
        destruct (bB =? bj) eqn:EBj; [reflexivity|].
        rewrite NAB, String.eqb_refl. reflexivity.
  - exists [(SHA256.hexdigest dataB, B); (SHA256.hexdigest dataA, A)]. split.
    + rewrite build_pdf_index_cons, SB, build_pdf_index_cons, SA.
      cbn [dict_set]. rewrite NBA. reflexivity.
    + unfold match_pdf, build_pdf_by_base.
      cbn [fold_left dict_append]. fold bj bA bB.
      rewrite well_formed_hexdigest.
      rewrite (String.eqb_sym bA bB).
      destruct (bB =? bA) eqn:EBA; cbn [assoc app negb].
      * rewrite andb_false_r.
        destruct (bB =? bj) eqn:EBj.
        -- rewrite mbind_reading, !find_by_hash_cons, SB.
           rewrite !hexdigest_lower, String.eqb_refl. reflexivity.
        -- rewrite String.eqb_refl. reflexivity.
      * rewrite andb_true_r, (String.eqb_sym bj bA).
        destruct (bB =? bj) eqn:EBj.
        -- destruct (bA =? bj) eqn:EAj; [|reflexivity].
           apply String.eqb_eq in EBj, EAj. rewrite <- EAj in EBj.
           rewrite EBj, String.eqb_refl in EBA. discriminate.
        -- destruct (bA =? bj) eqn:EAj; [reflexivity|].
           rewrite String.eqb_refl. reflexivity.
Qed.

(** The theorem at the folder of [tree_two_docs]: the receipt [B.json]
    declares the hash of [B.pdf] and is paired with it. *)
Lemma C4_declared_hash_witness :
  SHA256.hexdigest "%PDF-A" <> SHA256.hexdigest "%PDF-B"
  /\ exists idx,
       match_pdf "Report_v2" (build_pdf_by_base ["A.pdf"; "B.pdf"]) idx "B.json"
         (Some (SHA256.hexdigest "%PDF-B"))
         {| w_fs := Sample.tree_two_docs; w_out := [] |}
       = Done (Some "B.pdf") {| w_fs := Sample.tree_two_docs; w_out := [] |}.
Proof.
  assert (Hne : SHA256.hexdigest "%PDF-A" <> SHA256.hexdigest "%PDF-B")
    by (vm_compute; discriminate).
  split; [exact Hne|].
  destruct (C4_declared_hash_after_name "Report_v2" "B.json" "A.pdf" "B.pdf"
              "%PDF-A" "%PDF-B" ["A.pdf"; "B.pdf"]
              {| w_fs := Sample.tree_two_docs; w_out := [] |}
              (or_introl eq_refl) eq_refl eq_refl Hne) as (idx & _ & Hm).
  exists idx. exact Hm.
Defined.

(** C4 as the specification states it fails: in [tree_name_first] the
    receipt declares the hash of [B.pdf] and has the name of [A.pdf]; the
    record is the one of [A.pdf]. *)
Lemma C4_name_decides_against_hash :
  SHA256.hexdigest "%PDF-B" = Sample.hash_B
  /\ Sample.json_loads Sample.receipt_text_B
     = Some (JObj [("id", JStr "P1"); ("targetHash", JStr Sample.hash_B)])
  /\ exists r w',
       Sample.run Sample.normal_run Sample.tree_name_first = Done r w'
       /\ map (fun x => dget x "filename") (rows r) = [JStr "stamped/Report_v2/A.pdf"]
       /\ map (fun x => dget x "sha256") (rows r) = [JStr (SHA256.hexdigest "%PDF-A")]
       /\ SHA256.hexdigest "%PDF-A" <> Sample.hash_B.
Proof.
  split; [vm_compute; reflexivity|].
  split; [vm_compute; reflexivity|].
  eexists _, _. split; [vm_compute; reflexivity|].
  split; [reflexivity|]. split; [vm_compute; reflexivity|].
  vm_compute. discriminate.
Qed.

(* ================================================================== *)
(** ** Version tokens (C5) *)

(** The characters of a text hold its bytes, in order. *)
Lemma text_of_uchars (s : string) : text_of (uchars s) = s.
Proof.
  assert (H : forall n s, (String.length s <= n)%nat -> text_of (uchars s) = s).
  { clear s. induction n as [|n IH]; intros s Hn.
    - destruct s; [reflexivity|simpl in Hn; lia].
    - destruct s as [|a s1]; [reflexivity|]. simpl in Hn.
      assert (L : text_of (one_byte a :: uchars s1) = String a s1).
      { cbn [text_of one_byte bytes append]. rewrite IH by lia. reflexivity. }
      cbn [uchars]. fold (uchars s1).
      destruct s1 as [|b s2]; [exact L|].
      destruct (two_ok a b).
      { cbn [text_of two_bytes bytes append]. rewrite IH by (simpl in Hn; lia).
        reflexivity. }
      destruct s2 as [|c s3]; [exact L|].
      destruct (three_ok a b c).
      { cbn [text_of three_bytes bytes append]. rewrite IH by (simpl in Hn; lia).
        reflexivity. }
      destruct s3 as [|d s4]; [exact L|].
      destruct (four_ok a b c d); [|exact L].
      cbn [text_of four_bytes bytes append]. rewrite IH by (simpl in Hn; lia).
      reflexivity. }
  apply (H (String.length s)). lia.
Qed.

Lemma text_of_app (a b : list uchar) :
  text_of (a ++ b) = (text_of a ++ text_of b)%string.
Proof.
  induction a as [|c a IH]; [reflexivity|]. simpl. rewrite IH.
  induction (bytes c) as [|x t IHt]; [reflexivity|]. simpl. now rewrite IHt.
Qed.

Lemma vtail_cons (c : uchar) (s : list uchar) :
  u_digit (code c) = true -> vtail (c :: s) = c :: vtail s.
Proof. intro H. simpl. now rewrite H. Qed.


(** What [vtail] keeps after a digit is a version number with it. *)
Lemma vtail_number (s : list uchar) (c : uchar) :
  u_digit (code c) = true -> version_number (c :: vtail s).
Proof.
  assert (H : forall n s, (List.length s <= n)%nat ->
              forall c, u_digit (code c) = true -> version_number (c :: vtail s)).
  { clear s c. induction n as [|n IH]; intros s Hn c Hc.
    - destruct s; [now apply vn_last|simpl in Hn; lia].
    - destruct s as [|d s]; [now apply vn_last|]. simpl in Hn. simpl.
      destruct (u_digit (code d)) eqn:Hd.
      + apply vn_more; [exact Hc|]. apply IH; [lia|exact Hd].
      + destruct (u_dot (code d)) eqn:Hdot; [|now apply vn_last].
        destruct s as [|e s']; [now apply vn_last|].
        destruct (u_digit (code e)) eqn:He; [|now apply vn_last].
        apply vn_dot; [exact Hc|exact Hdot|].
        rewrite (vtail_cons _ _ He). apply IH; [simpl in Hn; lia|exact He]. }
  apply (H (List.length s)). lia.
Qed.

Lemma vtail_prefix (s : list uchar) : exists post, s = vtail s ++ post.
Proof.
  induction s as [|c s IH]; [now exists []|].
  destruct IH as [post Hp]. simpl.
  destruct (u_digit (code c)).
  - exists post. simpl. now rewrite <- Hp.
  - destruct (u_dot (code c)); [|now exists (c :: s)].
    destruct s as [|d s']; [now exists [c]|].
    destruct (u_digit (code d)); [|now exists (c :: d :: s')].
    exists post. simpl. now f_equal.
Qed.

Lemma version_at_sound (s tok : list uchar) :
  version_at s = Some tok -> version_token tok /\ exists post, s = tok ++ post.
Proof.
  unfold version_at. destruct s as [|c [|d s]]; try discriminate.
  destruct (u_v (code c) && u_digit (code d)) eqn:E; [|discriminate].
  apply andb_true_iff in E as [Hv Hd].
  intro H. injection H as <-. split.
  - exists c, (vtail (d :: s)). split; [reflexivity|]. split; [exact Hv|].
    rewrite (vtail_cons _ _ Hd). now apply vtail_number.
  - destruct (vtail_prefix (d :: s)) as [post Hp]. exists post.
    cbn [app]. now f_equal.
Qed.



Lemma append_assoc (a b c : string) : ((a ++ b) ++ c = a ++ (b ++ c))%string.
Proof. induction a as [|x a IH]; simpl; congruence. Qed.

Lemma append_nil_r (a : string) : (a ++ "" = a)%string.
Proof. induction a as [|x a IH]; simpl; congruence. Qed.

(** What the search returns is a version token that stands at the start
    of the text or right after a separator. *)
Lemma search_version_sound (s : list uchar) :
  forall b tok, search_version b s = Some tok ->
  exists pre post,
    s = pre ++ tok ++ post /\ version_token tok
    /\ ((b = true /\ pre = [])
        \/ exists pre' c, pre = pre' ++ [c] /\ u_sep (code c) = true).
Proof.
  induction s as [|c s IH]; intros b tok H.
  - destruct b; simpl in H; discriminate.
  - cbn [search_version] in H.
    destruct (if b then version_at (c :: s) else None) as [t|] eqn:E1.
    + injection H as ->. destruct b; [|discriminate].
      destruct (version_at_sound _ _ E1) as [Ht [post Hp]].
      exists [], post. repeat split; auto.
    + destruct (if u_sep (code c) then version_at s else None) as [t|] eqn:E2.
      * injection H as ->. destruct (u_sep (code c)) eqn:Ec; [|discriminate].
        destruct (version_at_sound _ _ E2) as [Ht [post Hp]].
        exists [c], post. split; [simpl; now rewrite <- Hp|].
        split; [exact Ht|]. right. now exists [], c.
      * destruct (IH _ _ H) as (pre & post & Hs & Ht & Hb).
        exists (c :: pre), post. split; [simpl; now rewrite <- Hs|].
        split; [exact Ht|]. right.
        destruct Hb as [[Hf _]|(pre' & c' & -> & Hc')]; [discriminate|].
        now exists (c :: pre'), c'.
Qed.











Lemma squeeze_chars (b : bool) (s : string) :
  forallb_str slug_or_dash (squeeze b s) = true.
Proof.
  revert b. induction s as [|c s IH]; intro b; [reflexivity|].
  simpl. destruct (is_slug_char c) eqn:Ec.
  - simpl. unfold slug_or_dash at 1. now rewrite Ec, IH.
  - destruct b; [apply IH|]. simpl. apply IH.
Qed.

Lemma lstrip_dash_chars (p : ascii -> bool) (s : string) :
  forallb_str p s = true -> forallb_str p (lstrip_dash s) = true.
Proof.
  induction s as [|c s IH]; [reflexivity|]. simpl. intro H.
  apply andb_true_iff in H as [Hc Hs].
  destruct (c =? "-")%char; [now apply IH|]. simpl. now rewrite Hc, Hs.
Qed.

Lemma rstrip_dash_chars (p : ascii -> bool) (s : string) :
  forallb_str p s = true -> forallb_str p (rstrip_dash s) = true.
Proof.
  induction s as [|c s IH]; [reflexivity|]. simpl. intro H.
  apply andb_true_iff in H as [Hc Hs].
  destruct ((c =? "-")%char && (rstrip_dash s =? "")); [reflexivity|].
  simpl. now rewrite Hc, IH.
Qed.

(** A slug is made of lower-case letters, digits and dashes. *)
Lemma slugify_chars (s : string) : forallb_str slug_or_dash (slugify s) = true.
Proof.
  unfold slugify, strip_dash.
  apply rstrip_dash_chars, lstrip_dash_chars, squeeze_chars.
Qed.

Lemma slug_or_dash_not_underscore (c : ascii) :
  slug_or_dash c = true -> (c =? "_")%char = false.
Proof.
  intro H. destruct (c =? "_")%char eqn:E; [|reflexivity].
  apply Ascii.eqb_eq in E. subst c. discriminate H.
Qed.

Lemma split_underscore_app (a v : string) :
  forallb_str slug_or_dash a = true ->
  split_underscore (a ++ "_" ++ v) = Some (a, v).
Proof.
  induction a as [|c a IH]; [reflexivity|]. simpl. intro H.
  apply andb_true_iff in H as [Hc Ha].
  rewrite (slug_or_dash_not_underscore _ Hc). simpl in IH. now rewrite (IH Ha).
Qed.





(** What [assemble_record] returns, when it returns. *)
Lemma assemble_record_inv (guess_type : string -> option string)
    (d : string) (files : folder_files) (jname : string) (info : receipt_info)
    (pdf_match : string) (w : world) (r : assembled) (w' : world) :
  assemble_record guess_type d files jname info pdf_match w = Done r w' ->
  exists size_bytes calc_sha,
    FS.st_size (w_fs w) (STAMPED ++ [d; pdf_match]) = Ret size_bytes
    /\ sha256_file (w_fs w) (STAMPED ++ [d; pdf_match]) = Ret calc_sha
    /\ a_slug_version r
       = build_slug_version (base_slug_of d) pdf_match d (anchored_utc info)
    /\ a_outdir r = BY_DOC ++ [a_slug_version r]
    /\ a_pdf_path r = STAMPED ++ [d; pdf_match]
    /\ a_attestation r
       = match pick_attestation_for pdf_match (attestations files) with
         | Some x => Some (STAMPED ++ [d; x])
         | None => None
         end
    /\ a_proof_json r
       = make_proof_json d (base_slug_of d) (a_slug_version r)
           (rel_str (STAMPED ++ [d; pdf_match]))
           match guess_type pdf_match with
           | Some m => if (m =? "") then "application/pdf" else m
           | None => "application/pdf"
           end size_bytes calc_sha info jname
    /\ a_row r
       = make_row d (a_slug_version r) (rel_str (STAMPED ++ [d; pdf_match]))
           match guess_type pdf_match with
           | Some m => if (m =? "") then "application/pdf" else m
           | None => "application/pdf"
           end size_bytes calc_sha info
    /\ a_index_line r
       = make_index_line (a_slug_version r) (rel_str (STAMPED ++ [d; pdf_match]))
           calc_sha info
    /\ w_fs w' = w_fs w.
Proof.
  unfold assemble_record. rewrite mbind_reading.
  destruct (FS.st_size (w_fs w) _) as [size|]; [|discriminate].
  rewrite mbind_reading.
  destruct (sha256_file (w_fs w) _) as [sha|]; [|discriminate].
  rewrite mbind_if_emit. unfold mret. intro H. injection H as <- <-.
  exists size, sha. cbn. repeat split.
Qed.

(** C6, amended.  In a folder labelled [Report_v2] that holds the
    documents [A.pdf] and [B.pdf], the record of either document has the
    composite slug [report_v2]: the base slug [report] and the token of
    the label as it is written, [v2], to which no minor number is added;
    its [version] entry is [v2]. *)
Theorem C6_report_v2_slug (guess_type : string -> option string)
    (files : folder_files) (jname : string) (info : receipt_info)
    (pdf_match : string) (w : world) (r : assembled) (w' : world) :
  In pdf_match ["A.pdf"; "B.pdf"] ->
  assemble_record guess_type "Report_v2" files jname info pdf_match w = Done r w' ->
  a_slug_version r = "report_v2"
  /\ a_outdir r = ["proofs"; "by-doc"; "report_v2"]
  /\ dget (a_row r) "slug" = JStr "report_v2"
  /\ dget (a_index_line r) "slug" = JStr "report_v2"
  /\ jget (jget (a_proof_json r) "document") "version" = JStr "v2".
Proof.
  intros Hin H.
  destruct (assemble_record_inv _ _ _ _ _ _ _ _ _ H)
    as (size & sha & _ & _ & Hs & Ho & _ & _ & Hj & Hr & Hi & _).
  assert (E : a_slug_version r = "report_v2").
  { rewrite Hs. destruct Hin as [<-|[<-|[]]]; reflexivity. }
  rewrite Ho, Hj, Hr, Hi, E. repeat split.
Qed.

(** The theorem at [tree_two_docs], for the document [B.pdf]. *)
Lemma C6_report_v2_slug_witness :
  In "B.pdf" ["A.pdf"; "B.pdf"]
  /\ exists r w',
       assemble_record Sample.guess_type "Report_v2" no_files "B.json"
         {| proof_id := JStr "P1"; sha256 := Some Sample.hash_B; txid := None;
            block_height := JNull; anchored_utc := None; link := JNull |}
         "B.pdf" {| w_fs := Sample.tree_two_docs; w_out := [] |} = Done r w'
       /\ a_slug_version r = "report_v2".
Proof.
  split; [right; left; reflexivity|].
  destruct (assemble_record Sample.guess_type "Report_v2" no_files "B.json"
         {| proof_id := JStr "P1"; sha256 := Some Sample.hash_B; txid := None;
            block_height := JNull; anchored_utc := None; link := JNull |}
         "B.pdf" {| w_fs := Sample.tree_two_docs; w_out := [] |}) as [r w'|e w'] eqn:E.
  - exists r, w'. split; [reflexivity|].
    exact (proj1 (C6_report_v2_slug _ _ _ _ _ _ _ _
                    (or_intror (or_introl eq_refl)) E)).
  - exfalso. vm_compute in E. discriminate E.
Defined.

(** C6 as the specification states it fails: the run on [tree_two_docs]
    (folder [Report_v2], documents [A.pdf] and [B.pdf], a receipt that
    declares the hash of [B.pdf]) pairs the receipt with [B.pdf] and gives
    the slug [report_v2], which is not [report_v2-0]. *)
Lemma C6_slug_is_not_report_v2_0 :
  exists r w',
    Sample.run Sample.normal_run Sample.tree_two_docs = Done r w'
    /\ map (fun x => dget x "filename") (rows r) = [JStr "stamped/Report_v2/B.pdf"]
    /\ map (fun x => dget x "slug") (rows r) = [JStr "report_v2"]
    /\ map (fun x => dget x "slug") (rows r) <> [JStr "report_v2-0"].
Proof.
  eexists _, _. split; [vm_compute; reflexivity|].
  split; [reflexivity|]. split; [reflexivity|]. discriminate.
Qed.

(* ================================================================== *)
(** ** The resolved time of a receipt (C7) *)



Opaque digit.

Lemma forallb_str_app (p : ascii -> bool) (a b : string) :
  forallb_str p (a ++ b) = forallb_str p a && forallb_str p b.
Proof.
  induction a as [|c a IH]; [reflexivity|]. simpl. now rewrite IH, andb_assoc.
Qed.

Lemma length_append (a b : string) :
  String.length (a ++ b) = (String.length a + String.length b)%nat.
Proof. induction a as [|c a IH]; simpl; congruence. Qed.











(** *** Reading back what [strftime] writes *)











Section Resolution.

Variable repr : json -> string.
Variable fromisoformat : string -> option datetime.






End Resolution.



Lemma first_some_in {A : Type} (l : list (option A)) (x : A) :
  first_some l = Some x -> In (Some x) l.
Proof.
  induction l as [|[y|] l IH]; simpl; [discriminate| |].
  - intro H. left. exact H.
  - intro H. right. now apply IH.
Qed.

Lemma assoc_dict_set {A : Type} (k k' : string) (v : A) (kv : list (string * A)) :
  assoc k' (dict_set k v kv) = if (k =? k') then Some v else assoc k' kv.
Proof.
  induction kv as [|[k0 v0] kv IH]; simpl; [reflexivity|].
  destruct (k0 =? k) eqn:E0; simpl.
  - apply String.eqb_eq in E0. subst k0. now destruct (k =? k').
  - rewrite IH. destruct (k =? k') eqn:E; [|reflexivity].
    apply String.eqb_eq in E. subst k'. now rewrite E0.
Qed.





Section TimeValues.

Variable repr : json -> string.






End TimeValues.








(** A year below 1000 is written on fewer than four digits, and the
    resolved time has not the ISO shape. *)
Example year_below_1000 :
  Sample.parse_receipt (JObj [("created", JStr "0999-01-01T00:00:00")])
  = Ret {| proof_id := JNull; sha256 := None; txid := None; block_height := JNull;
           anchored_utc := Some "999-01-01T00:00:00Z"; link := JNull |}
  /\ is_iso_utc_seconds "999-01-01T00:00:00Z" = false
  /\ read_isoZ "999-01-01T00:00:00Z" = Some (999, 1, 1, 0, 0, 0)%Z.
Proof. repeat split. Qed.

(* ================================================================== *)
(** ** The exit status of a run (C8) *)

Lemma mbind_done {A B : Type} (m : M A) (k : A -> M B) (w : world) (b : B) (w' : world) :
  mbind m k w = Done b w' ->
  exists a w1, m w = Done a w1 /\ k a w1 = Done b w'.
Proof.
  unfold mbind. destruct (m w) as [a w1|e w1]; [|discriminate]. eauto.
Qed.

Lemma reading_done {A : Type} (f : node -> res A) (w w' : world) (a : A) :
  reading f w = Done a w' -> w' = w /\ f (w_fs w) = Ret a.
Proof.
  unfold reading. destruct (f (w_fs w)); [|discriminate].
  intro H. injection H as <- <-. now split.
Qed.

Lemma writing_done (f : node -> res node) (w w' : world) :
  writing f w = Done tt w' -> f (w_fs w) = Ret (w_fs w') /\ w_out w' = w_out w.
Proof.
  unfold writing. destruct (f (w_fs w)); [|discriminate].
  intro H. injection H as <-. now split.
Qed.

Section Exit.

Variable repr : json -> string.
Variable fromisoformat : string -> option datetime.
Variable json_loads : string -> option json.
Variable json_dumps : bool -> json -> string.
Variable csv_text : list string -> list row -> string.
Variable guess_type : string -> option string.
Variable now : Z.

Lemma main_without_input (a : args) (w : world) :
  FS.exists_ (w_fs w) STAMPED = false ->
  main repr fromisoformat json_loads json_dumps csv_text guess_type now a w
  = Done {| exit_status := 1; rows := []; index_lines := [] |}
      {| w_fs := w_fs w; w_out := w_out w ++ [InfoPaths; ErrMissingStamped] |}.
Proof.
  intro H. unfold main.
  rewrite mbind_emit, mbind_reading. cbn [w_fs w_out]. rewrite H. cbn [negb].
  rewrite mbind_emit. unfold mret. cbn [w_fs w_out].
  now rewrite <- app_assoc.
Qed.

Lemma write_tables_done (a : args) (t : tables) (w w' : world) :
  write_tables json_dumps csv_text now a t w = Done tt w' ->
  (fst t = [] -> w' = {| w_fs := w_fs w; w_out := w_out w ++ [WarnNothingIndexed] |})
  /\ (fst t <> [] ->
      exists fs', w' = {| w_fs := fs';
                          w_out := w_out w ++ [OkDone (List.length (fst t))] |}).
Proof.
  unfold write_tables. destruct (fst t) as [|r0 rs] eqn:E.
  - intro H. unfold emit in H. injection H as <-. split; [reflexivity|congruence].
  - intro H. split; [discriminate|]. intros _.
    destruct (dry_run a).
    + rewrite mbind_mret in H. unfold emit in H. injection H as <-. eauto.
    + rewrite mbind_assoc, mbind_writing in H.
      destruct (FS.write_file now (w_fs w) _ _) as [fs1|]; [|discriminate].
      rewrite mbind_writing in H. cbn [w_fs w_out] in H.
      destruct (FS.write_file now fs1 _ _) as [fs2|]; [|discriminate].
      unfold emit in H. injection H as <-. eauto.
Qed.

Lemma main_with_input (a : args) (w : world) (r : run_result) (w' : world) :
  FS.exists_ (w_fs w) STAMPED = true ->
  main repr fromisoformat json_loads json_dumps csv_text guess_type now a w = Done r w' ->
  exit_status r = 0%Z
  /\ (rows r = [] -> exists l, w_out w' = l ++ [WarnNothingIndexed])
  /\ (rows r <> [] -> exists l, w_out w' = l ++ [OkDone (List.length (rows r))]).
Proof.
  intros Hin H. unfold main in H.
  rewrite mbind_emit, mbind_reading in H. cbn [w_fs w_out] in H.
  rewrite Hin in H. cbn [negb] in H.
  apply mbind_done in H as (? & w1 & _ & H).
  apply mbind_done in H as (? & w2 & _ & H).
  apply mbind_done in H as (subdirs & w3 & _ & H).
  apply mbind_done in H as (? & w4 & _ & H).
  apply mbind_done in H as (t & w5 & _ & H).
  apply mbind_done in H as ([] & w6 & Hw & H).
  unfold mret in H. injection H as <- <-. cbn [exit_status rows].
  destruct (write_tables_done _ _ _ _ Hw) as [H0 H1].
  split; [reflexivity|]. split.
  - intro E. rewrite (H0 E). cbn. eauto.
  - intro E. destruct (H1 E) as [fs' ->]. cbn. eauto.
Qed.

End Exit.

(** C8, amended.  When the input directory [stamped/] is missing the run
    prints the error and ends with status 1, and nothing has been written.
    When the directory is there, a run that reaches its end (no exception
    escapes) ends with status 0, whether records have been made or not:
    with no record the only sign is the warning printed last. *)
Theorem C8_exit_status (repr : json -> string)
    (fromisoformat : string -> option datetime)
    (json_loads : string -> option json) (json_dumps : bool -> json -> string)
    (csv_text : list string -> list row -> string)
    (guess_type : string -> option string) (now : Z) (a : args) (w : world) :
  (FS.exists_ (w_fs w) STAMPED = false ->
   main repr fromisoformat json_loads json_dumps csv_text guess_type now a w
   = Done {| exit_status := 1; rows := []; index_lines := [] |}
       {| w_fs := w_fs w; w_out := w_out w ++ [InfoPaths; ErrMissingStamped] |})
  /\ (FS.exists_ (w_fs w) STAMPED = true ->
      forall r w',
        main repr fromisoformat json_loads json_dumps csv_text guess_type now a w
        = Done r w' ->
        exit_status r = 0%Z
        /\ (rows r = [] -> exists l, w_out w' = l ++ [WarnNothingIndexed])
        /\ (rows r <> [] -> exists l, w_out w' = l ++ [OkDone (List.length (rows r))])).
Proof.
  split.
  - apply main_without_input.
  - intros Hin r w'. now apply main_with_input.
Qed.

(** The theorem at [tree_no_input]: the run ends with status 1 and the
    tree is as it was. *)
Lemma C8_exit_status_witness :
  FS.exists_ Sample.tree_no_input STAMPED = false
  /\ Sample.run Sample.normal_run Sample.tree_no_input
     = Done {| exit_status := 1; rows := []; index_lines := [] |}
         {| w_fs := Sample.tree_no_input; w_out := [InfoPaths; ErrMissingStamped] |}.
Proof.
  split; [reflexivity|].
  exact (proj1 (C8_exit_status Sample.repr Sample.fromisoformat Sample.json_loads
                  Sample.json_dumps Sample.csv_text Sample.guess_type Sample.now
                  Sample.normal_run {| w_fs := Sample.tree_no_input; w_out := [] |})
           eq_refl).
Defined.

(** C8 as the specification states it fails: with an input directory that
    holds no folder the run makes no record and ends with status 0. *)
Lemma C8_no_record_exit_zero :
  exists w',
    Sample.run Sample.normal_run Sample.tree_no_folder
    = Done {| exit_status := 0; rows := []; index_lines := [] |} w'
    /\ w_out w' = [InfoPaths; WarnNoSubdir; WarnNothingIndexed].
Proof. eexists. split; vm_compute; reflexivity. Qed.

(* ================================================================== *)
(** ** The file tree *)

Lemma dict_set_same {A : Type} (x : string) (c : A) (es : list (string * A)) :
  assoc x es = Some c -> dict_set x c es = es.
Proof.
  induction es as [|[y d] es IH]; simpl; [discriminate|].
  destruct (y =? x) eqn:E.
  - intro H. injection H as ->. apply String.eqb_eq in E. now subst y.
  - intro H. now rewrite (IH H).
Qed.

Lemma lookup_cons (fs : node) (x : string) (p : path) :
  FS.lookup fs (x :: p) =
  match FS.lookup fs [x] with
  | Some c => FS.lookup c p
  | None => None
  end.
Proof.
  simpl. destruct fs as [| m es |]; try reflexivity.
  destruct (assoc x es); reflexivity.
Qed.

Lemma lookup_app (fs : node) (p q : path) :
  FS.lookup fs (p ++ q) =
  match FS.lookup fs p with
  | Some c => FS.lookup c q
  | None => None
  end.
Proof.
  revert fs. induction p as [|x p IH]; intro fs; [reflexivity|].
  simpl. destruct fs as [| m es |]; try reflexivity.
  destruct (assoc x es); [apply IH|reflexivity].
Qed.

(** An entry has a directory above it. *)
Lemma lookup_parent (fs : node) (p : path) (y : string) (n : node) :
  FS.lookup fs (p ++ [y]) = Some n ->
  exists m es, FS.lookup fs p = Some (Dir m es) /\ assoc y es = Some n.
Proof.
  rewrite lookup_app. destruct (FS.lookup fs p) as [[| m es |]|]; try discriminate.
  simpl. destruct (assoc y es) eqn:E; [|discriminate].
  intro H. injection H as ->. eauto.
Qed.

Section Frames.

Variable now : Z.

(** [mkdir] on a directory that is there changes nothing. *)
Lemma mkdir_p_existing (p : path) (fs : node) (m : Z) (es : list (string * node)) :
  FS.lookup fs p = Some (Dir m es) -> FS.mkdir_p now fs p = Ret fs.
Proof.
  revert fs. induction p as [|x p IH]; intros fs H.
  - simpl in H. injection H as ->. reflexivity.
  - simpl in H. destruct fs as [| m0 es0 |]; try discriminate.
    destruct (assoc x es0) as [c|] eqn:E; [|discriminate].
    cbn [FS.mkdir_p]. rewrite E, (IH _ H).
    unfold FS.set_entry. now rewrite (dict_set_same _ _ _ E).
Qed.

Lemma put_leaf_cons (b : bool) (leaf fs : node) (x y : string) (p : path) :
  FS.put_leaf now b leaf fs (x :: y :: p) =
  match fs with
  | Dir m es =>
      match assoc x es with
      | Some c =>
          match FS.put_leaf now b leaf c (y :: p) with
          | Ret c' => Ret (Dir m (FS.set_entry x c' es))
          | Raise e => Raise e
          end
      | None => Raise WriteFailed
      end
  | _ => Raise WriteFailed
  end.
Proof. destruct fs; reflexivity. Qed.

(** What is put at a name leaves the other names of the directory as
    they are. *)
Lemma put_leaf_sibling (b : bool) (leaf : node) (p : path) (x y : string)
    (fs fs' : node) :
  FS.put_leaf now b leaf fs (p ++ [x]) = Ret fs' ->
  x <> y ->
  FS.lookup fs' (p ++ [y]) = FS.lookup fs (p ++ [y]).
Proof.
  intros H Hxy. apply String.eqb_neq in Hxy.
  revert fs fs' H. induction p as [|z p IH]; intros fs fs' H.
  - cbn [app] in *. destruct fs as [| m es |]; try discriminate.
    cbn [FS.put_leaf] in H.
    assert (E : exists m', fs' = Dir m' (FS.set_entry x leaf es)).
    { destruct (assoc x es) as [[| |]|]; try discriminate;
        try (destruct b; discriminate).
      - destruct b; [|discriminate]. injection H as <-. eauto.
      - injection H as <-. eauto. }
    destruct E as [m' ->]. simpl. unfold FS.set_entry.
    now rewrite assoc_dict_set, Hxy.
  - assert (Hp : exists u q, p ++ [x] = u :: q) by (destruct p; simpl; eauto).
    destruct Hp as (u & q & Hp).
    change ((z :: p) ++ [x]) with (z :: (p ++ [x])) in H. rewrite Hp in H.
    rewrite put_leaf_cons in H. rewrite <- Hp in H.
    destruct fs as [| m es |]; try discriminate.
    destruct (assoc z es) as [c|] eqn:Ez; [|discriminate].
    destruct (FS.put_leaf now b leaf c (p ++ [x])) as [c'|] eqn:Ec; [|discriminate].
    injection H as <-.
    change ((z :: p) ++ [y]) with (z :: (p ++ [y])). simpl.
    unfold FS.set_entry. rewrite assoc_dict_set, String.eqb_refl, Ez.
    now apply IH.
Qed.

End Frames.

(* ================================================================== *)
(** ** Annexes are only created (C10) *)

Section Annexes.

Variable repr : json -> string.
Variable json_dumps : bool -> json -> string.
Variable now : Z.

Lemma world_eta (w : world) : {| w_fs := w_fs w; w_out := w_out w |} = w.
Proof. now destruct w. Qed.

Lemma copy_or_link_existing (src dst : path) (s v : bool) (w : world) :
  FS.exists_ (w_fs w) dst = true ->
  copy_or_link now src dst s false v w = Done tt w.
Proof. intro H. unfold copy_or_link. now rewrite H. Qed.

(** A transfer to a name of a directory leaves every other name of that
    directory, and the name itself when it is taken, as they are. *)
Lemma copy_or_link_frame (src outdir : path) (x y : string) (s v : bool)
    (w w' : world) :
  copy_or_link now src (outdir ++ [x]) s false v w = Done tt w' ->
  FS.exists_ (w_fs w) (outdir ++ [y]) = true ->
  FS.lookup (w_fs w') (outdir ++ [y]) = FS.lookup (w_fs w) (outdir ++ [y]).
Proof.
  unfold copy_or_link. intros H Hy.
  destruct (FS.exists_ (w_fs w) (outdir ++ [x])) eqn:Ex.
  - now injection H as <-.
  - assert (Hxy : x <> y) by (intros ->; congruence).
    destruct s.
    + unfold FS.symlink in H.
      destruct (FS.put_leaf now false (Link src) (w_fs w) (outdir ++ [x]))
        as [fs'|[]] eqn:Ep; try discriminate.
      * injection H as <-. cbn [w_fs]. now apply (put_leaf_sibling now _ _ _ _ _ _ _ Ep).
      * now injection H as <-.
    + unfold writing, FS.copy2 in H.
      destruct (FS.lookup (w_fs w) src) as [[m d| |]|]; try discriminate.
      destruct (FS.put_leaf now true (File m d) (w_fs w) (outdir ++ [x]))
        as [fs'|] eqn:Ep; [|discriminate].
      injection H as <-. cbn [w_fs]. now apply (put_leaf_sibling now _ _ _ _ _ _ _ Ep).
Qed.

Lemma write_file_frame (outdir : path) (x y data : string) (fs fs' : node) :
  FS.write_file now fs (outdir ++ [x]) data = Ret fs' ->
  x <> y ->
  FS.lookup fs' (outdir ++ [y]) = FS.lookup fs (outdir ++ [y]).
Proof. unfold FS.write_file. apply put_leaf_sibling. Qed.

Lemma exists_lookup (fs fs' : node) (p : path) :
  FS.lookup fs' p = FS.lookup fs p -> FS.exists_ fs' p = FS.exists_ fs p.
Proof. unfold FS.exists_. now intros ->. Qed.

(** The steps of [write_proof_set] outside a simulation, when it ends. *)
Lemma write_proof_set_steps (outdir : path) (pj : json) (pdf_path rpath : path)
    (att : option path) (shots : list path) (s v : bool) (w w' : world) :
  write_proof_set repr json_dumps now outdir pj pdf_path rpath att shots s false v w
    = Done tt w' ->
  exists fs0 fs1 fs2 line fs3 w4 w5,
    FS.mkdir_p now (w_fs w) outdir = Ret fs0
    /\ FS.write_file now fs0 (outdir ++ ["proof.json"]) (json_dumps true pj) = Ret fs1
    /\ FS.write_file now fs1 (outdir ++ ["checksums.txt"]) "" = Ret fs2
    /\ checksum_line repr pj pdf_path = Ret line
    /\ FS.write_file now fs2 (outdir ++ ["checksums.txt"]) line = Ret fs3
    /\ copy_or_link now rpath (outdir ++ ["woleet_receipt.json"]) s false v
         {| w_fs := fs3; w_out := w_out w |} = Done tt w4
    /\ match att with
       | Some a => copy_or_link now a (outdir ++ ["woleet_receipt.pdf"]) s false v w4
       | None => mret tt w4
       end = Done tt w5
    /\ match shots with
       | x :: _ => copy_or_link now x (outdir ++ [last x ""]) s false v w5
       | [] => mret tt w5
       end = Done tt w'.
Proof.
  intro H. unfold write_proof_set, ensure_dir in H.
  apply mbind_done in H as ([] & w0 & H0 & H).
  apply mbind_done in H as ([] & w1 & H1 & H).
  apply mbind_done in H as ([] & w3 & H3 & H).
  apply mbind_done in H as ([] & w4 & H4 & H).
  apply mbind_done in H as ([] & w5 & H5 & H).
  apply mbind_done in H3 as ([] & w2 & H2 & H3).
  apply mbind_done in H3 as (line & w2' & Hl & H3).
  unfold lift in Hl. apply reading_done in Hl as [-> Hl].
  apply writing_done in H0 as [H0 O0]. apply writing_done in H1 as [H1 O1].
  apply writing_done in H2 as [H2 O2]. apply writing_done in H3 as [H3 O3].
  cbv beta in Hl.
  exists (w_fs w0), (w_fs w1), (w_fs w2), line, (w_fs w3), w4, w5.
  split; [exact H0|]. split; [exact H1|]. split; [exact H2|]. split; [exact Hl|].
  split; [exact H3|].
  split; [|split; [destruct att; exact H5|destruct shots; exact H]].
  replace (w_out w) with (w_out w3) by congruence. now rewrite world_eta.
Qed.

Lemma write_proof_set_frame (outdir : path) (pj : json) (pdf_path rpath : path)
    (att : option path) (shots : list path) (s v : bool) (w w' : world) (y : string) :
  write_proof_set repr json_dumps now outdir pj pdf_path rpath att shots s false v w
    = Done tt w' ->
  y <> "proof.json" -> y <> "checksums.txt" ->
  FS.exists_ (w_fs w) (outdir ++ [y]) = true ->
  FS.lookup (w_fs w') (outdir ++ [y]) = FS.lookup (w_fs w) (outdir ++ [y]).
Proof.
  intros H Hy1 Hy2 Hex.
  destruct (write_proof_set_steps _ _ _ _ _ _ _ _ _ _ H)
    as (fs0 & fs1 & fs2 & line & fs3 & w4 & w5 & H0 & E1 & E2 & _ & E3 & H3 & H4 & H5).
  assert (Hdir : FS.mkdir_p now (w_fs w) outdir = Ret (w_fs w)).
  { unfold FS.exists_ in Hex.
    destruct (FS.lookup (w_fs w) (outdir ++ [y])) as [n|] eqn:E; [|discriminate].
    destruct (lookup_parent _ _ _ _ E) as (m & es & Hd & _).
    now apply (mkdir_p_existing now _ _ _ _ Hd). }
  rewrite Hdir in H0. injection H0 as <-.
  pose proof (write_file_frame _ _ y _ _ _ E1 (not_eq_sym Hy1)) as L1.
  pose proof (write_file_frame _ _ y _ _ _ E2 (not_eq_sym Hy2)) as L2.
  pose proof (write_file_frame _ _ y _ _ _ E3 (not_eq_sym Hy2)) as L3.
  assert (L4 : FS.lookup (w_fs w4) (outdir ++ [y]) = FS.lookup (w_fs w) (outdir ++ [y])).
  { rewrite (copy_or_link_frame _ _ _ y _ _ _ _ H3); cbn [w_fs].
    - now rewrite L3, L2, L1.
    - rewrite <- Hex. apply exists_lookup. now rewrite L3, L2, L1. }
  assert (L5 : FS.lookup (w_fs w5) (outdir ++ [y]) = FS.lookup (w_fs w) (outdir ++ [y])).
  { destruct att as [a|].
    - rewrite (copy_or_link_frame _ _ _ y _ _ _ _ H4); [exact L4|].
      rewrite <- Hex. now apply exists_lookup.
    - unfold mret in H4. now injection H4 as <-. }
  destruct shots as [|sh shots].
  - unfold mret in H5. now injection H5 as <-.
  - rewrite (copy_or_link_frame _ _ _ y _ _ _ _ H5); [exact L5|].
    rewrite <- Hex. now apply exists_lookup.
Qed.

End Annexes.

Lemma resolves_exists (fs : node) (p : path) :
  resolves fs p = true -> FS.exists_ fs p = true.
Proof.
  unfold resolves, FS.exists_. now destruct (FS.lookup fs p).
Qed.

(** A tree without links has none at any path. *)
Lemma no_link_lookup (p : path) :
  forall fs n, no_link fs = true -> FS.lookup fs p = Some n -> no_link n = true.
Proof.
  induction p as [|x p IH]; intros fs n H L.
  - simpl in L. now injection L as <-.
  - destruct fs as [| m es |]; try discriminate. cbn [FS.lookup] in L.
    destruct (assoc x es) as [c|] eqn:E; [|discriminate].
    apply (IH c n); [|exact L]. clear L IH. cbn [no_link] in H.
    induction es as [|[k c'] es IHes]; [discriminate|].
    apply andb_true_iff in H as [Hc Hes]. cbn [assoc] in E.
    destruct (String.eqb k x); [now injection E as <-|now apply IHes].
Qed.

Lemma no_link_is_link (fs : node) (p : path) :
  no_link fs = true -> is_link fs p = false.
Proof.
  intro H. unfold is_link. destruct (FS.lookup fs p) as [[| |t]|] eqn:L; try reflexivity.
  now pose proof (no_link_lookup p fs _ H L).
Qed.

Lemma no_link_settled (fs : node) (outdir : path) :
  no_link fs = true -> settled fs outdir.
Proof.
  intro H. split; [|split]; try now apply no_link_is_link.
  intros x Hx. now rewrite (no_link_is_link fs _ H) in Hx.
Qed.

(** C10.  Outside a simulation, a transfer whose destination is there (a
    file, a directory, or a link that resolves) does nothing at all, in
    copy mode and in link mode alike; and through the whole of
    [write_proof_set], in an output directory whose links resolve and
    whose [proof.json] and [checksums.txt] are not links, every entry
    that exists before the call, other than these two, is after the call
    what it was before: the receipt, the attestation and the screenshot
    already there are never replaced, whatever the source holds. *)
Theorem C10_annexes_are_create_only (repr : json -> string)
    (json_dumps : bool -> json -> string) (now : Z) (w : world) :
  (forall src dst s v,
      resolves (w_fs w) dst = true ->
      copy_or_link now src dst s false v w = Done tt w)
  /\ (forall outdir pj pdf_path rpath att shots s v w' y,
        settled (w_fs w) outdir ->
        write_proof_set repr json_dumps now outdir pj pdf_path rpath att shots s false v w
          = Done tt w' ->
        y <> "proof.json" -> y <> "checksums.txt" ->
        FS.exists_ (w_fs w) (outdir ++ [y]) = true ->
        FS.lookup (w_fs w') (outdir ++ [y]) = FS.lookup (w_fs w) (outdir ++ [y])).
Proof.
  split.
  - intros. now apply copy_or_link_existing, resolves_exists.
  - intros. now apply (write_proof_set_frame repr json_dumps now outdir pj pdf_path
                         rpath att shots s v w w' y).
Qed.

(** The theorem at [tree_linked_annex] and at [tree_old_annex].  In the
    first the receipt annex is a link to the receipt: a transfer to it,
    here of another file, does nothing.  In the second the output
    directory holds an older receipt annex: the call for the record of
    [B.pdf] ends and the annex is the older one still. *)
Lemma C10_annexes_witness :
  (resolves Sample.tree_linked_annex
     ["proofs"; "by-doc"; "report_v2"; "woleet_receipt.json"] = true
   /\ copy_or_link Sample.now ["stamped"; "Report_v2"; "A.pdf"]
        ["proofs"; "by-doc"; "report_v2"; "woleet_receipt.json"] false false true
        {| w_fs := Sample.tree_linked_annex; w_out := [] |}
      = Done tt {| w_fs := Sample.tree_linked_annex; w_out := [] |})
  /\ settled Sample.tree_old_annex ["proofs"; "by-doc"; "report_v2"]
  /\ FS.exists_ Sample.tree_old_annex
       (["proofs"; "by-doc"; "report_v2"] ++ ["woleet_receipt.json"]) = true
  /\ exists w',
       write_proof_set Sample.repr Sample.json_dumps Sample.now
         ["proofs"; "by-doc"; "report_v2"] Sample.record_B
         ["stamped"; "Report_v2"; "B.pdf"] ["stamped"; "Report_v2"; "B.json"]
         None [] false false true
         {| w_fs := Sample.tree_old_annex; w_out := [] |} = Done tt w'
       /\ FS.lookup (w_fs w') (["proofs"; "by-doc"; "report_v2"] ++ ["woleet_receipt.json"])
          = Some (File 5 "an older receipt")
       /\ FS.read_bytes (w_fs w') ["proofs"; "by-doc"; "report_v2"; "checksums.txt"]
          = Ret ("SHA256  " ++ Sample.hash_B ++ "  stamped/Report_v2/B.pdf" ++ newline)%string.
Proof.
  assert (S : settled Sample.tree_old_annex ["proofs"; "by-doc"; "report_v2"])
    by (apply no_link_settled; reflexivity).
  split.
  { split; [reflexivity|].
    apply (proj1 (C10_annexes_are_create_only Sample.repr Sample.json_dumps Sample.now
                    {| w_fs := Sample.tree_linked_annex; w_out := [] |})).
    reflexivity. }
  split; [exact S|]. split; [reflexivity|].
  destruct (write_proof_set Sample.repr Sample.json_dumps Sample.now
         ["proofs"; "by-doc"; "report_v2"] Sample.record_B
         ["stamped"; "Report_v2"; "B.pdf"] ["stamped"; "Report_v2"; "B.json"]
         None [] false false true
         {| w_fs := Sample.tree_old_annex; w_out := [] |}) as [[] w'|e w'] eqn:E.
  - exists w'. split; [reflexivity|]. split.
    + rewrite (proj2 (C10_annexes_are_create_only Sample.repr Sample.json_dumps Sample.now
                      {| w_fs := Sample.tree_old_annex; w_out := [] |})
               _ _ _ _ _ _ _ _ _ "woleet_receipt.json" S E);
        [reflexivity|discriminate|discriminate|reflexivity].
    + vm_compute in E. injection E as <-. vm_compute. reflexivity.
  - exfalso. vm_compute in E. discriminate E.
Defined.

(* ================================================================== *)
(** ** A run and its simulation (C9) *)

Lemma quiet_app (l1 l2 : list event) : quiet (l1 ++ l2) = quiet l1 ++ quiet l2.
Proof. apply filter_app. Qed.

Lemma same_input_refl (fs : node) : same_input fs fs.
Proof. reflexivity. Qed.

Lemma same_input_trans (a b c : node) :
  same_input a b -> same_input b c -> same_input a c.
Proof. unfold same_input. congruence. Qed.

Lemma lookup_input (fs1 fs2 : node) (p : path) :
  same_input fs1 fs2 -> FS.lookup fs1 (STAMPED ++ p) = FS.lookup fs2 (STAMPED ++ p).
Proof. intro H. rewrite !lookup_app. unfold same_input in H. now rewrite H. Qed.


Lemma related_dry (wn wd : world) (e : event) :
  is_dry_event e = true -> related wn wd ->
  related wn {| w_fs := w_fs wd; w_out := w_out wd ++ [e] |}.
Proof.
  intros He [Hf Ho]. split; [exact Hf|]. cbn [w_out].
  rewrite quiet_app, Ho. unfold quiet at 3. simpl. rewrite He. simpl.
  now rewrite app_nil_r.
Qed.


(** *** The steps of a simulation *)

Lemma sim_mret {A : Type} (a : A) : simulates (mret a) (mret a).
Proof. intros wn wd R. right. now split. Qed.







Lemma sim_mret_emit (e : event) :
  is_dry_event e = true -> simulates (mret tt) (emit e).
Proof. intros He wn wd R. right. split; [reflexivity|]. now apply related_dry. Qed.

Lemma sim_mret_log (e : event) (v : bool) :
  is_dry_event e = true -> simulates (mret tt) (log e v).
Proof. intro He. destruct v; [now apply sim_mret_emit|apply sim_mret]. Qed.



(** *** Computations that leave the tree as it is *)

Lemma frozen_mret {A : Type} (a : A) : frozen (mret a).
Proof. now intro w. Qed.

Lemma frozen_emit (e : event) : frozen (emit e).
Proof. now intro w. Qed.

Lemma frozen_log (e : event) (v : bool) : frozen (log e v).
Proof. destruct v; [apply frozen_emit|apply frozen_mret]. Qed.

Lemma frozen_reading {A : Type} (f : node -> res A) : frozen (reading f).
Proof. intro w. unfold reading. now destruct (f (w_fs w)). Qed.

Lemma frozen_bind {A B : Type} (m : M A) (k : A -> M B) :
  frozen m -> (forall a, frozen (k a)) -> frozen (mbind m k).
Proof.
  intros Hm Hk w. unfold mbind. specialize (Hm w).
  destruct (m w) as [a w1|e w1]; simpl in *; [|exact Hm].
  now rewrite (Hk a w1).
Qed.


(** *** What the importer reads and writes *)





Lemma reads_read_bytes (p : path) : reads_input (fun fs => FS.read_bytes fs (STAMPED ++ p)).
Proof. intros fs1 fs2 H. unfold FS.read_bytes. now rewrite (lookup_input _ _ p H). Qed.



Lemma reads_sha256_file (p : path) : reads_input (fun fs => sha256_file fs (STAMPED ++ p)).
Proof. intros fs1 fs2 H. unfold sha256_file. now rewrite (reads_read_bytes p _ _ H). Qed.




Section Outputs.

Variable now : Z.

Lemma lookup_single (m : Z) (es : list (string * node)) (z : string) :
  FS.lookup (Dir m es) [z] = assoc z es.
Proof. simpl. now destruct (assoc z es). Qed.

Lemma put_leaf_raise (b : bool) (leaf : node) (p : path) (fs : node) (e : exn) :
  FS.put_leaf now b leaf fs p = Raise e ->
  e = WriteFailed \/ (b = false /\ e = FileExists).
Proof.
  revert fs. induction p as [|x p IH]; intros fs H.
  - destruct fs; simpl in H; injection H as <-; now left.
  - destruct p as [|y p].
    + destruct fs as [| m es |]; simpl in H; try (injection H as <-; now left).
      destruct (assoc x es) as [[| |]|]; try discriminate;
        destruct b; try discriminate; injection H as <-; auto.
    + rewrite put_leaf_cons in H.
      destruct fs as [| m es |]; try (injection H as <-; now left).
      destruct (assoc x es) as [c|]; [|injection H as <-; now left].
      destruct (FS.put_leaf now b leaf c (y :: p)) eqn:E; [discriminate|].
      injection H as <-. now apply (IH c).
Qed.

Lemma put_leaf_other_head (b : bool) (leaf : node) (x z : string) (p : path)
    (fs fs' : node) :
  FS.put_leaf now b leaf fs (x :: p) = Ret fs' -> (x =? z) = false ->
  FS.lookup fs' [z] = FS.lookup fs [z].
Proof.
  intros H Hz. destruct p as [|y p].
  - destruct fs as [| m es |]; simpl in H; try discriminate.
    assert (E : exists m', fs' = Dir m' (FS.set_entry x leaf es)).
    { destruct (assoc x es) as [[| |]|]; try discriminate;
        try (destruct b; discriminate).
      - destruct b; [|discriminate]. injection H as <-. eauto.
      - injection H as <-. eauto. }
    destruct E as [m' ->]. rewrite !lookup_single. unfold FS.set_entry.
    now rewrite assoc_dict_set, Hz.
  - rewrite put_leaf_cons in H. destruct fs as [| m es |]; try discriminate.
    destruct (assoc x es) as [c|]; [|discriminate].
    destruct (FS.put_leaf now b leaf c (y :: p)); [|discriminate].
    injection H as <-. rewrite !lookup_single. unfold FS.set_entry.
    now rewrite assoc_dict_set, Hz.
Qed.

Lemma mkdir_p_raise (p : path) (fs : node) (e : exn) :
  FS.mkdir_p now fs p = Raise e -> e = WriteFailed.
Proof.
  revert fs. induction p as [|x p IH]; intros fs H.
  - destruct fs; simpl in H; try discriminate; now injection H as <-.
  - destruct fs as [| m es |]; cbn [FS.mkdir_p] in H; try (now injection H as <-).
    destruct (FS.mkdir_p now _ p) eqn:E; [discriminate|].
    injection H as <-. now apply IH in E.
Qed.

Lemma mkdir_p_other_head (x z : string) (p : path) (fs fs' : node) :
  FS.mkdir_p now fs (x :: p) = Ret fs' -> (x =? z) = false ->
  FS.lookup fs' [z] = FS.lookup fs [z].
Proof.
  intros H Hz. destruct fs as [| m es |]; cbn [FS.mkdir_p] in H; try discriminate.
  destruct (FS.mkdir_p now _ p); [|discriminate].
  injection H as <-. rewrite !lookup_single. unfold FS.set_entry.
  now rewrite assoc_dict_set, Hz.
Qed.

(** The calls that produce an output, on a path below [proofs/]. *)
Lemma writes_mkdir_p (p : path) :
  writes_output (fun fs => FS.mkdir_p now fs (PROOFS ++ p)).
Proof.
  split.
  - intros fs fs' H. unfold same_input. symmetry.
    now apply (mkdir_p_other_head "proofs" "stamped" p).
  - intros fs e H. now apply mkdir_p_raise in H.
Qed.

Lemma writes_write_file (p : path) (data : string) :
  writes_output (fun fs => FS.write_file now fs (PROOFS ++ p) data).
Proof.
  split.
  - intros fs fs' H. unfold same_input. symmetry.
    now apply (put_leaf_other_head true (File now data) "proofs" "stamped" p).
  - intros fs e H. apply put_leaf_raise in H as [H|[H _]]; [exact H|discriminate].
Qed.

Lemma writes_copy2 (src p : path) :
  writes_output (fun fs => FS.copy2 now fs src (PROOFS ++ p)).
Proof.
  split.
  - intros fs fs' H. unfold FS.copy2 in H.
    destruct (FS.lookup fs src) as [[m d| |]|]; try discriminate.
    unfold same_input. symmetry.
    now apply (put_leaf_other_head true (File m d) "proofs" "stamped" p).
  - intros fs e H. unfold FS.copy2 in H.
    destruct (FS.lookup fs src) as [[m d| |]|]; try (now injection H as <-).
    apply put_leaf_raise in H as [H|[H _]]; [exact H|discriminate].
Qed.

End Outputs.

(** *** The importer, step by step *)

Section Simulation.

Variable repr : json -> string.
Variable fromisoformat : string -> option datetime.
Variable json_loads : string -> option json.
Variable json_dumps : bool -> json -> string.
Variable csv_text : list string -> list row -> string.
Variable guess_type : string -> option string.
Variable now : Z.






(** The line of [checksums.txt] of a record the importer has built. *)
Lemma checksum_line_made (d base_slug slug_version rel mimetype : string) (size : Z)
    (sha : string) (info : receipt_info) (jname : string) (pdf_path : path) :
  checksum_line repr
    (make_proof_json d base_slug slug_version rel mimetype size sha info jname) pdf_path
  = Ret ("SHA256  " ++ sha ++ "  " ++ rel_str pdf_path ++ newline)%string.
Proof. reflexivity. Qed.






Lemma frozen_assemble_record (d : string) (files : folder_files) (jname : string)
    (info : receipt_info) (pdf_match : string) :
  frozen (assemble_record guess_type d files jname info pdf_match).
Proof.
  unfold assemble_record.
  apply frozen_bind; [apply frozen_reading|intro size].
  apply frozen_bind; [apply frozen_reading|intro sha].
  apply frozen_bind; [|intros _; apply frozen_mret].
  match goal with |- frozen (if ?c then _ else _) => destruct c end;
    [apply frozen_emit|apply frozen_mret].
Qed.





Lemma frozen_match_pdf (d : string) (pdf_by_base : list (string * list string))
    (pdf_index : list (string * string)) (jname : string) (target : option string) :
  frozen (match_pdf d pdf_by_base pdf_index jname target).
Proof.
  unfold match_pdf.
  destruct (match assoc _ pdf_by_base with Some cs => cs | None => [] end)
    as [|c [|c2 more]].
  - destruct (if well_formed target then _ else None).
    + apply frozen_mret.
    + apply frozen_bind; [apply frozen_emit|intros _; apply frozen_mret].
  - apply frozen_mret.
  - apply frozen_bind.
    + destruct (well_formed target); [apply frozen_reading|apply frozen_mret].
    + intros [p|]; [apply frozen_mret|apply frozen_reading].
Qed.


Lemma frozen_build_pdf_index (d : string) (pdfs : list string)
    (idx : list (string * string)) :
  frozen (build_pdf_index d pdfs idx).
Proof.
  revert idx. induction pdfs as [|pdf rest IH]; intro idx; [apply frozen_mret|].
  intro w. rewrite build_pdf_index_cons.
  destruct (sha256_file (w_fs w) _) as [h|e].
  - apply IH.
  - apply (frozen_bind (emit (WarnHashFailed d pdf))
             (fun _ => build_pdf_index d rest idx));
      [apply frozen_emit|intros _; apply IH].
Qed.


Lemma frozen_collect_folder (d : string) (v : bool) : frozen (collect_folder d v).
Proof.
  unfold collect_folder.
  apply frozen_bind; [apply frozen_log|intros _].
  apply frozen_bind; [apply frozen_reading|intro names]. apply frozen_mret.
Qed.









End Simulation.



(** The run and the simulation on [tree_two_docs]: one record each, the
    same row; the run has written below [proofs/], the simulation
    nothing. *)
Example run_and_simulation_two_docs :
  exists rn wn rd wd,
    Sample.run Sample.normal_run Sample.tree_two_docs = Done rn wn
    /\ Sample.run Sample.simulation Sample.tree_two_docs = Done rd wd
    /\ rows rn = rows rd /\ List.length (rows rn) = 1%nat
    /\ w_fs wd = Sample.tree_two_docs
    /\ FS.exists_ (w_fs wn) ["proofs"; "by-doc"; "report_v2"; "proof.json"] = true
    /\ quiet (w_out wd) = w_out wn.
Proof.
  eexists _, _, _, _. split; [vm_compute; reflexivity|].
  split; [vm_compute; reflexivity|]. repeat split.
Qed.

(* ================================================================== *)
(** ** Further properties of the code *)

(** *** Slugs *)

Lemma slug_or_dash_plain (c : ascii) : slug_or_dash c = true -> plain c = true.
Proof.
  unfold slug_or_dash, plain. intro H.
  destruct (c =? "-")%char eqn:D.
  - apply Ascii.eqb_eq in D. now subst c.
  - rewrite orb_false_r in H. unfold is_slug_char in H.
    destruct (is_upper_letter c) eqn:U.
    + exfalso. unfold is_upper_letter, is_lower_letter, is_digit, ascii_in in *.
      apply andb_true_iff in U as [U1 U2]. apply Nat.leb_le in U1, U2.
      apply orb_true_iff in H as [H|H];
        apply andb_true_iff in H as [H1 H2]; apply Nat.leb_le in H1, H2; lia.
    + destruct (c =? lead_c3)%char eqn:E; [|reflexivity].
      apply Ascii.eqb_eq in E. subst c. discriminate H.
Qed.

Lemma forallb_str_impl (p q : ascii -> bool) (s : string) :
  (forall c, p c = true -> q c = true) ->
  forallb_str p s = true -> forallb_str q s = true.
Proof.
  intro Hpq. induction s as [|c s IH]; [reflexivity|]. simpl. intro H.
  apply andb_true_iff in H as [Hc Hs]. now rewrite (Hpq _ Hc), IH.
Qed.

Lemma translate_accents_plain (s : string) :
  forallb_str plain s = true -> translate_accents s = s.
Proof.
  induction s as [|c s IH]; [reflexivity|]. intro H.
  pose proof H as H0. simpl in H. apply andb_true_iff in H as [Hc Hs].
  unfold plain in Hc. apply andb_true_iff in Hc as [_ H3]. apply negb_true_iff in H3.
  destruct s as [|d s]; [reflexivity|].
  cbn [translate_accents]. rewrite H3. fold translate_accents.
  change (String c (translate_accents (String d s)) = String c (String d s)).
  now rewrite IH.
Qed.

Lemma squeeze_fixed (s : string) :
  forallb_str slug_or_dash s = true -> no_double_dash s = true ->
  squeeze false s = s /\ (starts_dash s = false -> squeeze true s = s).
Proof.
  induction s as [|c s IH]; [now split|]. simpl. intros H N.
  apply andb_true_iff in H as [Hc Hs]. apply andb_true_iff in N as [N1 N2].
  destruct (IH Hs N2) as [IH1 IH2]. apply negb_true_iff in N1.
  unfold slug_or_dash in Hc.
  destruct (is_slug_char c) eqn:S1.
  - split; [now rewrite IH1|]. intros _. now rewrite IH1.
  - simpl in Hc. rewrite Hc in N1. simpl in N1.
    apply Ascii.eqb_eq in Hc. subst c.
    split; [now rewrite (IH2 N1)|]. discriminate.
Qed.

Lemma lstrip_dash_fixed (s : string) : starts_dash s = false -> lstrip_dash s = s.
Proof. destruct s as [|c s]; [reflexivity|]. simpl. now intros ->. Qed.

Lemma rstrip_dash_fixed (s : string) : ends_dash s = false -> rstrip_dash s = s.
Proof.
  induction s as [|c s IH]; [reflexivity|]. intro H.
  destruct s as [|d s].
  - simpl in *. now rewrite H.
  - change (ends_dash (String d s) = false) in H.
    cbn [rstrip_dash]. fold rstrip_dash.
    change (rstrip_dash (String d s)) with (rstrip_dash (String d s)).
    assert (E : rstrip_dash (String d s) = String d s) by now apply IH.
    simpl. simpl in E. rewrite E. now rewrite andb_false_r.
Qed.

Lemma starts_dash_lstrip (s : string) : starts_dash (lstrip_dash s) = false.
Proof.
  induction s as [|c s IH]; [reflexivity|]. simpl.
  destruct (c =? "-")%char eqn:E; [exact IH|]. simpl. exact E.
Qed.

Lemma no_double_dash_lstrip (s : string) :
  no_double_dash s = true -> no_double_dash (lstrip_dash s) = true.
Proof.
  induction s as [|c s IH]; [reflexivity|]. intro H. simpl.
  destruct (c =? "-")%char; [|exact H].
  apply IH. simpl in H. now apply andb_true_iff in H as [_ H].
Qed.

Lemma rstrip_dash_cons (c : ascii) (s : string) :
  rstrip_dash (String c s) =
  if (c =? "-")%char && (rstrip_dash s =? "") then EmptyString
  else String c (rstrip_dash s).
Proof. reflexivity. Qed.

Lemma ends_dash_rstrip (s : string) : ends_dash (rstrip_dash s) = false.
Proof.
  induction s as [|c s IH]; [reflexivity|]. rewrite rstrip_dash_cons.
  destruct (rstrip_dash s) as [|d r] eqn:E.
  - rewrite String.eqb_refl, andb_true_r.
    destruct (c =? "-")%char eqn:D; [reflexivity|]. simpl. exact D.
  - rewrite andb_false_r. exact IH.
Qed.

Lemma starts_dash_rstrip (s : string) :
  starts_dash s = false -> starts_dash (rstrip_dash s) = false.
Proof.
  destruct s as [|c s]; [reflexivity|]. rewrite rstrip_dash_cons. simpl.
  intro H. rewrite H. simpl. exact H.
Qed.

Lemma starts_dash_rstrip_le (s : string) :
  starts_dash (rstrip_dash s) = true -> starts_dash s = true.
Proof.
  destruct s as [|c s]; [discriminate|]. rewrite rstrip_dash_cons. simpl.
  destruct ((c =? "-")%char && (rstrip_dash s =? "")) eqn:E.
  - discriminate.
  - now simpl.
Qed.

Lemma no_double_dash_rstrip (s : string) :
  no_double_dash s = true -> no_double_dash (rstrip_dash s) = true.
Proof.
  induction s as [|c s IH]; [reflexivity|]. rewrite rstrip_dash_cons.
  intro H. simpl in H. apply andb_true_iff in H as [H1 H2].
  destruct ((c =? "-")%char && (rstrip_dash s =? "")); [reflexivity|].
  simpl. rewrite (IH H2), andb_true_r.
  apply negb_true_iff in H1. apply negb_true_iff.
  destruct (c =? "-")%char; [|reflexivity]. simpl in *.
  destruct (starts_dash (rstrip_dash s)) eqn:E; [|reflexivity].
  apply starts_dash_rstrip_le in E. congruence.
Qed.

Lemma no_double_dash_squeeze (s : string) :
  no_double_dash (squeeze false s) = true
  /\ no_double_dash (squeeze true s) = true
  /\ starts_dash (squeeze true s) = false.
Proof.
  induction s as [|c s (IH1 & IH2 & IH3)]; [now repeat split|]. simpl.
  destruct (is_slug_char c) eqn:S1.
  - assert (D : (c =? "-")%char = false).
    { destruct (c =? "-")%char eqn:E; [|reflexivity].
      apply Ascii.eqb_eq in E. subst c. discriminate S1. }
    simpl. rewrite D, IH1. now repeat split.
  - repeat split; try assumption. simpl. now rewrite IH3, IH2.
Qed.

(** What is left of any text once its runs outside the letters and
    digits are squeezed and the dashes at its ends are stripped. *)
Lemma strip_squeeze_shape (t : string) :
  well_slugged (strip_dash (squeeze false t)) = true.
Proof.
  unfold well_slugged, strip_dash.
  destruct (no_double_dash_squeeze t) as (N & _ & _).
  assert (C : forallb_str slug_or_dash
                (rstrip_dash (lstrip_dash (squeeze false t))) = true)
    by apply rstrip_dash_chars, lstrip_dash_chars, squeeze_chars.
  rewrite C, (starts_dash_rstrip _ (starts_dash_lstrip _)), ends_dash_rstrip.
  now rewrite (no_double_dash_rstrip _ (no_double_dash_lstrip _ N)).
Qed.

(** X1.  A slug is made of lower-case letters, digits and dashes; it
    neither starts nor ends with a dash and has no two dashes in a row. *)
Theorem X1_slugify_shape (s : string) : well_slugged (slugify s) = true.
Proof.
  unfold well_slugged, slugify, strip_dash.
  set (q := squeeze false (translate_accents (lower s))).
  destruct (no_double_dash_squeeze (translate_accents (lower s))) as (N & _ & _).
  fold q in N.
  assert (C : forallb_str slug_or_dash (rstrip_dash (lstrip_dash q)) = true)
    by apply rstrip_dash_chars, lstrip_dash_chars, squeeze_chars.
  rewrite C, (starts_dash_rstrip _ (starts_dash_lstrip q)), ends_dash_rstrip.
  now rewrite (no_double_dash_rstrip _ (no_double_dash_lstrip _ N)).
Qed.

(** X2.  [slugify] leaves a text of that shape as it is; hence it is
    idempotent. *)
Theorem X2_slugify_idempotent (s : string) :
  (well_slugged s = true -> slugify s = s)
  /\ slugify (slugify s) = slugify s.
Proof.
  assert (F : forall t, well_slugged t = true -> slugify t = t).
  { intros t H. unfold well_slugged in H.
    apply andb_true_iff in H as [H N]. apply andb_true_iff in H as [H E].
    apply andb_true_iff in H as [C S]. apply negb_true_iff in S, E.
    pose proof (forallb_str_impl _ _ _ slug_or_dash_plain C) as P.
    unfold slugify, strip_dash.
    rewrite (lower_plain _ P), (translate_accents_plain _ P).
    rewrite (proj1 (squeeze_fixed _ C N)), (lstrip_dash_fixed _ S).
    now apply rstrip_dash_fixed. }
  split; [apply F|]. apply F. unfold slugify. apply strip_squeeze_shape.
Qed.

(** The first implication of [X2_slugify_idempotent] at a slug. *)
Lemma X2_slugify_idempotent_witness :
  well_slugged "report-final-2" = true /\ slugify "report-final-2" = "report-final-2".
Proof.
  split; [reflexivity|].
  apply (proj1 (X2_slugify_idempotent "report-final-2")). reflexivity.
Defined.
(** *** The bytes of a version *)

Lemma uchars_forms (s : string) : Forall uform (uchars s).
Proof.
  assert (H : forall n s, (String.length s <= n)%nat -> Forall uform (uchars s)).
  { clear s. induction n as [|n IH]; intros s Hn.
    - destruct s; [constructor|simpl in Hn; lia].
    - destruct s as [|a s1]; [constructor|]. simpl in Hn.
      assert (L : Forall uform (one_byte a :: uchars s1)).
      { constructor; [left; eauto|apply IH; lia]. }
      cbn [uchars]. fold (uchars s1).
      destruct s1 as [|b s2]; [exact L|].
      destruct (two_ok a b) eqn:E2.
      { constructor; [right; left; eauto|apply IH; simpl in Hn; lia]. }
      destruct s2 as [|c s3]; [exact L|].
      destruct (three_ok a b c) eqn:E3.
      { constructor; [right; right; left; eauto 6|apply IH; simpl in Hn; lia]. }
      destruct s3 as [|d s4]; [exact L|].
      destruct (four_ok a b c d) eqn:E4; [|exact L].
      constructor; [right; right; right; eauto 8|apply IH; simpl in Hn; lia]. }
  apply (H (String.length s)). lia.
Qed.

Lemma high_byte (a : ascii) :
  (128 <= nat_of_ascii a)%nat -> nat_of_ascii a <> 195%nat -> number_byte a = true.
Proof.
  intros H1 H2. unfold number_byte, is_ascii_char, not_c3.
  destruct (Nat.ltb_spec (nat_of_ascii a) 128); [lia|].
  destruct (a =? lead_c3)%char eqn:E.
  - apply Ascii.eqb_eq in E. subst a. now elim H2.
  - now rewrite orb_true_r.
Qed.

Lemma ascii_in_range (lo hi : nat) (a : ascii) :
  ascii_in lo hi a = true -> (lo <= nat_of_ascii a <= hi)%nat.
Proof.
  unfold ascii_in. intro H. apply andb_true_iff in H as [H1 H2].
  apply Nat.leb_le in H1, H2. lia.
Qed.

Lemma cont_byte (b : ascii) : is_cont b = true -> number_byte b = true.
Proof. intro H. apply ascii_in_range in H. apply high_byte; lia. Qed.

Lemma is_byte_eq (n : nat) (a : ascii) : is_byte n a = true -> nat_of_ascii a = n.
Proof. apply Nat.eqb_eq. Qed.

Lemma three_ok_bytes (a b c : ascii) :
  three_ok a b c = true ->
  (224 <= nat_of_ascii a <= 239)%nat /\ (128 <= nat_of_ascii b <= 191)%nat
  /\ (128 <= nat_of_ascii c <= 191)%nat
  /\ (nat_of_ascii a = 224%nat -> (160 <= nat_of_ascii b)%nat).
Proof.
  unfold three_ok, is_cont. intro H. apply andb_true_iff in H as [H Hc].
  apply ascii_in_range in Hc.
  apply orb_true_iff in H as [H|H]; [apply orb_true_iff in H as [H|H]|];
    apply andb_true_iff in H as [Ha Hb].
  - apply is_byte_eq in Ha. apply ascii_in_range in Hb. lia.
  - apply ascii_in_range in Hb.
    apply orb_true_iff in Ha as [Ha|Ha]; apply ascii_in_range in Ha; lia.
  - apply is_byte_eq in Ha. apply ascii_in_range in Hb. lia.
Qed.

Lemma four_ok_bytes (a b c d : ascii) :
  four_ok a b c d = true ->
  (240 <= nat_of_ascii a <= 244)%nat /\ (128 <= nat_of_ascii b <= 191)%nat
  /\ (128 <= nat_of_ascii c <= 191)%nat /\ (128 <= nat_of_ascii d <= 191)%nat
  /\ (nat_of_ascii a = 240%nat -> (144 <= nat_of_ascii b)%nat).
Proof.
  unfold four_ok, is_cont. intro H. apply andb_true_iff in H as [H Hd].
  apply andb_true_iff in H as [H Hc].
  apply ascii_in_range in Hc, Hd.
  apply orb_true_iff in H as [H|H]; [apply orb_true_iff in H as [H|H]|];
    apply andb_true_iff in H as [Ha Hb].
  - apply is_byte_eq in Ha. apply ascii_in_range in Hb. lia.
  - apply ascii_in_range in Ha, Hb. lia.
  - apply is_byte_eq in Ha. apply ascii_in_range in Hb. lia.
Qed.

(** A character of more than one byte stands above U+007F. *)
Lemma long_form_code (c : uchar) :
  (exists a b, two_ok a b = true /\ c = two_bytes a b)
  \/ (exists a b x, three_ok a b x = true /\ c = three_bytes a b x)
  \/ (exists a b x y, four_ok a b x y = true /\ c = four_bytes a b x y) ->
  (128 <= code c)%N /\ forallb_str (fun b => negb (is_ascii_char b)) (bytes c) = true.
Proof.
  assert (Hi : forall b, (128 <= nat_of_ascii b)%nat -> negb (is_ascii_char b) = true).
  { intros b Hb. unfold is_ascii_char.
    destruct (Nat.ltb_spec (nat_of_ascii b) 128); [lia|reflexivity]. }
  intros [(a & b & H & ->)|[(a & b & x & H & ->)|(a & b & x & y & H & ->)]].
  - unfold two_ok in H. apply andb_true_iff in H as [Ha Hb].
    apply ascii_in_range in Ha, Hb. split.
    + cbn [code two_bytes]. unfold low6, byte. unfold nat_of_ascii in Ha, Hb. lia.
    + cbn [bytes two_bytes forallb_str]. rewrite !Hi by lia. reflexivity.
  - destruct (three_ok_bytes _ _ _ H) as (Ha & Hb & Hx & Hab). split.
    + cbn [code three_bytes]. unfold low6, byte. unfold nat_of_ascii in Ha, Hb, Hx, Hab.
      lia.
    + cbn [bytes three_bytes forallb_str]. rewrite !Hi by lia. reflexivity.
  - destruct (four_ok_bytes _ _ _ _ H) as (Ha & Hb & Hx & Hy & Hab). split.
    + cbn [code four_bytes]. unfold low6, byte.
      unfold nat_of_ascii in Ha, Hb, Hx, Hy, Hab. lia.
    + cbn [bytes four_bytes forallb_str]. rewrite !Hi by lia. reflexivity.
Qed.

(** The digits of Unicode: the ASCII ones, and others from U+0660 on,
    none of which is a lone surrogate. *)
Lemma u_digit_range (n : N) :
  u_digit n = true ->
  (48 <= n <= 57 \/ 1632 <= n <= 44025 \/ 65296 <= n)%N.
Proof.
  unfold u_digit. intro H. apply existsb_exists in H as (z & Hz & Hc).
  apply andb_true_iff in Hc as [H1 H2]. apply N.leb_le in H1. apply N.ltb_lt in H2.
  unfold decimal_zeros in Hz.
  repeat (destruct Hz as [<-|Hz]; [lia|]). destruct Hz.
Qed.

Lemma digit_bytes (c : uchar) :
  uform c -> u_digit (code c) = true -> forallb_str number_byte (bytes c) = true.
Proof.
  intros [(a & ->)|[(a & b & H & ->)|[(a & b & x & H & ->)|(a & b & x & y & H & ->)]]] D.
  - cbn [bytes one_byte forallb_str]. rewrite andb_true_r.
    apply u_digit_range in D. cbn [code one_byte] in D.
    destruct (ascii_in 0 127 a) eqn:A.
    + unfold number_byte, is_digit, ascii_in. unfold byte in D.
      apply ascii_in_range in A.
      assert (E : (48 <= nat_of_ascii a <= 57)%nat) by (unfold nat_of_ascii in *; lia).
      destruct (Nat.leb_spec 48 (nat_of_ascii a)); [|lia].
      destruct (Nat.leb_spec (nat_of_ascii a) 57); [|lia]. reflexivity.
    + exfalso. unfold byte in D.
      pose proof (N_ascii_bounded a) as B. lia.
  - unfold two_ok in H. apply andb_true_iff in H as [Ha Hb].
    cbn [bytes two_bytes forallb_str]. rewrite (cont_byte _ Hb), andb_true_r.
    apply ascii_in_range in Ha. apply high_byte; [lia|]. intro E.
    apply u_digit_range in D. cbn [code two_bytes] in D. unfold low6, byte in D.
    apply ascii_in_range in Hb. unfold nat_of_ascii in E, Hb. lia.
  - destruct (three_ok_bytes _ _ _ H) as (Ha & Hb & Hx & _).
    cbn [bytes three_bytes forallb_str]. rewrite !high_byte by lia. reflexivity.
  - destruct (four_ok_bytes _ _ _ _ H) as (Ha & Hb & Hx & Hy & _).
    cbn [bytes four_bytes forallb_str]. rewrite !high_byte by lia. reflexivity.
Qed.

(** A character below U+0080 is held by the one byte of its code. *)
Lemma low_code_bytes (c : uchar) :
  uform c -> (code c < 128)%N -> bytes c = String (ascii_of_N (code c)) EmptyString.
Proof.
  intros [(a & ->)|L] D.
  - cbn [code one_byte] in *. destruct (ascii_in 0 127 a).
    + unfold byte. now rewrite ascii_N_embedding.
    + lia.
  - destruct (long_form_code c L) as [H _]. lia.
Qed.

Lemma dot_bytes (c : uchar) : uform c -> u_dot (code c) = true -> bytes c = ".".
Proof.
  intros F H. unfold u_dot in H. apply N.eqb_eq in H.
  rewrite (low_code_bytes c F) by lia. now rewrite H.
Qed.

Lemma v_bytes (c : uchar) :
  uform c -> u_v (code c) = true -> bytes c = "v" \/ bytes c = "V".
Proof.
  intros F H. unfold u_v in H. apply orb_true_iff in H as [H|H]; apply N.eqb_eq in H;
    rewrite (low_code_bytes c F) by lia; rewrite H; auto.
Qed.

Lemma number_bytes (n : list uchar) :
  Forall uform n -> version_number n -> forallb_str number_byte (text_of n) = true.
Proof.
  intros F H. induction H as [c Hc|c s Hc _ IH|c p s Hc Hp _ IH].
  - inversion F; subst. cbn [text_of]. rewrite forallb_str_app.
    now rewrite (digit_bytes c).
  - inversion F; subst. cbn [text_of]. rewrite forallb_str_app.
    rewrite (digit_bytes c) by assumption. now apply IH.
  - inversion F as [|? ? Fc F1]; subst. inversion F1 as [|? ? Fp F2]; subst.
    cbn [text_of]. rewrite !forallb_str_app.
    rewrite (digit_bytes c) by assumption. rewrite (dot_bytes p) by assumption.
    now apply IH.
Qed.

Lemma number_byte_plain (c : ascii) : number_byte c = true -> plain c = true.
Proof.
  unfold number_byte. intro H.
  apply orb_true_iff in H as [H|H].
  - destruct (c =? ".")%char eqn:D.
    + apply Ascii.eqb_eq in D. now subst c.
    + rewrite orb_false_r in H. apply slug_or_dash_plain.
      unfold slug_or_dash, is_slug_char. now rewrite H, orb_true_r.
  - apply andb_true_iff in H as [H1 H2]. unfold plain.
    unfold not_c3 in H2. rewrite H2, andb_true_r.
    apply negb_true_iff in H1. unfold is_ascii_char in H1.
    apply Nat.ltb_ge in H1. unfold is_upper_letter, ascii_in.
    destruct (Nat.leb_spec (nat_of_ascii c) 90); [lia|]. now rewrite andb_false_r.
Qed.

Lemma replace_dots_chars (n : string) :
  forallb_str number_byte n = true ->
  forallb_str version_char (replace_char "." "-" n) = true.
Proof.
  induction n as [|c n IH]; [reflexivity|]. simpl. intro H.
  apply andb_true_iff in H as [Hc Hn].
  destruct (c =? ".")%char eqn:D; simpl.
  - now apply IH.
  - rewrite (IH Hn), andb_true_r. unfold number_byte in Hc. rewrite D in Hc.
    rewrite orb_false_r in Hc. unfold version_char, slug_or_dash, is_slug_char.
    apply orb_true_iff in Hc as [Hc|Hc].
    + now rewrite Hc, orb_true_r.
    + apply andb_true_iff in Hc as [Hc _]. rewrite Hc. now rewrite orb_true_r.
Qed.

Lemma replace_char_ascii (n : string) :
  forallb_str is_ascii_char n = true ->
  forallb_str is_ascii_char (replace_char "." "-" n) = true.
Proof.
  induction n as [|c n IH]; [reflexivity|]. simpl. intro H.
  apply andb_true_iff in H as [Hc Hn].
  destruct (c =? ".")%char; simpl; [now apply IH|]. now rewrite Hc, IH.
Qed.

Lemma ascii_version_chars (v : string) :
  forallb_str version_char v = true -> forallb_str is_ascii_char v = true ->
  forallb_str slug_or_dash v = true.
Proof.
  induction v as [|c v IH]; [reflexivity|]. simpl. intros H A.
  apply andb_true_iff in H as [Hc Hv]. apply andb_true_iff in A as [Ac Av].
  rewrite (IH Hv Av), andb_true_r. unfold version_char in Hc.
  rewrite Ac in Hc. now rewrite orb_false_r in Hc.
Qed.

(** The form of a version token of a text: the letter v, then digits and
    dashes; the bytes of the token are bytes of the text. *)
Lemma version_form_chars (name : string) (pre t post : list uchar) :
  uchars name = pre ++ t ++ post -> version_token t ->
  exists n, version_form (text_of t) = String "v" (replace_char "." "-" n)
            /\ forallb_str number_byte n = true
            /\ (forallb_str is_ascii_char name = true ->
                forallb_str is_ascii_char n = true).
Proof.
  intros Hs (c & n & -> & Hc & Hn).
  pose proof (uchars_forms name) as F. rewrite Hs in F.
  apply Forall_app in F as [_ F]. apply Forall_app in F as [F _].
  inversion F as [|? ? Fc Fn]; subst.
  pose proof (number_bytes n Fn Hn) as Hd.
  pose proof (forallb_str_impl _ _ _ number_byte_plain Hd) as Hp.
  exists (text_of n). split; [|split; [exact Hd|]].
  - unfold version_form. cbn [text_of].
    destruct (v_bytes c Fc Hc) as [-> | ->].
    + cbn [append]. rewrite lower_cons. simpl is_upper_letter. cbv iota.
      rewrite (lower_plain _ Hp). now destruct (text_of n).
    + cbn [append]. rewrite lower_cons. simpl is_upper_letter. cbv iota.
      now rewrite (lower_plain _ Hp).
  - intro A. rewrite <- (text_of_uchars name), Hs in A.
    rewrite !text_of_app, !forallb_str_app in A.
    apply andb_true_iff in A as [_ A]. apply andb_true_iff in A as [A _].
    cbn [text_of] in A. rewrite forallb_str_app in A.
    now apply andb_true_iff in A as [_ A].
Qed.

Lemma parse_version_chars (name v : string) :
  parse_version_from_name name = Some v ->
  forallb_str version_char v = true
  /\ (forallb_str is_ascii_char name = true -> forallb_str slug_or_dash v = true).
Proof.
  unfold parse_version_from_name.
  destruct (search_version true (uchars name)) as [tok|] eqn:E; [|discriminate].
  intro H. injection H as <-.
  destruct (search_version_sound _ _ _ E) as (pre & post & Hs & Ht & _).
  destruct (version_form_chars name pre tok post Hs Ht) as (n & Hf & Hn & Ha).
  fold (version_form (text_of tok)). rewrite Hf.
  assert (V : forallb_str version_char (String "v" (replace_char "." "-" n)) = true).
  { cbn [forallb_str]. now rewrite (replace_dots_chars n Hn). }
  split; [exact V|]. intro A. apply ascii_version_chars; [exact V|].
  cbn [forallb_str]. now rewrite (replace_char_ascii n (Ha A)).
Qed.

Lemma forallb_str_no_char (p : ascii -> bool) (c : ascii) (s : string) :
  forallb_str p s = true -> p c = false ->
  contains (String c EmptyString) s = false.
Proof.
  intros H Hc. induction s as [|x s IH]; [reflexivity|].
  simpl in H. apply andb_true_iff in H as [Hx Hs].
  cbn [contains prefix]. rewrite (IH Hs), orb_false_r.
  destruct (ascii_dec c x) as [->|N]; [congruence|reflexivity].
Qed.

(** X3.  The composite slug of a record is its base slug, one underscore
    and a version made of the letter v, digits and dashes; a digit that
    is not an ASCII one stays in it as its bytes, none of which is an
    ASCII character.  The slug holds no slash and no dot, so that the
    directory of the record is a direct child of [proofs/by-doc]; its
    first underscore is the one before the version.  When the names of
    the document and of the folder are ASCII texts, the slug holds
    lower-case letters, digits, dashes and that underscore only. *)
Theorem X3_composite_slug_is_one_component (d pdf_name : string)
    (anchored : option string) :
  let sv := build_slug_version (base_slug_of d) pdf_name d anchored in
  contains "/" sv = false /\ contains "." sv = false
  /\ (exists v, sv = (base_slug_of d ++ "_" ++ v)%string
                /\ forallb_str version_char v = true
                /\ split_underscore sv = Some (base_slug_of d, v)
                /\ version_of_slug sv = v)
  /\ (forallb_str is_ascii_char pdf_name = true ->
      forallb_str is_ascii_char d = true ->
      forallb_str slug_version_char sv = true).
Proof.
  intro sv.
  assert (V : exists v, sv = (base_slug_of d ++ "_" ++ v)%string
                        /\ forallb_str version_char v = true
                        /\ (forallb_str is_ascii_char pdf_name = true ->
                            forallb_str is_ascii_char d = true ->
                            forallb_str slug_or_dash v = true)).
  { unfold sv, build_slug_version.
    destruct (parse_version_from_name pdf_name) as [v|] eqn:E1.
    - exists v. destruct (parse_version_chars _ _ E1) as [H1 H2]. auto.
    - destruct (parse_version_from_name d) as [v|] eqn:E2.
      + exists v. destruct (parse_version_chars _ _ E2) as [H1 H2]. auto.
      + exists "v1-0". auto. }
  destruct V as (v & Hsv & Hv & Ha).
  set (p := fun c => slug_version_char c || negb (is_ascii_char c)).
  assert (Hb : forallb_str slug_or_dash (base_slug_of d) = true)
    by apply slugify_chars.
  assert (C : forallb_str p sv = true).
  { rewrite Hsv, !forallb_str_app.
    rewrite (forallb_str_impl slug_or_dash p (base_slug_of d)); [|
      intros c H; unfold p, slug_version_char; now rewrite H|exact Hb].
    rewrite (forallb_str_impl version_char p v); [reflexivity| |exact Hv].
    intros c H. unfold p, slug_version_char. unfold version_char in H.
    apply orb_true_iff in H as [H|H]; rewrite H; [reflexivity|].
    now rewrite orb_true_r. }
  split; [now apply (forallb_str_no_char _ _ _ C)|].
  split; [now apply (forallb_str_no_char _ _ _ C)|].
  assert (S : split_underscore sv = Some (base_slug_of d, v)).
  { rewrite Hsv. now apply split_underscore_app. }
  split.
  - exists v. split; [exact Hsv|]. split; [exact Hv|]. split; [exact S|].
    unfold version_of_slug. now rewrite S.
  - intros A1 A2. rewrite Hsv, !forallb_str_app.
    rewrite (forallb_str_impl slug_or_dash slug_version_char (base_slug_of d));
      [|intros c H; unfold slug_version_char; now rewrite H|exact Hb].
    rewrite (forallb_str_impl slug_or_dash slug_version_char v); [reflexivity| |].
    + intros c H. unfold slug_version_char. now rewrite H.
    + now apply Ha.
Qed.

(** The theorem at the document [Guide_V2.1.pdf] of the folder
    [Report_v3]: both names are ASCII texts, the slug is [report_v2-1]. *)
Lemma X3_composite_slug_witness :
  forallb_str is_ascii_char "Guide_V2.1.pdf" = true
  /\ forallb_str is_ascii_char "Report_v3" = true
  /\ build_slug_version (base_slug_of "Report_v3") "Guide_V2.1.pdf" "Report_v3" None
     = "report_v2-1"
  /\ forallb_str slug_version_char "report_v2-1" = true.
Proof.
  split; [reflexivity|]. split; [reflexivity|]. split; [reflexivity|].
  destruct (X3_composite_slug_is_one_component "Report_v3" "Guide_V2.1.pdf" None)
    as (_ & _ & _ & H).
  exact (H eq_refl eq_refl).
Defined.

(** *** Receipts *)

Lemma lower_if_truthy_ret (v : json) :
  (exists o, lower_if_truthy v = Ret o) <-> text_or_false v.
Proof.
  unfold lower_if_truthy, text_or_false. split.
  - intros [o H]. destruct (truthy v) eqn:T; [|now left].
    right. destruct v; try discriminate. eauto.
  - intros [T|[s ->]].
    + rewrite T. eauto.
    + destruct (truthy (JStr s)); eauto.
Qed.

Lemma lower_if_truthy_raise (v : json) (e : exn) :
  lower_if_truthy v = Raise e -> e = BadValue.
Proof.
  unfold lower_if_truthy. destruct (truthy v); [|discriminate].
  destruct v; try discriminate; now intro H; injection H as <-.
Qed.

Lemma anchor_loop_ret (repr : json -> string) (l : list json) (acc : anchor_acc) :
  (exists acc', anchor_loop repr acc l = Ret acc') <-> Forall is_object l.
Proof.
  revert acc. induction l as [|a l IH]; intro acc; simpl.
  - split; [constructor|eauto].
  - split.
    + intros [acc' H]. destruct (anchor_step repr acc a) as [m|] eqn:E; [|discriminate].
      constructor.
      * destruct a; try discriminate. exact I.
      * apply (IH m). eauto.
    + intro H. inversion H as [|x y Ha Hl]; subst.
      destruct a as [| | | | | |kv]; try contradiction.
      unfold anchor_step. destruct (is_ledger_anchor repr kv); simpl; now apply IH.
Qed.

Lemma anchor_loop_raise (repr : json -> string) (l : list json) (acc : anchor_acc)
    (e : exn) :
  anchor_loop repr acc l = Raise e -> e = BadValue.
Proof.
  revert acc. induction l as [|a l IH]; intro acc; simpl; [discriminate|].
  destruct (anchor_step repr acc a) as [m|e'] eqn:E; simpl.
  - apply IH.
  - intro H. injection H as <-. destruct a; try (now injection E as <-).
    unfold anchor_step in E. destruct (is_ledger_anchor repr kv); discriminate.
Qed.

Lemma py_or_hash_text (a b : json) :
  text_or_false (py_or (py_or a (py_or b (JStr ""))) JNull)
  <-> text_or_false (py_or a b).
Proof.
  unfold py_or. destruct (truthy a) eqn:A; [now rewrite A|].
  destruct (truthy b) eqn:B; [now rewrite B|]. simpl.
  unfold text_or_false. split; intros _; left; [exact B|reflexivity].
Qed.

Lemma py_or_null_r (a : json) :
  text_or_false (py_or a JNull) <-> text_or_false a.
Proof.
  unfold py_or. destruct (truthy a) eqn:A; [reflexivity|].
  unfold text_or_false. split; intros _; left; [exact A|reflexivity].
Qed.

Lemma text_or_false_py_or (a b c : json) :
  text_or_false (py_or a (py_or b (py_or c JNull)))
  <-> text_or_false (py_or a (py_or b c)).
Proof.
  destruct (truthy a) eqn:A.
  - unfold py_or at 1. unfold py_or at 3. now rewrite A.
  - assert (E : forall y, py_or a y = y) by (intro y; unfold py_or; now rewrite A).
    rewrite !E. destruct (truthy b) eqn:B.
    + unfold py_or at 1. unfold py_or at 2. now rewrite B.
    + assert (F : forall y, py_or b y = y) by (intro y; unfold py_or; now rewrite B).
      rewrite !F. apply py_or_null_r.
Qed.

(** An exception of [parse_woleet_receipt] comes from a value of the
    wrong type. *)
Lemma parse_woleet_receipt_raise (repr : json -> string)
    (fromisoformat : string -> option datetime) (data : json) (e : exn) :
  parse_woleet_receipt repr fromisoformat data = Raise e -> e = BadValue.
Proof.
  intro H. destruct data as [| | | | | |d]; try (now injection H as <-).
  unfold parse_woleet_receipt, bind in H.
  destruct (lower_if_truthy _) as [th|e1] eqn:E1;
    [|injection H as <-; now apply lower_if_truthy_raise in E1].
  destruct (anchors_to_iterate _) as [anchors|e2] eqn:E2.
  - destruct (anchor_loop repr acc0 anchors) as [acc|e3] eqn:E3;
      [|injection H as <-; now apply anchor_loop_raise in E3].
    destruct (lower_if_truthy (py_or (acc_txid acc) _)) as [tx|e4] eqn:E4;
      [discriminate|injection H as <-; now apply lower_if_truthy_raise in E4].
  - injection H as <-. unfold anchors_to_iterate in E2.
    destruct (py_or (dget d "anchors") _); try discriminate; now injection E2 as <-.
Qed.

(** X4.  [parse_woleet_receipt] raises only on the shape of four values,
    and then an [AttributeError] or a [TypeError]: it returns a result
    exactly when the receipt is an object, its declared hash and its
    transaction id are texts or false values, and its anchors are a list
    of objects or one object.  Every other value of a receipt is taken as
    it comes. *)
Theorem X4_parse_woleet_receipt_raises (repr : json -> string)
    (fromisoformat : string -> option datetime) (data : json) :
  (forall e, parse_woleet_receipt repr fromisoformat data = Raise e -> e = BadValue)
  /\ ((exists info, parse_woleet_receipt repr fromisoformat data = Ret info)
      <-> exists d,
            data = JObj d
            /\ text_or_false (py_or (dget d "targetHash") (dget d "hash"))
            /\ exists anchors,
                 (anchors_value d = JArr anchors
                  \/ (anchors = [anchors_value d] /\ is_object (anchors_value d)))
                 /\ Forall is_object anchors
                 /\ text_or_false
                      (py_or (last_carrying repr anchor_txid JNull anchors)
                         (py_or (dget d "txid") (dget d "txId")))).
Proof.
  split.
  - intros e H. exact (parse_woleet_receipt_raise _ _ _ _ H).
  - split.
    + intros [info H]. destruct data as [| | | | | |d]; try discriminate.
      exists d. split; [reflexivity|].
      destruct (parse_woleet_receipt_inv _ _ _ _ H)
        as (anchors & acc & Ea & El & Eth & Etx & _).
      split.
      { apply py_or_hash_text, lower_if_truthy_ret. eauto. }
      exists anchors. fold (anchors_value d) in Ea. split; [|split].
      * unfold anchors_to_iterate in Ea.
        destruct (anchors_value d) eqn:Ev; try discriminate; injection Ea as <-.
        -- now left.
        -- right. now split.
      * apply (anchor_loop_ret repr anchors acc0). eauto.
      * destruct (anchor_loop_last _ _ _ _ El) as (T & _ & _). simpl in T.
        rewrite <- T. apply text_or_false_py_or, lower_if_truthy_ret. eauto.
    + intros (d & -> & Hh & anchors & Ha & Hobj & Ht).
      assert (Ea : anchors_to_iterate (anchors_value d) = Ret anchors).
      { destruct Ha as [Ha|[-> Ho]].
        - now rewrite Ha.
        - destruct (anchors_value d); try contradiction. reflexivity. }
      apply (anchor_loop_ret repr anchors acc0) in Hobj as [acc El].
      destruct (anchor_loop_last _ _ _ _ El) as (T & _ & _). simpl in T.
      rewrite <- T in Ht.
      apply py_or_hash_text, lower_if_truthy_ret in Hh as [th Eth].
      apply text_or_false_py_or, lower_if_truthy_ret in Ht as [tx Etx].
      unfold parse_woleet_receipt, bind. rewrite Eth.
      fold (anchors_value d). rewrite Ea, El, Etx. eauto.
Qed.

Lemma dget_absent (d : list (string * json)) (k : string) :
  assoc k d = None -> dget d k = JNull.
Proof. unfold dget, dget_or. now intros ->. Qed.

(** X5.  A receipt that has none of the keys the importer knows is read
    without an error, and every field of the result is null. *)
Theorem X5_receipt_without_known_keys (repr : json -> string)
    (fromisoformat : string -> option datetime) (d : list (string * json)) :
  (forall k, In k receipt_keys -> assoc k d = None) ->
  parse_woleet_receipt repr fromisoformat (JObj d)
  = Ret {| proof_id := JNull; sha256 := None; txid := None;
           block_height := JNull; anchored_utc := None; link := JNull |}.
Proof.
  intro H.
  assert (N : forall k, In k receipt_keys -> dget d k = JNull)
    by (intros k Hk; now apply dget_absent, H).
  unfold parse_woleet_receipt, resolve_anchored_utc.
  rewrite !N by (unfold receipt_keys; simpl; tauto).
  reflexivity.
Qed.

(** The theorem at a receipt that only has keys of another producer. *)
Lemma X5_receipt_without_known_keys_witness :
  (forall k, In k receipt_keys ->
             assoc k [("identifier", JStr "P1"); ("digest", JStr "00")] = None)
  /\ Sample.parse_receipt (JObj [("identifier", JStr "P1"); ("digest", JStr "00")])
     = Ret {| proof_id := JNull; sha256 := None; txid := None;
              block_height := JNull; anchored_utc := None; link := JNull |}.
Proof.
  assert (H : forall k, In k receipt_keys ->
             assoc k [("identifier", JStr "P1"); ("digest", JStr "00")] = None).
  { intros k Hk. unfold receipt_keys in Hk.
    repeat (destruct Hk as [<-|Hk]; [reflexivity|]). destruct Hk. }
  split; [exact H|].
  exact (X5_receipt_without_known_keys Sample.repr Sample.fromisoformat _ H).
Defined.

(** *** The files of a folder *)

Lemma filter_snoc {A : Type} (p : A -> bool) (l : list A) (x : A) :
  filter p (l ++ [x]) = filter p l ++ (if p x then [x] else []).
Proof. rewrite filter_app. reflexivity. Qed.

(** The loop of [collect_folder] is four filters over the names it
    iterates on. *)
Lemma classify_fold (names seen : list string) :
  let json_ext n := (lower (suffix n) =? ".json")%string in
  let pdf_ext n := (lower (suffix n) =? ".pdf")%string in
  let image_ext n :=
    ((lower (suffix n) =? ".png") || (lower (suffix n) =? ".jpg")
     || (lower (suffix n) =? ".jpeg"))%string in
  let receipt_word n :=
    contains "receipt" (lower n) || contains "attestation" (lower n) in
  let files_of l :=
    {| jsons := filter json_ext l;
       attestations :=
         filter (fun n => negb (json_ext n) && pdf_ext n && receipt_word n) l;
       pdf_canons :=
         filter (fun n => negb (json_ext n) && pdf_ext n && negb (receipt_word n)) l;
       screenshots :=
         filter (fun n => negb (json_ext n) && negb (pdf_ext n) && image_ext n
                          && (contains "woleet" (lower n) || receipt_word n)) l |} in
  fold_left classify names (files_of seen) = files_of (seen ++ names).
Proof.
  intros json_ext pdf_ext image_ext receipt_word files_of.
  revert seen. induction names as [|n names IH]; intro seen.
  - now rewrite app_nil_r.
  - cbn [fold_left].
    replace (seen ++ n :: names) with ((seen ++ [n]) ++ names)
      by now rewrite <- app_assoc.
    rewrite <- IH. f_equal.
    unfold files_of, classify. rewrite !filter_snoc. cbn [jsons pdf_canons attestations screenshots].
    unfold json_ext, pdf_ext, image_ext, receipt_word.
    destruct (lower (suffix n) =? ".json")%string eqn:J; cbn [negb andb];
      [now rewrite !app_nil_r|].
    destruct (lower (suffix n) =? ".pdf")%string eqn:P; cbn [negb andb].
    + destruct (contains "receipt" (lower n) || contains "attestation" (lower n));
        cbn [negb andb]; now rewrite !app_nil_r.
    + destruct ((lower (suffix n) =? ".png") || (lower (suffix n) =? ".jpg")
                || (lower (suffix n) =? ".jpeg"))%string; cbn [andb].
      * rewrite <- orb_assoc.
        destruct (contains "woleet" (lower n)
                  || (contains "receipt" (lower n) || contains "attestation" (lower n)));
          now rewrite !app_nil_r.
      * now rewrite !app_nil_r.
Qed.

Lemma in_insert_sorted {A : Type} (le : A -> A -> bool) (n x : A) (xs : list A) :
  In n (insert_sorted le x xs) <-> n = x \/ In n xs.
Proof.
  induction xs as [|y ys IH]; cbn [insert_sorted].
  - simpl. intuition congruence.
  - destruct (le x y); simpl; [intuition congruence|]. rewrite IH. intuition congruence.
Qed.

Lemma in_sort_by {A : Type} (le : A -> A -> bool) (n : A) (l : list A) :
  In n (sort_by le l) <-> In n l.
Proof.
  unfold sort_by. induction l as [|x l IH]; cbn [fold_right]; [reflexivity|].
  rewrite in_insert_sorted, IH. simpl. intuition congruence.
Qed.

Lemma image_ext_spec (e : string) :
  ((e =? ".png") || (e =? ".jpg") || (e =? ".jpeg"))%string = true
  <-> e = ".png" \/ e = ".jpg" \/ e = ".jpeg".
Proof. rewrite !orb_true_iff, !String.eqb_eq. tauto. Qed.

Lemma collect_folder_inv (d : string) (v : bool) (w w' : world) (files : folder_files) :
  collect_folder d v w = Done files w' ->
  exists names,
    FS.iterdir (w_fs w) (STAMPED ++ [d]) = Ret names
    /\ files = fold_left classify (sort_by String.leb names) no_files
    /\ w_fs w' = w_fs w.
Proof.
  unfold collect_folder, mbind, log, reading, mret, emit.
  destruct v; cbn [w_fs].
  - destruct (FS.iterdir (w_fs w) (STAMPED ++ [d])) as [names|]; [|discriminate].
    intro H. injection H as <- <-. eauto.
  - destruct (FS.iterdir (w_fs w) (STAMPED ++ [d])) as [names|]; [|discriminate].
    intro H. injection H as <- <-. eauto.
Qed.

(** X6.  The four lists [collect_folder] returns are the names of the
    folder in sorted order, each kept in at most one list: the receipts
    are the names with the extension [.json]; the attestations the other
    names with the extension [.pdf] that hold [receipt] or [attestation];
    the documents the remaining [.pdf] names; the screenshots the images
    whose name holds [woleet], [receipt] or [attestation].  The tree is
    left as it is. *)
Theorem X6_collect_folder_lists (d : string) (v : bool) (w w' : world)
    (files : folder_files) :
  collect_folder d v w = Done files w' ->
  exists names,
    FS.iterdir (w_fs w) (STAMPED ++ [d]) = Ret names
    /\ w_fs w' = w_fs w
    /\ (forall n,
          let ext := lower (suffix n) in
          let word := contains "receipt" (lower n) || contains "attestation" (lower n) in
          (In n (jsons files) <-> In n names /\ ext = ".json")
          /\ (In n (attestations files) <-> In n names /\ ext = ".pdf" /\ word = true)
          /\ (In n (pdf_canons files) <-> In n names /\ ext = ".pdf" /\ word = false)
          /\ (In n (screenshots files) <->
                In n names /\ (ext = ".png" \/ ext = ".jpg" \/ ext = ".jpeg")
                /\ (contains "woleet" (lower n) || word) = true))
    /\ exists keep_j keep_a keep_p keep_s,
         let sorted := sort_by String.leb names in
         jsons files = filter keep_j sorted
         /\ attestations files = filter keep_a sorted
         /\ pdf_canons files = filter keep_p sorted
         /\ screenshots files = filter keep_s sorted.
Proof.
  intro H. apply collect_folder_inv in H as (names & Hn & -> & Hfs).
  exists names. split; [exact Hn|]. split; [exact Hfs|].
  pose proof (classify_fold (sort_by String.leb names) []) as E.
  cbn zeta in E. cbn [filter app] in E. fold no_files in E. rewrite E. clear E.
  pose proof (fun n => in_sort_by String.leb n names) as S.
  split.
  - intro n. cbn zeta. cbn [jsons attestations pdf_canons screenshots].
    rewrite !filter_In, !S.
    destruct (lower (suffix n) =? ".json")%string eqn:J;
      [apply String.eqb_eq in J|apply String.eqb_neq in J].
    + rewrite J. cbn. intuition; try discriminate.
    + destruct (lower (suffix n) =? ".pdf")%string eqn:P;
        [apply String.eqb_eq in P|apply String.eqb_neq in P].
      * rewrite P. cbn.
        destruct (contains "receipt" (lower n) || contains "attestation" (lower n));
          cbn; intuition; try discriminate.
      * cbn [negb andb]. rewrite andb_true_iff, image_ext_spec.
        intuition; try discriminate; try congruence.
  - eexists _, _, _, _. cbn zeta. cbn [jsons attestations pdf_canons screenshots].
    repeat split; reflexivity.
Qed.

(** The theorem on a folder with files of every kind. *)
Lemma X6_collect_folder_lists_witness :
  collect_folder "Report_v2" true {| w_fs := Sample.tree_annexes; w_out := [] |}
  = Done {| jsons := ["Report.json"]; pdf_canons := ["Report.pdf"];
            attestations := ["Attestation-2.PDF"; "Report_receipt.pdf"];
            screenshots := ["woleet-capture.png"] |}
         {| w_fs := Sample.tree_annexes;
            w_out := [LogFolder "Report_v2" "report"] |}
  /\ exists names,
       FS.iterdir Sample.tree_annexes (STAMPED ++ ["Report_v2"]) = Ret names
       /\ (In "Report.pdf" ["Report.pdf"] <->
           In "Report.pdf" names /\ lower (suffix "Report.pdf") = ".pdf"
           /\ contains "receipt" (lower "Report.pdf")
              || contains "attestation" (lower "Report.pdf") = false).
Proof.
  assert (H : collect_folder "Report_v2" true
                {| w_fs := Sample.tree_annexes; w_out := [] |}
              = Done {| jsons := ["Report.json"]; pdf_canons := ["Report.pdf"];
                        attestations := ["Attestation-2.PDF"; "Report_receipt.pdf"];
                        screenshots := ["woleet-capture.png"] |}
                     {| w_fs := Sample.tree_annexes;
                        w_out := [LogFolder "Report_v2" "report"] |})
    by (vm_compute; reflexivity).
  split; [exact H|].
  destruct (X6_collect_folder_lists _ _ _ _ _ H) as (names & Hn & _ & Hin & _).
  exists names. split; [exact Hn|].
  exact (proj1 (proj2 (proj2 (Hin "Report.pdf")))).
Defined.

Lemma find_all {A : Type} (p : A -> bool) (l : list A) :
  (forall x, In x l -> p x = true) -> find p l = hd_error l.
Proof.
  destruct l as [|x l]; [reflexivity|].
  intro H. cbn [find hd_error]. now rewrite (H x) by now left.
Qed.

(** X7.  The attestation attached to a document is the first attestation
    of its folder, whatever the name of the document: every name in the
    list [collect_folder] returns holds [receipt] or [attestation], so the
    loop of [pick_attestation_for] returns at its first turn. *)
Theorem X7_attestation_is_first_of_folder (d : string) (v : bool) (w w' : world)
    (files : folder_files) (pdf_name : string) :
  collect_folder d v w = Done files w' ->
  pick_attestation_for pdf_name (attestations files) = hd_error (attestations files).
Proof.
  intro H. apply collect_folder_inv in H as (names & _ & -> & _).
  pose proof (classify_fold (sort_by String.leb names) []) as E.
  cbn zeta in E. cbn [filter app] in E. fold no_files in E. rewrite E. clear E.
  cbn [attestations]. unfold pick_attestation_for. apply find_all.
  intros x Hx. apply filter_In in Hx as [_ Hx].
  apply andb_true_iff in Hx as [_ Hx]. apply orb_true_iff in Hx.
  rewrite <- orb_assoc. apply orb_true_iff. right.
  apply orb_true_iff. tauto.
Qed.

(** The theorem on a folder with two attestations, for a document whose
    name is in the second and not in the first. *)
Lemma X7_attestation_is_first_witness :
  (exists w',
     collect_folder "Report_v2" false {| w_fs := Sample.tree_annexes; w_out := [] |}
     = Done {| jsons := ["Report.json"]; pdf_canons := ["Report.pdf"];
               attestations := ["Attestation-2.PDF"; "Report_receipt.pdf"];
               screenshots := ["woleet-capture.png"] |} w')
  /\ pick_attestation_for "Report.pdf" ["Attestation-2.PDF"; "Report_receipt.pdf"]
     = Some "Attestation-2.PDF".
Proof.
  assert (H : collect_folder "Report_v2" false
                {| w_fs := Sample.tree_annexes; w_out := [] |}
              = Done {| jsons := ["Report.json"]; pdf_canons := ["Report.pdf"];
                        attestations := ["Attestation-2.PDF"; "Report_receipt.pdf"];
                        screenshots := ["woleet-capture.png"] |}
                     {| w_fs := Sample.tree_annexes; w_out := [] |})
    by (vm_compute; reflexivity).
  split; [eauto|].
  exact (X7_attestation_is_first_of_folder _ _ _ _ _ "Report.pdf" H).
Defined.

(** *** The matching of a receipt *)

Lemma assoc_dict_append (k k' v : string) (d : list (string * list string)) :
  match assoc k' (dict_append k v d) with Some cs => cs | None => [] end
  = match assoc k' d with Some cs => cs | None => [] end
    ++ (if (k =? k')%string then [v] else []).
Proof.
  induction d as [|[k0 vs] d IH]; cbn [dict_append assoc].
  - destruct (k =? k')%string; reflexivity.
  - destruct (k0 =? k)%string eqn:E0; cbn [assoc].
    + apply String.eqb_eq in E0. subst k0.
      destruct (k =? k')%string; [reflexivity|now rewrite app_nil_r].
    + destruct (k0 =? k')%string eqn:E1; [|exact IH].
      apply String.eqb_eq in E1. subst k0. rewrite String.eqb_sym in E0.
      rewrite E0. now rewrite app_nil_r.
Qed.

(** The candidates by name are the documents with that base name, in the
    order of the folder. *)
Lemma build_pdf_by_base_group (pdfs : list string) (k : string) :
  match assoc k (build_pdf_by_base pdfs) with Some cs => cs | None => [] end
  = filter (fun p => (lower (base_of (stem p)) =? k)%string) pdfs.
Proof.
  unfold build_pdf_by_base.
  enough (G : forall d,
            match assoc k (fold_left
                             (fun d pdf => dict_append (lower (base_of (stem pdf))) pdf d)
                             pdfs d)
            with Some cs => cs | None => [] end
            = match assoc k d with Some cs => cs | None => [] end
              ++ filter (fun p => (lower (base_of (stem p)) =? k)%string) pdfs)
    by exact (G []).
  induction pdfs as [|p pdfs IH]; intro d; cbn [fold_left filter].
  - now rewrite app_nil_r.
  - rewrite IH, assoc_dict_append.
    destruct (lower (base_of (stem p)) =? k)%string; rewrite <- app_assoc; reflexivity.
Qed.

Lemma find_by_hash_some (fs : node) (d target : string) (cs : list string) (p : string) :
  find_by_hash fs d target cs = Ret (Some p) ->
  In p cs /\ exists h, sha256_file fs (STAMPED ++ [d; p]) = Ret h /\ lower h = target.
Proof.
  induction cs as [|c cs IH]; [discriminate|].
  rewrite find_by_hash_cons.
  destruct (sha256_file fs (STAMPED ++ [d; c])) as [h|] eqn:E; [|discriminate].
  destruct (lower h =? target)%string eqn:T.
  - intro H. injection H as <-. apply String.eqb_eq in T. split; [now left|eauto].
  - intro H. destruct (IH H) as [Hin Hh]. split; [now right|exact Hh].
Qed.

Lemma mtime_keys_names (fs : node) (d : string) (cs : list string)
    (ks : list (Z * string)) :
  mtime_keys fs d cs = Ret ks ->
  map snd ks = cs
  /\ forall m c, In (m, c) ks -> FS.st_mtime fs (STAMPED ++ [d; c]) = Ret m.
Proof.
  revert ks. induction cs as [|c cs IH]; intros ks; cbn [mtime_keys].
  - intro H. injection H as <-. split; [reflexivity|intros ? ? []].
  - unfold bind. destruct (FS.st_mtime fs (STAMPED ++ [d; c])) as [m|] eqn:E; [|discriminate].
    destruct (mtime_keys fs d cs) as [ks'|]; [|discriminate].
    intro H. injection H as <-. destruct (IH ks' eq_refl) as [Hs Hm].
    split; [cbn; now rewrite Hs|].
    intros m' c' [Heq|Hin]; [injection Heq as <- <-; exact E|now apply Hm].
Qed.

Lemma first_min_in {A : Type} (le : A -> A -> bool) (x : A) (l : list A) :
  In (first_min le x l) (x :: l).
Proof.
  revert x. induction l as [|y l IH]; intro x; cbn [first_min]; [now left|].
  destruct (le x y).
  - destruct (IH x) as [H|H]; [now left|right; now right].
  - right. apply IH.
Qed.

(** The key [first_min] returns has the least date. *)
Lemma first_min_least (x : Z * string) (l : list (Z * string)) (y : Z * string) :
  In y (x :: l) -> (fst (first_min key_le x l) <= fst y)%Z.
Proof.
  revert x y. induction l as [|z l IH]; intros x y; cbn [first_min].
  - intros [<-|[]]. lia.
  - intro Hy. unfold key_le at 1.
    destruct ((fst x <? fst z)%Z || (fst x =? fst z)%Z && String.leb (snd x) (snd z)) eqn:E.
    + assert (Hxz : (fst x <= fst z)%Z).
      { apply orb_true_iff in E as [E|E]; [lia|].
        apply andb_true_iff in E as [E _]. lia. }
      destruct Hy as [<-|[<-|Hy]].
      * apply IH. now left.
      * pose proof (IH x x (or_introl eq_refl)). lia.
      * apply IH. now right.
    + assert (Hzx : (fst z <= fst x)%Z).
      { apply orb_false_iff in E as [E _]. lia. }
      destruct Hy as [<-|[<-|Hy]].
      * pose proof (IH z z (or_introl eq_refl)). lia.
      * apply IH. now left.
      * apply IH. now right.
Qed.

Lemma oldest_some (fs : node) (d : string) (cs : list string) (p : string) :
  oldest fs d cs = Ret (Some p) ->
  In p cs
  /\ exists m, FS.st_mtime fs (STAMPED ++ [d; p]) = Ret m
               /\ forall c, In c cs ->
                    exists m', FS.st_mtime fs (STAMPED ++ [d; c]) = Ret m' /\ (m <= m')%Z.
Proof.
  unfold oldest, bind.
  destruct (mtime_keys fs d cs) as [ks|] eqn:E; [|discriminate].
  destruct (mtime_keys_names _ _ _ _ E) as [Hs Hm].
  destruct ks as [|k rest]; [discriminate|].
  intro H. injection H as <-.
  pose proof (first_min_in key_le k rest) as Hin.
  split.
  - rewrite <- Hs. now apply in_map.
  - exists (fst (first_min key_le k rest)). split.
    + apply Hm. now destruct (first_min key_le k rest).
    + intros c Hc. rewrite <- Hs in Hc. apply in_map_iff in Hc as ([m' c'] & <- & Hc).
      exists m'. split; [now apply Hm|].
      exact (first_min_least k rest (m', c') Hc).
Qed.

(** The index by hash holds, for each key, a document of the folder with
    that digest, and misses no digest of a document that can be read. *)
Lemma build_pdf_index_spec (d : string) (pdfs : list string)
    (idx idx' : list (string * string)) (w w' : world) :
  build_pdf_index d pdfs idx w = Done idx' w' ->
  w_fs w' = w_fs w
  /\ (forall h p, assoc h idx' = Some p ->
        assoc h idx = Some p
        \/ (In p pdfs /\ sha256_file (w_fs w) (STAMPED ++ [d; p]) = Ret h))
  /\ (forall h, assoc h idx' = None ->
        assoc h idx = None
        /\ forall p, In p pdfs -> sha256_file (w_fs w) (STAMPED ++ [d; p]) <> Ret h).
Proof.
  revert idx w. induction pdfs as [|pdf rest IH]; intros idx w.
  - cbn [build_pdf_index]. unfold mret. intro H. injection H as <- <-.
    split; [reflexivity|]. split; [now left|]. intros h Hh. split; [exact Hh|intros ? []].
  - rewrite build_pdf_index_cons.
    destruct (sha256_file (w_fs w) (STAMPED ++ [d; pdf])) as [h0|e] eqn:E.
    + intro H. destruct (IH _ _ H) as (Hfs & Hs & Hn).
      split; [exact Hfs|]. split.
      * intros h p Hp. destruct (Hs h p Hp) as [Ha|[Hin Hh]].
        -- rewrite assoc_dict_set in Ha.
           destruct (h0 =? h)%string eqn:T; [|now left].
           apply String.eqb_eq in T. subst h0. injection Ha as <-.
           right. split; [now left|exact E].
        -- right. split; [now right|exact Hh].
      * intros h Hh. destruct (Hn h Hh) as [Ha Hp].
        rewrite assoc_dict_set in Ha.
        destruct (h0 =? h)%string eqn:T; [discriminate|].
        split; [exact Ha|].
        intros p [<-|Hin]; [|now apply Hp].
        rewrite E. intro F. injection F as ->. now rewrite String.eqb_refl in T.
    + unfold mbind, emit. intro H. destruct (IH _ _ H) as (Hfs & Hs & Hn).
      cbn [w_fs] in *.
      split; [exact Hfs|]. split.
      * intros h p Hp. destruct (Hs h p Hp) as [Ha|[Hin Hh]]; [now left|].
        right. split; [now right|exact Hh].
      * intros h Hh. destruct (Hn h Hh) as [Ha Hp]. split; [exact Ha|].
        intros p [<-|Hin]; [|now apply Hp]. rewrite E. discriminate.
Qed.

(** X8.  A receipt is never paired with a file chosen at random: the
    document [match_pdf] returns is a canonical document of the folder,
    and either its base name is the base name of the receipt, or the
    receipt declares a well-formed hash that is the computed digest of
    the document.  A successful matching prints nothing and leaves the
    tree as it is. *)
Theorem X8_match_is_justified (d : string) (pdfs : list string)
    (idx : list (string * string)) (jname : string) (target : option string)
    (p : string) (w0 w1 w w' : world) :
  build_pdf_index d pdfs [] w0 = Done idx w1 ->
  match_pdf d (build_pdf_by_base pdfs) idx jname target w = Done (Some p) w' ->
  w' = w
  /\ In p pdfs
  /\ (lower (base_of (stem p)) = lower (base_of (stem jname))
      \/ exists t, target = Some t /\ well_formed target = true
                   /\ sha256_file (w_fs w0) (STAMPED ++ [d; p]) = Ret t).
Proof.
  intros Hidx H. unfold match_pdf in H.
  pose proof (build_pdf_by_base_group pdfs (lower (base_of (stem jname)))) as G.
  assert (Hname : forall c,
            In c match assoc (lower (base_of (stem jname))) (build_pdf_by_base pdfs) with
                 | Some cs => cs | None => [] end ->
            In c pdfs /\ lower (base_of (stem c)) = lower (base_of (stem jname))).
  { intros c Hc. rewrite G in Hc. apply filter_In in Hc as [Hc E].
    apply String.eqb_eq in E. now split. }
  clear G.
  destruct (match assoc (lower (base_of (stem jname))) (build_pdf_by_base pdfs) with
            | Some cs => cs | None => [] end) as [|c more] eqn:Ec.
  - destruct (well_formed target) eqn:W.
    + destruct target as [t|]; [|discriminate].
      destruct (assoc t idx) as [q|] eqn:Eq.
      * unfold mret in H. injection H as <- <-.
        destruct (build_pdf_index_spec _ _ _ _ _ _ Hidx) as (_ & Hs & _).
        destruct (Hs t q Eq) as [F|[Hin Hh]]; [discriminate|].
        split; [reflexivity|]. split; [exact Hin|]. right. eauto.
      * unfold mbind, emit, mret in H. discriminate.
    + unfold mbind, emit, mret in H. discriminate.
  - destruct more as [|c2 more].
    + unfold mret in H. injection H as <- <-.
      destruct (Hname c (or_introl eq_refl)) as [Hin Hb]. auto.
    + unfold mbind in H.
      destruct (well_formed target) eqn:W.
      * destruct (reading _ w) as [by_hash w2|] eqn:R in H; [|discriminate].
        apply reading_done in R as [-> R].
        destruct by_hash as [q|].
        -- unfold mret in H. injection H as <- <-.
           apply find_by_hash_some in R as [Hin _].
           destruct (Hname q Hin) as [Hq Hb]. auto.
        -- apply reading_done in H as [-> H]. apply oldest_some in H as [Hin _].
           destruct (Hname p Hin) as [Hq Hb]. auto.
      * unfold mret in H at 1. cbn beta iota in H.
        apply reading_done in H as [-> H]. apply oldest_some in H as [Hin _].
        destruct (Hname p Hin) as [Hq Hb]. auto.
Qed.

(** The theorem on the folder of [tree_two_docs], for a receipt that has
    the name of no document and declares the hash of the second. *)
Lemma X8_match_is_justified_witness :
  exists idx,
    build_pdf_index "Report_v2" ["A.pdf"; "B.pdf"] []
      {| w_fs := Sample.tree_two_docs; w_out := [] |}
    = Done idx {| w_fs := Sample.tree_two_docs; w_out := [] |}
    /\ match_pdf "Report_v2" (build_pdf_by_base ["A.pdf"; "B.pdf"]) idx "C.json"
         (Some Sample.hash_B) {| w_fs := Sample.tree_two_docs; w_out := [] |}
       = Done (Some "B.pdf") {| w_fs := Sample.tree_two_docs; w_out := [] |}
    /\ In "B.pdf" ["A.pdf"; "B.pdf"].
Proof.
  exists [(SHA256.hexdigest "%PDF-A", "A.pdf"); (Sample.hash_B, "B.pdf")].
  assert (Hidx : build_pdf_index "Report_v2" ["A.pdf"; "B.pdf"] []
                   {| w_fs := Sample.tree_two_docs; w_out := [] |}
                 = Done [(SHA256.hexdigest "%PDF-A", "A.pdf"); (Sample.hash_B, "B.pdf")]
                        {| w_fs := Sample.tree_two_docs; w_out := [] |})
    by (vm_compute; reflexivity).
  assert (Hm : match_pdf "Report_v2" (build_pdf_by_base ["A.pdf"; "B.pdf"])
                 [(SHA256.hexdigest "%PDF-A", "A.pdf"); (Sample.hash_B, "B.pdf")]
                 "C.json" (Some Sample.hash_B)
                 {| w_fs := Sample.tree_two_docs; w_out := [] |}
               = Done (Some "B.pdf") {| w_fs := Sample.tree_two_docs; w_out := [] |})
    by (vm_compute; reflexivity).
  split; [exact Hidx|]. split; [exact Hm|].
  exact (proj1 (proj2 (X8_match_is_justified _ _ _ _ _ _ _ _ _ _ Hidx Hm))).
Defined.

Lemma oldest_none (fs : node) (d : string) (cs : list string) :
  oldest fs d cs = Ret None -> cs = [].
Proof.
  unfold oldest, bind. destruct cs as [|c cs]; [reflexivity|].
  cbn [mtime_keys]. unfold bind.
  destruct (FS.st_mtime fs (STAMPED ++ [d; c])); [|discriminate].
  destruct (mtime_keys fs d cs); discriminate.
Qed.

(** X9.  A receipt is left out only when nothing of the folder can stand
    for its document: no canonical document has its base name, and, when
    it declares a well-formed hash, no canonical document that could be
    read has that digest.  The receipt is then reported by one warning,
    and the tree is left as it is. *)
Theorem X9_unmatched_has_no_candidate (d : string) (pdfs : list string)
    (idx : list (string * string)) (jname : string) (target : option string)
    (w0 w1 w w' : world) :
  build_pdf_index d pdfs [] w0 = Done idx w1 ->
  match_pdf d (build_pdf_by_base pdfs) idx jname target w = Done None w' ->
  w_fs w' = w_fs w
  /\ w_out w' = w_out w
                ++ [WarnUnmatched jname (lower (base_of (stem jname))) (hash12 target)]
  /\ forall p, In p pdfs ->
       lower (base_of (stem p)) <> lower (base_of (stem jname))
       /\ forall t, target = Some t -> well_formed target = true ->
            sha256_file (w_fs w0) (STAMPED ++ [d; p]) <> Ret t.
Proof.
  intros Hidx H. unfold match_pdf in H.
  pose proof (build_pdf_by_base_group pdfs (lower (base_of (stem jname)))) as G.
  destruct (match assoc (lower (base_of (stem jname))) (build_pdf_by_base pdfs) with
            | Some cs => cs | None => [] end) as [|c more] eqn:Ec.
  - assert (Hno : forall p, In p pdfs ->
                    lower (base_of (stem p)) <> lower (base_of (stem jname))).
    { intros p Hp E. apply String.eqb_eq in E.
      assert (F : In p []) by (rewrite G; apply filter_In; now split).
      destruct F. }
    destruct (build_pdf_index_spec _ _ _ _ _ _ Hidx) as (_ & _ & Hn).
    destruct (well_formed target) eqn:W.
    + destruct target as [t|]; [|discriminate].
      destruct (assoc t idx) as [q|] eqn:Eq; [discriminate|].
      unfold mbind, emit, mret in H. injection H as <-. cbn [w_fs w_out].
      split; [reflexivity|]. split; [reflexivity|].
      intros p Hp. split; [now apply Hno|].
      intros t' Ht _. injection Ht as <-. now apply (Hn t Eq).
    + unfold mbind, emit, mret in H. injection H as <-. cbn [w_fs w_out].
      split; [reflexivity|]. split; [reflexivity|].
      intros p Hp. split; [now apply Hno|]. intros t' _ F. discriminate.
  - exfalso. destruct more as [|c2 more]; [discriminate|].
    unfold mbind in H.
    destruct (well_formed target) eqn:W.
    + destruct (reading _ w) as [by_hash w2|] eqn:R in H; [|discriminate].
      destruct by_hash as [q|]; [discriminate|].
      apply reading_done in H as [_ H]. apply oldest_none in H. discriminate.
    + unfold mret in H at 1. cbn beta iota in H.
      apply reading_done in H as [_ H]. apply oldest_none in H. discriminate.
Qed.

(** The theorem on [tree_one_pair], whose receipt has another name than
    the document and declares no hash. *)
Lemma X9_unmatched_has_no_candidate_witness :
  exists idx w',
    build_pdf_index "Report" ["Report.pdf"] []
      {| w_fs := Sample.tree_one_pair; w_out := [] |}
    = Done idx {| w_fs := Sample.tree_one_pair; w_out := [] |}
    /\ match_pdf "Report" (build_pdf_by_base ["Report.pdf"]) idx "woleet.json" None
         {| w_fs := Sample.tree_one_pair; w_out := [] |}
       = Done None w'
    /\ w_out w' = [WarnUnmatched "woleet.json" "woleet" "None"].
Proof.
  exists [(SHA256.hexdigest "%PDF-A", "Report.pdf")].
  exists {| w_fs := Sample.tree_one_pair;
            w_out := [WarnUnmatched "woleet.json" "woleet" "None"] |}.
  assert (Hidx : build_pdf_index "Report" ["Report.pdf"] []
                   {| w_fs := Sample.tree_one_pair; w_out := [] |}
                 = Done [(SHA256.hexdigest "%PDF-A", "Report.pdf")]
                        {| w_fs := Sample.tree_one_pair; w_out := [] |})
    by (vm_compute; reflexivity).
  assert (Hm : match_pdf "Report" (build_pdf_by_base ["Report.pdf"])
                 [(SHA256.hexdigest "%PDF-A", "Report.pdf")] "woleet.json" None
                 {| w_fs := Sample.tree_one_pair; w_out := [] |}
               = Done None {| w_fs := Sample.tree_one_pair;
                              w_out := [WarnUnmatched "woleet.json" "woleet" "None"] |})
    by (vm_compute; reflexivity).
  split; [exact Hidx|]. split; [exact Hm|].
  exact (proj1 (proj2 (X9_unmatched_has_no_candidate _ _ _ _ _ _ _ _ _ Hidx Hm))).
Defined.

(** *** The two tables *)

(** What holds of the tables before a loop and is kept by each turn that
    ends holds after the loop. *)
Lemma for_each_inv {A B : Type} (P : B -> Prop) (body : B -> A -> M B) (l : list A) :
  (forall acc x w acc' w', P acc -> body acc x w = Done acc' w' -> P acc') ->
  forall acc w acc' w', P acc -> for_each body acc l w = Done acc' w' -> P acc'.
Proof.
  intro Hb. induction l as [|x l IH]; intros acc w acc' w' Hp H.
  - cbn [for_each] in H. unfold mret in H. injection H as <- _. exact Hp.
  - cbn [for_each] in H. apply mbind_done in H as (acc1 & w1 & H1 & H2).
    exact (IH _ _ _ _ (Hb _ _ _ _ _ Hp H1) H2).
Qed.

Section Tables.

Variable repr : json -> string.
Variable fromisoformat : string -> option datetime.
Variable json_loads : string -> option json.
Variable json_dumps : bool -> json -> string.
Variable csv_text : list string -> list row -> string.
Variable guess_type : string -> option string.
Variable now : Z.

Lemma aligned_assemble (a : args) (d : string) (files : folder_files)
    (jname : string) (info : receipt_info) (pdf_match : string)
    (acc acc' : tables) (w w' : world) :
  aligned acc ->
  assemble repr json_dumps guess_type now a d files jname info pdf_match acc w
  = Done acc' w' ->
  aligned acc'.
Proof.
  intros [Hs Hf] H. unfold assemble in H.
  apply mbind_done in H as (r & w1 & Hr & H).
  apply mbind_done in H as ([] & w2 & _ & H).
  unfold mret in H. injection H as <- _.
  destruct (assemble_record_inv _ _ _ _ _ _ _ _ _ Hr)
    as (size & sha & _ & _ & _ & _ & _ & _ & _ & Hrow & Hline & _).
  split; cbn [fst snd].
  - rewrite map_app, Hs, Hrow, Hline. reflexivity.
  - apply Forall_app. split; [exact Hf|]. constructor; [|constructor].
    rewrite Hrow. reflexivity.
Qed.

Lemma aligned_import_receipt (a : args) (d : string) (files : folder_files)
    (pdf_by_base : list (string * list string)) (pdf_index : list (string * string))
    (acc : tables) (jname : string) (w : world) (acc' : tables) (w' : world) :
  aligned acc ->
  import_receipt repr fromisoformat json_loads json_dumps guess_type now
    a d files pdf_by_base pdf_index acc jname w = Done acc' w' ->
  aligned acc'.
Proof.
  intros Hp H. unfold import_receipt in H.
  destruct (bind (FS.read_bytes (w_fs w) (STAMPED ++ [d; jname])) _) as [jdata|e].
  - apply mbind_done in H as (info & w1 & _ & H).
    apply mbind_done in H as (m & w2 & _ & H).
    destruct m as [pdf_match|].
    + exact (aligned_assemble _ _ _ _ _ _ _ _ _ _ Hp H).
    + unfold mret in H. injection H as <- _. exact Hp.
  - apply mbind_done in H as (? & w1 & _ & H).
    unfold mret in H. injection H as <- _. exact Hp.
Qed.

Lemma aligned_import_folder (a : args) (acc : tables) (d : string) (w : world)
    (acc' : tables) (w' : world) :
  aligned acc ->
  import_folder repr fromisoformat json_loads json_dumps guess_type now a acc d w
  = Done acc' w' ->
  aligned acc'.
Proof.
  intros Hp H. unfold import_folder in H.
  apply mbind_done in H as (files & w1 & _ & H).
  destruct (jsons files) as [|j js].
  - apply mbind_done in H as (? & w2 & _ & H).
    unfold mret in H. injection H as <- _. exact Hp.
  - destruct (pdf_canons files) as [|p ps].
    + apply mbind_done in H as (? & w2 & _ & H).
      unfold mret in H. injection H as <- _. exact Hp.
    + apply mbind_done in H as (idx & w2 & _ & H).
      revert H. apply for_each_inv; [|exact Hp].
      intros acc0 j0 w0 acc1 w3 H0. apply aligned_import_receipt. exact H0.
Qed.

Lemma aligned_main (a : args) (w : world) (r : run_result) (w' : world) :
  main repr fromisoformat json_loads json_dumps csv_text guess_type now a w = Done r w' ->
  aligned (rows r, index_lines r).
Proof.
  intro H. unfold main in H.
  apply mbind_done in H as (? & w0 & _ & H).
  apply mbind_done in H as (present & w1 & _ & H).
  destruct (negb present).
  - apply mbind_done in H as (? & w2 & _ & H).
    unfold mret in H. injection H as <- _. split; [reflexivity|constructor].
  - apply mbind_done in H as (? & w2 & _ & H).
    apply mbind_done in H as (? & w3 & _ & H).
    apply mbind_done in H as (subdirs & w4 & _ & H).
    apply mbind_done in H as (? & w5 & _ & H).
    apply mbind_done in H as (t & w6 & Ht & H).
    apply mbind_done in H as (? & w7 & _ & H).
    unfold mret in H. injection H as <- _. cbn [rows index_lines].
    assert (Ha : aligned t).
    { revert Ht. apply for_each_inv; [|split; [reflexivity|constructor]].
      intros acc0 d0 w8 acc1 w9 H0. apply aligned_import_folder. exact H0. }
    destruct t. exact Ha.
Qed.

End Tables.

(** X10.  The two tables of a run go together: the index has one line
    for each row of the mapping, in the same order, made of the first six
    columns of the row with the same values; and every row has the
    eleven columns of the header, in the order of the header. *)
Theorem X10_rows_and_index_lines_agree (repr : json -> string)
    (fromisoformat : string -> option datetime)
    (json_loads : string -> option json) (json_dumps : bool -> json -> string)
    (csv_text : list string -> list row -> string)
    (guess_type : string -> option string) (now : Z)
    (a : args) (w : world) (r : run_result) (w' : world) :
  main repr fromisoformat json_loads json_dumps csv_text guess_type now a w = Done r w' ->
  index_lines r = map (firstn 6) (rows r)
  /\ List.length (index_lines r) = List.length (rows r)
  /\ Forall (fun line => map fst line = firstn 6 headers) (index_lines r)
  /\ Forall (fun row => map fst row = headers) (rows r).
Proof.
  intro H. apply aligned_main in H as [Hs Hf]. cbn [fst snd] in Hs, Hf.
  split; [exact Hs|]. split; [rewrite Hs; apply length_map|]. split; [|exact Hf].
  rewrite Hs. apply Forall_map. revert Hf. apply Forall_impl.
  intros row Hr. rewrite <- Hr. clear. revert row.
  generalize 6%nat. intros n row. revert n. induction row as [|x row IH]; intro n.
  - now destruct n.
  - destruct n; [reflexivity|]. cbn. now rewrite IH.
Qed.

(** The theorem on the run over [tree_two_docs]. *)
Lemma X10_rows_and_index_lines_witness :
  exists r w',
    Sample.run Sample.normal_run Sample.tree_two_docs = Done r w'
    /\ List.length (rows r) = 1%nat
    /\ index_lines r = map (firstn 6) (rows r).
Proof.
  assert (H : exists r w',
            Sample.run Sample.normal_run Sample.tree_two_docs = Done r w'
            /\ List.length (rows r) = 1%nat).
  { eexists _, _. split; vm_compute; reflexivity. }
  destruct H as (r & w' & H & Hl). exists r, w'. split; [exact H|]. split; [exact Hl|].
  exact (proj1 (X10_rows_and_index_lines_agree _ _ _ _ _ _ _ _ _ _ _ H)).
Defined.

(** *** What a run leaves in place *)

Section Kept.

Variable now : Z.

(** What has been put at a path is there. *)
Lemma put_leaf_lookup (b : bool) (leaf : node) (p : path) (fs fs' : node) :
  FS.put_leaf now b leaf fs p = Ret fs' -> FS.lookup fs' p = Some leaf.
Proof.
  revert fs fs'. induction p as [|x p IH]; intros fs fs' H.
  - destruct fs; discriminate.
  - destruct p as [|y p].
    + destruct fs as [| m es |]; try discriminate. cbn [FS.put_leaf] in H.
      assert (E : exists m', fs' = Dir m' (FS.set_entry x leaf es)).
      { destruct (assoc x es) as [[| |]|]; try discriminate;
          try (destruct b; discriminate).
        - destruct b; [|discriminate]. injection H as <-. eauto.
        - injection H as <-. eauto. }
      destruct E as [m' ->]. rewrite lookup_single. unfold FS.set_entry.
      now rewrite assoc_dict_set, String.eqb_refl.
    + rewrite put_leaf_cons in H. destruct fs as [| m es |]; try discriminate.
      destruct (assoc x es) as [c|] eqn:Ex; [|discriminate].
      destruct (FS.put_leaf now b leaf c (y :: p)) as [c'|] eqn:Ec; [|discriminate].
      injection H as <-. rewrite lookup_cons, lookup_single. unfold FS.set_entry.
      rewrite assoc_dict_set, String.eqb_refl. now apply (IH c).
Qed.

(** A file at another path is what it was. *)
Lemma put_leaf_keeps (b : bool) (leaf : node) (p q : path) (fs fs' : node)
    (m : Z) (d : string) :
  FS.put_leaf now b leaf fs p = Ret fs' ->
  q <> p ->
  FS.lookup fs q = Some (File m d) ->
  FS.lookup fs' q = Some (File m d).
Proof.
  revert q fs fs'. induction p as [|x p IH]; intros q fs fs' H Hq L.
  - destruct fs; discriminate.
  - destruct q as [|y q]; [destruct fs; cbn in *; try discriminate; now destruct p|].
    destruct p as [|z p].
    + destruct fs as [| m0 es |]; try discriminate. cbn [FS.put_leaf] in H.
      assert (E : exists m', fs' = Dir m' (FS.set_entry x leaf es)).
      { destruct (assoc x es) as [[| |]|]; try discriminate;
          try (destruct b; discriminate).
        - destruct b; [|discriminate]. injection H as <-. eauto.
        - injection H as <-. eauto. }
      destruct E as [m' ->]. cbn [FS.lookup] in *. unfold FS.set_entry.
      rewrite assoc_dict_set. destruct (x =? y)%string eqn:Exy; [|exact L].
      apply String.eqb_eq in Exy. subst y. exfalso.
      destruct (assoc x es) as [[m1 d1| |]|]; try discriminate;
        try (destruct b; discriminate).
      destruct q; [now apply Hq|discriminate].
    + rewrite put_leaf_cons in H. destruct fs as [| m0 es |]; try discriminate.
      destruct (assoc x es) as [c|] eqn:Ex; [|discriminate].
      destruct (FS.put_leaf now b leaf c (z :: p)) as [c'|] eqn:Ec; [|discriminate].
      injection H as <-. cbn [FS.lookup] in *. unfold FS.set_entry.
      rewrite assoc_dict_set. destruct (x =? y)%string eqn:Exy; [|exact L].
      apply String.eqb_eq in Exy. subst y. rewrite Ex in L.
      apply (IH q c c' Ec); [|exact L]. intros ->. now apply Hq.
Qed.

(** [os.symlink] succeeds on a name that is not taken. *)
Lemma put_leaf_new (leaf : node) (p : path) (fs fs' : node) :
  FS.put_leaf now false leaf fs p = Ret fs' -> FS.lookup fs p = None.
Proof.
  revert fs fs'. induction p as [|x p IH]; intros fs fs' H.
  - destruct fs; discriminate.
  - destruct p as [|y p].
    + destruct fs as [| m es |]; try discriminate. cbn [FS.put_leaf] in H.
      rewrite lookup_single. destruct (assoc x es) as [[| |]|]; try discriminate.
      reflexivity.
    + rewrite put_leaf_cons in H. destruct fs as [| m es |]; try discriminate.
      destruct (assoc x es) as [c|] eqn:Ex; [|discriminate].
      destruct (FS.put_leaf now false leaf c (y :: p)) as [c'|] eqn:Ec; [|discriminate].
      rewrite lookup_cons, lookup_single, Ex. now apply (IH c c').
Qed.

(** [mkdir] leaves every file as it is. *)
Lemma mkdir_p_keeps (p q : path) (fs fs' : node) (m : Z) (d : string) :
  FS.mkdir_p now fs p = Ret fs' ->
  FS.lookup fs q = Some (File m d) ->
  FS.lookup fs' q = Some (File m d).
Proof.
  revert q fs fs'. induction p as [|x p IH]; intros q fs fs' H L.
  - destruct fs; cbn in H; try discriminate. now injection H as <-.
  - destruct fs as [| m0 es |]; cbn [FS.mkdir_p] in H; try discriminate.
    destruct (FS.mkdir_p now _ p) as [c'|] eqn:Ec; [|discriminate].
    injection H as <-. destruct q as [|y q]; [discriminate|].
    cbn [FS.lookup] in *. unfold FS.set_entry. rewrite assoc_dict_set.
    destruct (x =? y)%string eqn:Exy; [|exact L].
    apply String.eqb_eq in Exy. subst y.
    destruct (assoc x es) as [c|]; [|discriminate].
    now apply (IH q c c' Ec).
Qed.

Lemma still_files_refl (fs : node) : still_files fs fs.
Proof. intros q m d H. eauto. Qed.

Lemma still_files_trans (a b c : node) :
  still_files a b -> still_files b c -> still_files a c.
Proof. intros H1 H2 q m d H. destruct (H1 q m d H) as (m' & d' & H'). eauto. Qed.

Lemma untouched_refl (fs : node) : untouched fs fs.
Proof. split; [apply same_input_refl|apply still_files_refl]. Qed.

Lemma untouched_trans (a b c : node) : untouched a b -> untouched b c -> untouched a c.
Proof.
  intros [H1 H2] [H3 H4]. split;
    [now apply (same_input_trans a b c)|now apply (still_files_trans a b c)].
Qed.

Lemma still_files_mkdir_p (p : path) (fs fs' : node) :
  FS.mkdir_p now fs p = Ret fs' -> still_files fs fs'.
Proof. intros H q m d L. exists m, d. exact (mkdir_p_keeps _ _ _ _ _ _ H L). Qed.

Lemma still_files_put_file (b : bool) (m0 : Z) (d0 : string) (p : path) (fs fs' : node) :
  FS.put_leaf now b (File m0 d0) fs p = Ret fs' -> still_files fs fs'.
Proof.
  intros H q m d L. destruct (list_eq_dec string_dec q p) as [->|Hq].
  - exists m0, d0. exact (put_leaf_lookup _ _ _ _ _ H).
  - exists m, d. exact (put_leaf_keeps _ _ _ _ _ _ _ _ H Hq L).
Qed.

Lemma still_files_put_new (leaf : node) (p : path) (fs fs' : node) :
  FS.put_leaf now false leaf fs p = Ret fs' -> still_files fs fs'.
Proof.
  intros H q m d L. exists m, d.
  apply (put_leaf_keeps _ _ _ _ _ _ _ _ H); [|exact L].
  intros ->. apply put_leaf_new in H. congruence.
Qed.

End Kept.

(** The steps of a computation that keeps [R], for [R] a preorder. *)
Section Keeps.

Variable R : node -> node -> Prop.
Hypothesis R_refl : forall fs, R fs fs.
Hypothesis R_trans : forall a b c, R a b -> R b c -> R a c.

Lemma keeps_frozen {A : Type} (m : M A) : frozen m -> keeps R m.
Proof. intros H w. rewrite (H w). apply R_refl. Qed.

Lemma keeps_mret {A : Type} (a : A) : keeps R (mret a).
Proof. intro w. apply R_refl. Qed.

Lemma keeps_bind {A B : Type} (m : M A) (k : A -> M B) :
  keeps R m -> (forall a, keeps R (k a)) -> keeps R (mbind m k).
Proof.
  intros Hm Hk w. unfold mbind. specialize (Hm w).
  destruct (m w) as [a w1|e w1]; cbn [world_of] in *; [|exact Hm].
  exact (R_trans _ _ _ Hm (Hk a w1)).
Qed.

Lemma keeps_writing (f : node -> res node) :
  (forall fs fs', f fs = Ret fs' -> R fs fs') -> keeps R (writing f).
Proof.
  intros Hf w. unfold writing. destruct (f (w_fs w)) as [fs'|e] eqn:E; cbn.
  - now apply Hf.
  - apply R_refl.
Qed.

Lemma keeps_for_each {A B : Type} (body : B -> A -> M B) (l : list A) :
  (forall acc x, keeps R (body acc x)) -> forall acc, keeps R (for_each body acc l).
Proof.
  intro Hb. induction l as [|x l IH]; intro acc; cbn [for_each].
  - apply keeps_mret.
  - apply keeps_bind; [apply Hb|intro acc'; apply IH].
Qed.

End Keeps.

Section Untouched.

Variable repr : json -> string.
Variable fromisoformat : string -> option datetime.
Variable json_loads : string -> option json.
Variable json_dumps : bool -> json -> string.
Variable csv_text : list string -> list row -> string.
Variable guess_type : string -> option string.
Variable now : Z.

Lemma untouched_frozen {A : Type} (m : M A) : frozen m -> keeps untouched m.
Proof. apply keeps_frozen, untouched_refl. Qed.

Lemma untouched_bind {A B : Type} (m : M A) (k : A -> M B) :
  keeps untouched m -> (forall a, keeps untouched (k a)) -> keeps untouched (mbind m k).
Proof. apply keeps_bind, untouched_trans. Qed.

Lemma untouched_mkdir_p (p : path) (fs fs' : node) :
  FS.mkdir_p now fs (PROOFS ++ p) = Ret fs' -> untouched fs fs'.
Proof.
  intro H. split.
  - exact (proj1 (writes_mkdir_p now p) fs fs' H).
  - exact (still_files_mkdir_p now _ _ _ H).
Qed.

Lemma untouched_write_file (p : path) (data : string) (fs fs' : node) :
  FS.write_file now fs (PROOFS ++ p) data = Ret fs' -> untouched fs fs'.
Proof.
  intro H. split.
  - exact (proj1 (writes_write_file now p data) fs fs' H).
  - exact (still_files_put_file now _ _ _ _ _ _ H).
Qed.

Lemma keeps_ensure_dir (p : path) (dry : bool) :
  keeps untouched (ensure_dir now (PROOFS ++ p) dry).
Proof.
  unfold ensure_dir. destruct dry; [apply keeps_mret, untouched_refl|].
  apply keeps_writing; [apply untouched_refl|]. apply untouched_mkdir_p.
Qed.

Lemma keeps_copy_or_link (src p : path) (s dry v : bool) :
  keeps untouched (copy_or_link now src (PROOFS ++ p) s dry v).
Proof.
  unfold copy_or_link. destruct dry; [apply untouched_frozen, frozen_log|].
  intro w. destruct (FS.exists_ (w_fs w) (PROOFS ++ p)); [apply untouched_refl|].
  destruct s.
  - unfold FS.symlink.
    destruct (FS.put_leaf now false (Link src) (w_fs w) (PROOFS ++ p))
      as [fs'|[]] eqn:E; cbn [world_of w_fs]; try apply untouched_refl.
    split.
    + unfold same_input. symmetry.
      now apply (put_leaf_other_head now false (Link src) "proofs" "stamped" p).
    + exact (still_files_put_new now _ _ _ _ E).
  - revert w. apply keeps_writing; [apply untouched_refl|].
    intros fs fs' H. split.
    + exact (proj1 (writes_copy2 now src p) fs fs' H).
    + unfold FS.copy2 in H. destruct (FS.lookup fs src) as [[m d| |]|]; try discriminate.
      exact (still_files_put_file now _ _ _ _ _ _ H).
Qed.

Lemma keeps_write_proof_set (p : path) (pj : json) (pdf_path rpath : path)
    (att : option path) (shots : list path) (s dry v : bool) :
  keeps untouched
    (write_proof_set repr json_dumps now (PROOFS ++ p) pj pdf_path rpath att shots s dry v).
Proof.
  unfold write_proof_set. rewrite <- !app_assoc.
  apply untouched_bind; [apply keeps_ensure_dir|intros _].
  apply untouched_bind; [|intros _].
  { destruct dry; [apply untouched_frozen, frozen_log|].
    apply keeps_writing; [apply untouched_refl|]. apply untouched_write_file. }
  apply untouched_bind; [|intros _].
  { destruct dry; [apply untouched_frozen, frozen_log|].
    apply untouched_bind; [|intros _].
    { apply keeps_writing; [apply untouched_refl|]. apply untouched_write_file. }
    apply untouched_bind; [apply untouched_frozen, frozen_reading|intro line].
    apply keeps_writing; [apply untouched_refl|]. apply untouched_write_file. }
  apply untouched_bind; [apply keeps_copy_or_link|intros _].
  apply untouched_bind.
  - destruct att; [apply keeps_copy_or_link|apply keeps_mret, untouched_refl].
  - intros _. destruct shots; [apply keeps_mret, untouched_refl|apply keeps_copy_or_link].
Qed.

Lemma keeps_assemble (a : args) (d : string) (files : folder_files) (jname : string)
    (info : receipt_info) (pdf_match : string) (acc : tables) :
  keeps untouched (assemble repr json_dumps guess_type now a d files jname info pdf_match acc).
Proof.
  unfold assemble. intro w. unfold mbind at 1.
  pose proof (frozen_assemble_record guess_type d files jname info pdf_match w) as F.
  destruct (assemble_record guess_type d files jname info pdf_match w) as [r w1|e w1] eqn:E;
    cbn [world_of] in F.
  - rewrite <- F.
    destruct (assemble_record_inv _ _ _ _ _ _ _ _ _ E) as (_ & _ & _ & _ & _ & Ho & _).
    rewrite Ho. change (BY_DOC ++ [a_slug_version r])
      with (PROOFS ++ ["by-doc"; a_slug_version r]).
    revert w1 E F. intros w1 _ _. revert w1.
    apply untouched_bind; [apply keeps_write_proof_set|intros _].
    apply keeps_mret, untouched_refl.
  - cbn [world_of]. rewrite F. apply untouched_refl.
Qed.

Lemma keeps_import_receipt (a : args) (d : string) (files : folder_files)
    (pdf_by_base : list (string * list string)) (pdf_index : list (string * string))
    (acc : tables) (jname : string) :
  keeps untouched
    (import_receipt repr fromisoformat json_loads json_dumps guess_type now
       a d files pdf_by_base pdf_index acc jname).
Proof.
  intro w. unfold import_receipt.
  destruct (let* text := FS.read_bytes (w_fs w) (STAMPED ++ [d; jname]) in
            match json_loads text with
            | Some v => Ret v
            | None => Raise BadValue
            end) as [jdata|e].
  - revert w.
    apply untouched_bind; [apply untouched_frozen, frozen_reading|intro info].
    apply untouched_bind; [apply untouched_frozen, frozen_match_pdf|intros [pdf|]];
      [apply keeps_assemble|apply keeps_mret, untouched_refl].
  - revert w. apply untouched_frozen.
    apply frozen_bind; [apply frozen_emit|intros _; apply frozen_mret].
Qed.

Lemma keeps_import_folder (a : args) (acc : tables) (d : string) :
  keeps untouched
    (import_folder repr fromisoformat json_loads json_dumps guess_type now a acc d).
Proof.
  unfold import_folder.
  apply untouched_bind; [apply untouched_frozen, frozen_collect_folder|intro files].
  destruct (jsons files);
    [apply untouched_frozen, frozen_bind; [apply frozen_emit|intros _; apply frozen_mret]|].
  destruct (pdf_canons files);
    [apply untouched_frozen, frozen_bind; [apply frozen_emit|intros _; apply frozen_mret]|].
  apply untouched_bind; [apply untouched_frozen, frozen_build_pdf_index|intro idx].
  apply keeps_for_each; [apply untouched_refl|apply untouched_trans|].
  intros acc' x. apply keeps_import_receipt.
Qed.

Lemma keeps_write_tables (a : args) (t : tables) :
  keeps untouched (write_tables json_dumps csv_text now a t).
Proof.
  unfold write_tables. destruct (fst t); [apply untouched_frozen, frozen_emit|].
  apply untouched_bind; [|intros _; apply untouched_frozen, frozen_emit].
  destruct (dry_run a); [apply keeps_mret, untouched_refl|].
  apply untouched_bind; [|intros _];
    (apply keeps_writing; [apply untouched_refl|]; apply untouched_write_file).
Qed.

Lemma keeps_main (a : args) :
  keeps untouched (main repr fromisoformat json_loads json_dumps csv_text guess_type now a).
Proof.
  unfold main.
  apply untouched_bind; [apply untouched_frozen, frozen_emit|intros _].
  apply untouched_bind; [apply untouched_frozen, frozen_reading|intro present].
  destruct (negb present).
  - apply untouched_frozen, frozen_bind; [apply frozen_emit|intros _; apply frozen_mret].
  - apply untouched_bind; [rewrite <- (app_nil_r PROOFS); apply keeps_ensure_dir|intros _].
    apply untouched_bind; [change BY_DOC with (PROOFS ++ ["by-doc"]); apply keeps_ensure_dir|intros _].
    apply untouched_bind; [apply untouched_frozen, frozen_reading|intro subdirs].
    apply untouched_bind;
      [destruct subdirs; apply untouched_frozen; [apply frozen_emit|apply frozen_mret]|intros _].
    apply untouched_bind; [|intro t].
    { apply keeps_for_each; [apply untouched_refl|apply untouched_trans|].
      intros acc d. apply keeps_import_folder. }
    apply untouched_bind; [apply keeps_write_tables|intros _]. apply keeps_mret, untouched_refl.
Qed.

End Untouched.

(** X11.  On a tree without symbolic links, whatever the options, and
    whether the run reaches its end or is stopped by an exception, the
    importer leaves [stamped/] exactly as it found it, and removes
    nothing: every file of the tree is still a file at the same path
    when the run is over. *)
Theorem X11_run_leaves_input_and_files (repr : json -> string)
    (fromisoformat : string -> option datetime)
    (json_loads : string -> option json) (json_dumps : bool -> json -> string)
    (csv_text : list string -> list row -> string)
    (guess_type : string -> option string) (now : Z) (a : args) (w : world) :
  no_link (w_fs w) = true ->
  let after :=
    w_fs (world_of (main repr fromisoformat json_loads json_dumps csv_text
                      guess_type now a w)) in
  FS.lookup after STAMPED = FS.lookup (w_fs w) STAMPED
  /\ forall q m d, FS.lookup (w_fs w) q = Some (File m d) ->
                   exists m' d', FS.lookup after q = Some (File m' d').
Proof.
  intros _.
  destruct (keeps_main repr fromisoformat json_loads json_dumps csv_text guess_type
              now a w) as [Hi Hf].
  split; [symmetry; exact Hi|exact Hf].
Qed.

(** The theorem at the run on [tree_two_docs], a tree without links: the
    input is the same after the run, and the document [B.pdf] is still a
    file. *)
Lemma X11_run_leaves_input_witness :
  no_link Sample.tree_two_docs = true
  /\ FS.lookup (w_fs (world_of (Sample.run Sample.normal_run Sample.tree_two_docs)))
       STAMPED
     = FS.lookup Sample.tree_two_docs STAMPED
  /\ exists m d,
       FS.lookup (w_fs (world_of (Sample.run Sample.normal_run Sample.tree_two_docs)))
         ["stamped"; "Report_v2"; "B.pdf"] = Some (File m d).
Proof.
  split; [reflexivity|].
  destruct (X11_run_leaves_input_and_files Sample.repr Sample.fromisoformat
              Sample.json_loads Sample.json_dumps Sample.csv_text Sample.guess_type
              Sample.now Sample.normal_run
              {| w_fs := Sample.tree_two_docs; w_out := [] |} eq_refl) as [Hi Hf].
  split; [exact Hi|].
  exact (Hf ["stamped"; "Report_v2"; "B.pdf"] 20%Z "%PDF-B" eq_refl).
Defined.

(** *** What a run writes *)

Lemma frozen_done {A : Type} (m : M A) (w : world) (a : A) (w' : world) :
  frozen m -> m w = Done a w' -> w_fs w' = w_fs w.
Proof. intros F H. specialize (F w). now rewrite H in F. Qed.

(** A loop invariant that looks at the tree as well. *)
Lemma for_each_inv_world {A B : Type} (P : B -> world -> Prop) (body : B -> A -> M B)
    (l : list A) :
  (forall acc x w acc' w', P acc w -> body acc x w = Done acc' w' -> P acc' w') ->
  forall acc w acc' w', P acc w -> for_each body acc l w = Done acc' w' -> P acc' w'.
Proof.
  intro Hb. induction l as [|x l IH]; intros acc w acc' w' Hp H.
  - cbn [for_each] in H. unfold mret in H. now injection H as <- <-.
  - cbn [for_each] in H. apply mbind_done in H as (acc1 & w1 & H1 & H2).
    exact (IH _ _ _ _ (Hb _ _ _ _ _ Hp H1) H2).
Qed.

Lemma read_bytes_lookup (fs : node) (p : path) (m : Z) (d : string) :
  FS.lookup fs p = Some (File m d) -> FS.read_bytes fs p = Ret d.
Proof. unfold FS.read_bytes. now intros ->. Qed.

Section Written.

Variable repr : json -> string.
Variable fromisoformat : string -> option datetime.
Variable json_loads : string -> option json.
Variable json_dumps : bool -> json -> string.
Variable csv_text : list string -> list row -> string.
Variable guess_type : string -> option string.
Variable now : Z.

(** A transfer leaves every file as it is: it writes at a name that is
    not taken, or not at all. *)
Lemma copy_or_link_keeps (src dst : path) (s dry v : bool) (w w' : world)
    (q : path) (m : Z) (d : string) :
  copy_or_link now src dst s dry v w = Done tt w' ->
  FS.lookup (w_fs w) q = Some (File m d) ->
  FS.lookup (w_fs w') q = Some (File m d).
Proof.
  unfold copy_or_link. intros H L. destruct dry.
  - now rewrite (frozen_done _ _ _ _ (frozen_log _ _) H).
  - destruct (FS.exists_ (w_fs w) dst) eqn:Ex; [now injection H as <-|].
    assert (Hq : q <> dst).
    { intros ->. unfold FS.exists_ in Ex. now rewrite L in Ex. }
    destruct s.
    + unfold FS.symlink in H.
      destruct (FS.put_leaf now false (Link src) (w_fs w) dst) as [fs'|[]] eqn:E;
        try discriminate.
      * injection H as <-. cbn [w_fs]. exact (put_leaf_keeps now _ _ _ _ _ _ _ _ E Hq L).
      * now injection H as <-.
    + apply writing_done in H as [H _]. unfold FS.copy2 in H.
      destruct (FS.lookup (w_fs w) src) as [[m0 d0| |]|]; try discriminate.
      exact (put_leaf_keeps now _ _ _ _ _ _ _ _ H Hq L).
Qed.

(** After [write_proof_set], outside a simulation, the record and the
    checksum line are in the output directory. *)
Lemma write_proof_set_written (outdir : path) (pj : json) (pdf_path rpath : path)
    (att : option path) (shots : list path) (s v : bool) (w w' : world) :
  write_proof_set repr json_dumps now outdir pj pdf_path rpath att shots s false v w
    = Done tt w' ->
  FS.read_bytes (w_fs w') (outdir ++ ["proof.json"]) = Ret (json_dumps true pj)
  /\ exists line,
       checksum_line repr pj pdf_path = Ret line
       /\ FS.read_bytes (w_fs w') (outdir ++ ["checksums.txt"]) = Ret line.
Proof.
  intro H.
  destruct (write_proof_set_steps _ _ _ _ _ _ _ _ _ _ _ _ _ H)
    as (fs0 & fs1 & fs2 & line & fs3 & w4 & w5 & _ & H1 & H2 & Hl & H3 & H4 & H5 & H6).
  unfold FS.write_file in H1, H2, H3.
  pose proof (put_leaf_lookup now _ _ _ _ _ H1) as L1.
  pose proof (put_leaf_lookup now _ _ _ _ _ H3) as L3.
  assert (Hne : outdir ++ ["proof.json"] <> outdir ++ ["checksums.txt"]).
  { intro E. apply app_inv_head in E. discriminate. }
  pose proof (put_leaf_keeps now _ _ _ _ _ _ _ _ H2 Hne L1) as L1'.
  pose proof (put_leaf_keeps now _ _ _ _ _ _ _ _ H3 Hne L1') as L1''.
  assert (K : forall q m d, FS.lookup fs3 q = Some (File m d) ->
                            FS.lookup (w_fs w') q = Some (File m d)).
  { intros q m d L.
    pose proof (copy_or_link_keeps _ _ _ _ _ _ _ _ _ _ H4 L) as L4.
    assert (L5 : FS.lookup (w_fs w5) q = Some (File m d)).
    { destruct att as [x|].
      - exact (copy_or_link_keeps _ _ _ _ _ _ _ _ _ _ H5 L4).
      - unfold mret in H5. now injection H5 as <-. }
    destruct shots as [|sh shots].
    - unfold mret in H6. now injection H6 as <-.
    - exact (copy_or_link_keeps _ _ _ _ _ _ _ _ _ _ H6 L5). }
  split; [apply (read_bytes_lookup _ _ now); apply K; assumption|].
  exists line. split; [exact Hl|].
  apply (read_bytes_lookup _ _ now); apply K; assumption.
Qed.

(** After [write_tables], outside a simulation and with a row at least,
    the two tables are in [proofs/]. *)
Lemma write_tables_written (a : args) (t : tables) (w w' : world) :
  dry_run a = false -> fst t <> [] ->
  write_tables json_dumps csv_text now a t w = Done tt w' ->
  FS.read_bytes (w_fs w') (PROOFS ++ ["mapping.csv"]) = Ret (csv_text headers (fst t))
  /\ FS.read_bytes (w_fs w') (PROOFS ++ ["index.jsonl"])
     = Ret (index_text json_dumps (snd t)).
Proof.
  intros Hd Hr H. unfold write_tables in H. rewrite Hd in H.
  destruct (fst t) as [|r0 rs] eqn:E; [congruence|].
  apply mbind_done in H as ([] & w1 & H1 & H).
  unfold emit in H. injection H as <-. cbn [w_fs].
  apply mbind_done in H1 as ([] & w2 & H2 & H3).
  apply writing_done in H2 as [H2 _]. apply writing_done in H3 as [H3 _].
  unfold FS.write_file in H2, H3.
  pose proof (put_leaf_lookup now _ _ _ _ _ H2) as L2.
  pose proof (put_leaf_lookup now _ _ _ _ _ H3) as L3.
  assert (Hne : PROOFS ++ ["mapping.csv"] <> PROOFS ++ ["index.jsonl"]) by discriminate.
  pose proof (put_leaf_keeps now _ _ _ _ _ _ _ _ H3 Hne L2) as L2'.
  split; apply (read_bytes_lookup _ _ now); assumption.
Qed.

Lemma main_done (a : args) (w : world) (r : run_result) (w' : world) :
  FS.exists_ (w_fs w) STAMPED = true ->
  main repr fromisoformat json_loads json_dumps csv_text guess_type now a w = Done r w' ->
  exists w1 w2 w3 t,
    ensure_dir now PROOFS (dry_run a)
      {| w_fs := w_fs w; w_out := w_out w ++ [InfoPaths] |} = Done tt w1
    /\ ensure_dir now BY_DOC (dry_run a) w1 = Done tt w2
    /\ w_fs w3 = w_fs w2
    /\ exists ds w4,
         for_each (import_folder repr fromisoformat json_loads json_dumps guess_type
                     now a) ([], []) ds w3 = Done t w4
         /\ write_tables json_dumps csv_text now a t w4 = Done tt w'
         /\ r = {| exit_status := 0; rows := fst t; index_lines := snd t |}.
Proof.
  intros Hin H. unfold main in H.
  rewrite mbind_emit, mbind_reading in H. cbn [w_fs w_out] in H.
  rewrite Hin in H. cbn [negb] in H.
  apply mbind_done in H as ([] & w1 & H1 & H).
  apply mbind_done in H as ([] & w2 & H2 & H).
  apply mbind_done in H as (subdirs & w3 & H3 & H).
  apply mbind_done in H as ([] & w4 & H4 & H).
  apply mbind_done in H as (t & w5 & H5 & H).
  apply mbind_done in H as ([] & w6 & H6 & H).
  unfold mret in H. injection H as <- <-.
  exists w1, w2, w4, t. split; [exact H1|]. split; [exact H2|]. split.
  - apply reading_done in H3 as [-> _].
    destruct subdirs; [unfold emit in H4|unfold mret in H4]; now injection H4 as <-.
  - eauto.
Qed.

End Written.

(** X12.  Outside a simulation, a run that ends with a row at least has
    written the two tables in full: [proofs/mapping.csv] holds the header
    and all the rows of the run, [proofs/index.jsonl] one line for each
    index line of the run, and nothing of what these files held before. *)
Theorem X12_tables_are_written_in_full (repr : json -> string)
    (fromisoformat : string -> option datetime)
    (json_loads : string -> option json) (json_dumps : bool -> json -> string)
    (csv_text : list string -> list row -> string)
    (guess_type : string -> option string) (now : Z)
    (a : args) (w : world) (r : run_result) (w' : world) :
  dry_run a = false ->
  main repr fromisoformat json_loads json_dumps csv_text guess_type now a w = Done r w' ->
  rows r <> [] ->
  FS.read_bytes (w_fs w') (PROOFS ++ ["mapping.csv"]) = Ret (csv_text headers (rows r))
  /\ FS.read_bytes (w_fs w') (PROOFS ++ ["index.jsonl"])
     = Ret (String.concat ""
              (map (fun l => (json_dumps false (JObj l) ++ newline)%string)
                 (index_lines r))).
Proof.
  intros Hd H Hr.
  destruct (FS.exists_ (w_fs w) STAMPED) eqn:Hin.
  - destruct (main_done _ _ _ _ _ _ _ _ _ _ _ Hin H)
      as (w1 & w2 & w3 & t & _ & _ & _ & ds & w4 & _ & Hw & ->).
    cbn [rows index_lines] in *.
    exact (write_tables_written _ _ _ _ _ _ _ Hd Hr Hw).
  - rewrite (main_without_input _ _ _ _ _ _ _ _ _ Hin) in H.
    injection H as <- _. now destruct Hr.
Qed.

(** The theorem on the run over [tree_two_docs]. *)
Lemma X12_tables_are_written_witness :
  exists r w',
    Sample.run Sample.normal_run Sample.tree_two_docs = Done r w'
    /\ rows r <> []
    /\ FS.read_bytes (w_fs w') (PROOFS ++ ["mapping.csv"])
       = Ret (Sample.csv_text headers (rows r)).
Proof.
  assert (H : exists r w',
            Sample.run Sample.normal_run Sample.tree_two_docs = Done r w'
            /\ rows r <> []).
  { eexists _, _. split; [vm_compute; reflexivity|discriminate]. }
  destruct H as (r & w' & H & Hr). exists r, w'. split; [exact H|]. split; [exact Hr|].
  exact (proj1 (X12_tables_are_written_in_full _ _ _ _ _ _ _ Sample.normal_run
                  _ _ _ eq_refl H Hr)).
Defined.

Section Empty.

Variable repr : json -> string.
Variable fromisoformat : string -> option datetime.
Variable json_loads : string -> option json.
Variable json_dumps : bool -> json -> string.
Variable csv_text : list string -> list row -> string.
Variable guess_type : string -> option string.
Variable now : Z.

(** As long as no row has been made, the loops have left the tree as it
    was. *)
Lemma no_row_import_receipt (fs0 : node) (a : args) (d : string) (files : folder_files)
    (pdf_by_base : list (string * list string)) (pdf_index : list (string * string))
    (acc : tables) (jname : string) (w : world) (acc' : tables) (w' : world) :
  (fst acc = [] -> w_fs w = fs0) ->
  import_receipt repr fromisoformat json_loads json_dumps guess_type now
    a d files pdf_by_base pdf_index acc jname w = Done acc' w' ->
  fst acc' = [] -> w_fs w' = fs0.
Proof.
  intros Hp H. unfold import_receipt in H.
  destruct (bind (FS.read_bytes (w_fs w) (STAMPED ++ [d; jname])) _) as [jdata|e].
  - apply mbind_done in H as (info & w1 & H1 & H).
    apply mbind_done in H as (m & w2 & H2 & H).
    unfold lift in H1. apply reading_done in H1 as [-> _].
    apply (frozen_done _ _ _ _ (frozen_match_pdf _ _ _ _ _)) in H2.
    destruct m as [pdf_match|].
    + unfold assemble in H.
      apply mbind_done in H as (r & w3 & _ & H).
      apply mbind_done in H as ([] & w4 & _ & H).
      unfold mret in H. injection H as <- _. cbn [fst].
      intro E. now destruct (fst acc).
    + unfold mret in H. injection H as <- <-. intro E. rewrite H2. now apply Hp.
  - apply mbind_done in H as ([] & w1 & H1 & H).
    unfold mret in H. injection H as <- <-.
    unfold emit in H1. injection H1 as <-. exact Hp.
Qed.

Lemma no_row_import_folder (fs0 : node) (a : args) (acc : tables) (d : string)
    (w : world) (acc' : tables) (w' : world) :
  (fst acc = [] -> w_fs w = fs0) ->
  import_folder repr fromisoformat json_loads json_dumps guess_type now a acc d w
  = Done acc' w' ->
  fst acc' = [] -> w_fs w' = fs0.
Proof.
  intros Hp H. unfold import_folder in H.
  apply mbind_done in H as (files & w1 & H1 & H).
  apply (frozen_done _ _ _ _ (frozen_collect_folder _ _)) in H1.
  destruct (jsons files) as [|j js].
  - apply mbind_done in H as ([] & w2 & H2 & H).
    unfold mret in H. injection H as <- <-.
    unfold emit in H2. injection H2 as <-. cbn [w_fs]. rewrite H1. exact Hp.
  - destruct (pdf_canons files) as [|p ps].
    + apply mbind_done in H as ([] & w2 & H2 & H).
      unfold mret in H. injection H as <- <-.
      unfold emit in H2. injection H2 as <-. cbn [w_fs]. rewrite H1. exact Hp.
    + apply mbind_done in H as (idx & w2 & H2 & H).
      apply (frozen_done _ _ _ _ (frozen_build_pdf_index _ _ _)) in H2.
      revert H.
      apply (for_each_inv_world (fun acc w => fst acc = [] -> w_fs w = fs0)).
      * intros acc0 j0 w0 acc1 w3. apply no_row_import_receipt.
      * rewrite H2, H1. exact Hp.
Qed.

Lemma ensure_dir_done (p : path) (dry : bool) (w w' : world) :
  ensure_dir now p dry w = Done tt w' ->
  w_out w' = w_out w
  /\ if dry then w_fs w' = w_fs w else FS.mkdir_p now (w_fs w) p = Ret (w_fs w').
Proof.
  unfold ensure_dir. destruct dry.
  - unfold mret. intro H. now injection H as <-.
  - intro H. apply writing_done in H as [H Ho]. now split.
Qed.

End Empty.

(** X13.  A run that ends without any row has no index line either, and
    has written no file: with the input directory missing, or in a
    simulation, the tree is the one it started from; otherwise all it
    has done is to make sure that [proofs/] and [proofs/by-doc/] exist.
    Every file of the tree, the tables of an earlier run included, is
    what it was. *)
Theorem X13_run_without_row_writes_no_file (repr : json -> string)
    (fromisoformat : string -> option datetime)
    (json_loads : string -> option json) (json_dumps : bool -> json -> string)
    (csv_text : list string -> list row -> string)
    (guess_type : string -> option string) (now : Z)
    (a : args) (w : world) (r : run_result) (w' : world) :
  main repr fromisoformat json_loads json_dumps csv_text guess_type now a w = Done r w' ->
  rows r = [] ->
  index_lines r = []
  /\ (if dry_run a || negb (FS.exists_ (w_fs w) STAMPED)
      then w_fs w' = w_fs w
      else exists fs1, FS.mkdir_p now (w_fs w) PROOFS = Ret fs1
                       /\ FS.mkdir_p now fs1 BY_DOC = Ret (w_fs w'))
  /\ forall q m d, FS.lookup (w_fs w) q = Some (File m d) ->
                   FS.lookup (w_fs w') q = Some (File m d).
Proof.
  intros H Hr.
  assert (Hi : index_lines r = []).
  { destruct (aligned_main _ _ _ _ _ _ _ _ _ _ _ H) as [Hs _]. cbn [fst snd] in Hs.
    now rewrite Hs, Hr. }
  split; [exact Hi|].
  destruct (FS.exists_ (w_fs w) STAMPED) eqn:Hin.
  - destruct (main_done _ _ _ _ _ _ _ _ _ _ _ Hin H)
      as (w1 & w2 & w3 & t & H1 & H2 & H3 & ds & w4 & Hl & Hw & ->).
    cbn [rows] in Hr.
    assert (H4 : w_fs w4 = w_fs w2).
    { rewrite <- H3. revert Hl Hr.
      apply (for_each_inv_world (fun acc w => fst acc = [] -> w_fs w = w_fs w3)).
      - intros acc0 d0 w0 acc1 w5. apply no_row_import_folder.
      - reflexivity. }
    assert (H5 : w_fs w' = w_fs w2).
    { unfold write_tables in Hw. rewrite Hr in Hw. unfold emit in Hw.
      injection Hw as <-. exact H4. }
    apply ensure_dir_done in H1 as [_ H1]. apply ensure_dir_done in H2 as [_ H2].
    cbn [w_fs] in H1. rewrite orb_false_r. rewrite H5.
    destruct (dry_run a).
    + split; [congruence|]. intros q m d L. congruence.
    + split; [eauto|]. intros q m d L.
      exact (mkdir_p_keeps now _ _ _ _ _ _ H2 (mkdir_p_keeps now _ _ _ _ _ _ H1 L)).
  - rewrite (main_without_input _ _ _ _ _ _ _ _ _ Hin) in H.
    injection H as _ <-. cbn [w_fs]. rewrite orb_true_r. split; [reflexivity|auto].
Qed.

(** The theorem on [tree_one_pair], whose only receipt finds no
    document. *)
Lemma X13_run_without_row_witness :
  exists r w',
    Sample.run Sample.normal_run Sample.tree_one_pair = Done r w'
    /\ rows r = []
    /\ FS.lookup (w_fs w') ["stamped"; "Report"; "Report.pdf"]
       = Some (File 10 "%PDF-A").
Proof.
  assert (H : exists r w',
            Sample.run Sample.normal_run Sample.tree_one_pair = Done r w'
            /\ rows r = []).
  { eexists _, _. split; vm_compute; reflexivity. }
  destruct H as (r & w' & H & Hr). exists r, w'. split; [exact H|]. split; [exact Hr|].
  exact (proj2 (proj2 (X13_run_without_row_writes_no_file _ _ _ _ _ _ _ _ _ _ _ H Hr))
           ["stamped"; "Report"; "Report.pdf"] 10%Z "%PDF-A" eq_refl).
Defined.

(** X14.  Outside a simulation, once the loop body has dealt with a
    matched pair, the directory of the record holds its two files:
    [proof.json] is the dump of a record whose [document] block has the
    computed digest, the size and the path of the document below the
    root, and [checksums.txt] is one line with the same digest and the
    same path.  The annexes that follow never write over them. *)
Theorem X14_record_files_are_written (repr : json -> string)
    (json_dumps : bool -> json -> string) (guess_type : string -> option string)
    (now : Z) (a : args) (d : string) (files : folder_files) (jname : string)
    (info : receipt_info) (pdf_match : string) (acc acc' : tables) (w w' : world) :
  dry_run a = false ->
  assemble repr json_dumps guess_type now a d files jname info pdf_match acc w
  = Done acc' w' ->
  exists size sha pj,
    FS.st_size (w_fs w) (STAMPED ++ [d; pdf_match]) = Ret size
    /\ sha256_file (w_fs w) (STAMPED ++ [d; pdf_match]) = Ret sha
    /\ jget (jget pj "document") "sha256" = JStr sha
    /\ jget (jget pj "document") "size_bytes" = JInt size
    /\ jget (jget pj "document") "filename" = JStr (rel_str (STAMPED ++ [d; pdf_match]))
    /\ let outdir :=
         BY_DOC ++ [build_slug_version (base_slug_of d) pdf_match d (anchored_utc info)] in
       FS.read_bytes (w_fs w') (outdir ++ ["proof.json"]) = Ret (json_dumps true pj)
       /\ FS.read_bytes (w_fs w') (outdir ++ ["checksums.txt"])
          = Ret ("SHA256  " ++ sha ++ "  "
                 ++ rel_str (STAMPED ++ [d; pdf_match])%list ++ newline)%string.
Proof.
  intros Hd H. unfold assemble in H. rewrite Hd in H.
  apply mbind_done in H as (r & w1 & Hr & H).
  apply mbind_done in H as ([] & w2 & Hw & H).
  unfold mret in H. injection H as _ <-.
  destruct (assemble_record_inv _ _ _ _ _ _ _ _ _ Hr)
    as (size & sha & Hsize & Hsha & Hslug & Hout & Hpath & _ & Hpj & _ & _ & _).
  apply write_proof_set_written in Hw as [W1 (line & Hl & W2)].
  exists size, sha, (a_proof_json r).
  split; [exact Hsize|]. split; [exact Hsha|].
  split; [rewrite Hpj; reflexivity|]. split; [rewrite Hpj; reflexivity|].
  split; [rewrite Hpj; reflexivity|].
  cbn zeta. rewrite <- Hslug, <- Hout. split; [exact W1|].
  rewrite W2. rewrite Hpj, checksum_line_made in Hl. injection Hl as <-.
  now rewrite Hpath.
Qed.

(** The theorem on the second document of [tree_two_docs]. *)
Lemma X14_record_files_witness :
  exists acc' w',
    assemble Sample.repr Sample.json_dumps Sample.guess_type Sample.now
      Sample.normal_run "Report_v2"
      {| jsons := ["B.json"]; pdf_canons := ["A.pdf"; "B.pdf"];
         attestations := []; screenshots := [] |}
      "B.json"
      {| proof_id := JStr "P1"; sha256 := Some Sample.hash_B; txid := None;
         block_height := JNull; anchored_utc := None; link := JNull |}
      "B.pdf" ([], []) {| w_fs := Sample.tree_two_docs; w_out := [] |}
    = Done acc' w'
    /\ FS.read_bytes (w_fs w') ["proofs"; "by-doc"; "report_v2"; "checksums.txt"]
       = Ret ("SHA256  " ++ Sample.hash_B ++ "  stamped/Report_v2/B.pdf" ++ newline)%string.
Proof.
  assert (H : exists acc' w',
            assemble Sample.repr Sample.json_dumps Sample.guess_type Sample.now
              Sample.normal_run "Report_v2"
              {| jsons := ["B.json"]; pdf_canons := ["A.pdf"; "B.pdf"];
                 attestations := []; screenshots := [] |}
              "B.json"
              {| proof_id := JStr "P1"; sha256 := Some Sample.hash_B; txid := None;
                 block_height := JNull; anchored_utc := None; link := JNull |}
              "B.pdf" ([], []) {| w_fs := Sample.tree_two_docs; w_out := [] |}
            = Done acc' w').
  { eexists _, _. vm_compute. reflexivity. }
  destruct H as (acc' & w' & H). exists acc', w'. split; [exact H|].
  destruct (X14_record_files_are_written _ _ _ _ Sample.normal_run _ _ _ _ _ _ _ _ _
              eq_refl H)
    as (size & sha & pj & _ & Hsha & _ & _ & _ & _ & Hc).
  assert (E : sha = Sample.hash_B).
  { assert (F : sha256_file Sample.tree_two_docs (STAMPED ++ ["Report_v2"; "B.pdf"])
                = Ret Sample.hash_B) by (vm_compute; reflexivity).
    cbn [w_fs] in Hsha. rewrite F in Hsha. now injection Hsha as <-. }
  rewrite E in Hc. exact Hc.
Defined.

(** *** The slug of the sibling tool *)

Lemma shift_upper_not_c3 (c : ascii) :
  is_upper_letter c = true -> not_c3 (shift_ascii 32 c) = true.
Proof.
  destruct c as [[] [] [] [] [] [] [] []]; try discriminate; reflexivity.
Qed.

Lemma lower_not_c3 (s : string) :
  forallb_str not_c3 s = true ->
  forallb_str not_c3 (lower s) = true.
Proof.
  induction s as [|c s IH]; [reflexivity|].
  intro H. cbn [forallb_str] in H. apply andb_true_iff in H as [Hc Hs].
  rewrite lower_cons. destruct (is_upper_letter c) eqn:U.
  - cbn [forallb_str]. now rewrite (shift_upper_not_c3 c U), (IH Hs).
  - destruct s as [|d s]; [cbn; now rewrite Hc|].
    unfold not_c3 in Hc. apply negb_true_iff in Hc. rewrite Hc. cbn [andb].
    cbn [forallb_str]. unfold not_c3 at 1. rewrite Hc. cbn [negb andb]. exact (IH Hs).
Qed.

Lemma translate_accents_not_c3 (s : string) :
  forallb_str not_c3 s = true -> translate_accents s = s.
Proof.
  induction s as [|c s IH]; [reflexivity|]. intro H.
  cbn [forallb_str] in H. apply andb_true_iff in H as [Hc Hs].
  unfold not_c3 in Hc. apply negb_true_iff in Hc.
  destruct s as [|d s]; [reflexivity|].
  cbn [translate_accents]. rewrite Hc. fold translate_accents.
  change (String c (translate_accents (String d s)) = String c (String d s)).
  now rewrite (IH Hs).
Qed.

(** X15.  The two tools name the directory of a document alike as long
    as its name has no letter of the accent table: on a name without the
    lead byte of the characters U+00C0 to U+00FF, the [slugify] of the
    extraction tool and the [slugify] of the importer return the same
    slug; and the slug of the extraction tool has the same shape on
    every name. *)
Theorem X15_both_tools_same_slug (name : string) :
  well_slugged (extract_slugify name) = true
  /\ (forallb_str not_c3 name = true -> extract_slugify name = slugify name).
Proof.
  split.
  - unfold extract_slugify. apply strip_squeeze_shape.
  - intro H. unfold extract_slugify, slugify.
    now rewrite (translate_accents_not_c3 _ (lower_not_c3 _ H)).
Qed.

(** The theorem on a name without accents; on an accented name the two
    slugs differ. *)
Lemma X15_both_tools_same_slug_witness :
  forallb_str not_c3 "Rapport Final (v2)" = true
  /\ extract_slugify "Rapport Final (v2)" = slugify "Rapport Final (v2)"
  /\ slugify "Rapport Final (v2)" = "rapport-final-v2"
  /\ extract_slugify "Résumé" <> slugify "Résumé".
Proof.
  split; [reflexivity|]. split; [|split; [reflexivity|discriminate]].
  exact (proj2 (X15_both_tools_same_slug "Rapport Final (v2)") eq_refl).
Defined.

(** X16.  When several documents of the folder have the base name of a
    receipt and the receipt declares no well-formed hash, the document
    taken is the oldest one: its modification time is the least among
    the documents with that base name. *)
Theorem X16_oldest_document_breaks_tie (d : string) (pdfs : list string)
    (idx : list (string * string)) (jname : string) (target : option string)
    (c1 c2 p : string) (w w' : world) :
  In c1 pdfs -> In c2 pdfs -> c1 <> c2 ->
  lower (base_of (stem c1)) = lower (base_of (stem jname)) ->
  lower (base_of (stem c2)) = lower (base_of (stem jname)) ->
  well_formed target = false ->
  match_pdf d (build_pdf_by_base pdfs) idx jname target w = Done (Some p) w' ->
  exists m,
    FS.st_mtime (w_fs w) (STAMPED ++ [d; p]) = Ret m
    /\ forall c, In c pdfs ->
         lower (base_of (stem c)) = lower (base_of (stem jname)) ->
         exists m', FS.st_mtime (w_fs w) (STAMPED ++ [d; c]) = Ret m' /\ (m <= m')%Z.
Proof.
  intros H1 H2 Hne B1 B2 W H. unfold match_pdf in H.
  pose proof (build_pdf_by_base_group pdfs (lower (base_of (stem jname)))) as G.
  assert (Hin : forall c, In c pdfs ->
                  lower (base_of (stem c)) = lower (base_of (stem jname)) ->
                  In c match assoc (lower (base_of (stem jname))) (build_pdf_by_base pdfs)
                       with Some cs => cs | None => [] end).
  { intros c Hc E. rewrite G. apply filter_In. split; [exact Hc|].
    now apply String.eqb_eq. }
  clear G.
  pose proof (Hin c1 H1 B1) as I1. pose proof (Hin c2 H2 B2) as I2.
  destruct (match assoc (lower (base_of (stem jname))) (build_pdf_by_base pdfs) with
            | Some cs => cs | None => [] end) as [|x [|y more]] eqn:Ec.
  - destruct I1.
  - destruct I1 as [<-|[]], I2 as [<-|[]]. now destruct Hne.
  - rewrite W in H. unfold mbind, mret in H. cbn beta iota in H.
    apply reading_done in H as [_ H].
    apply oldest_some in H as (_ & m & Hm & Hall).
    exists m. split; [exact Hm|]. intros c Hc E. apply Hall. now apply Hin.
Qed.

(** The theorem on [tree_same_base]: the receipt has the base name of
    both documents and is paired with the older one. *)
Lemma X16_oldest_document_witness :
  match_pdf "Doc" (build_pdf_by_base ["Report.pdf"; "report.PDF"]) [] "report.json" None
    {| w_fs := Sample.tree_same_base; w_out := [] |}
  = Done (Some "report.PDF") {| w_fs := Sample.tree_same_base; w_out := [] |}
  /\ exists m,
       FS.st_mtime Sample.tree_same_base (STAMPED ++ ["Doc"; "report.PDF"]) = Ret m
       /\ exists m',
            FS.st_mtime Sample.tree_same_base (STAMPED ++ ["Doc"; "Report.pdf"]) = Ret m'
            /\ (m <= m')%Z.
Proof.
  assert (H : match_pdf "Doc" (build_pdf_by_base ["Report.pdf"; "report.PDF"]) []
                "report.json" None {| w_fs := Sample.tree_same_base; w_out := [] |}
              = Done (Some "report.PDF")
                  {| w_fs := Sample.tree_same_base; w_out := [] |})
    by (vm_compute; reflexivity).
  split; [exact H|].
  destruct (X16_oldest_document_breaks_tie "Doc" ["Report.pdf"; "report.PDF"] []
              "report.json" None "Report.pdf" "report.PDF" "report.PDF" _ _
              (or_introl eq_refl) (or_intror (or_introl eq_refl))
              ltac:(discriminate) eq_refl eq_refl eq_refl H) as (m & Hm & Hall).
  exists m. split; [exact Hm|].
  exact (Hall "Report.pdf" (or_introl eq_refl) eq_refl).
Defined.

(** X17.  The two ways a receipt can be wrong are not treated alike.  A
    receipt that cannot be read or decoded is reported by a warning and
    skipped: the tables and the tree are what they were, and the loop
    goes on.  A receipt that decodes to something [parse_woleet_receipt]
    cannot read (a JSON value that is not an object, for one) is not
    caught: the exception stops the run at that receipt, with no
    warning. *)
Theorem X17_unreadable_is_skipped_malformed_stops (repr : json -> string)
    (fromisoformat : string -> option datetime)
    (json_loads : string -> option json) (json_dumps : bool -> json -> string)
    (guess_type : string -> option string) (now : Z)
    (a : args) (d : string) (files : folder_files)
    (pdf_by_base : list (string * list string)) (pdf_index : list (string * string))
    (acc : tables) (jname : string) (w : world) :
  let run :=
    import_receipt repr fromisoformat json_loads json_dumps guess_type now
      a d files pdf_by_base pdf_index acc jname w in
  let skipped :=
    Done acc {| w_fs := w_fs w; w_out := w_out w ++ [WarnBadJson d jname] |} in
  (forall e, FS.read_bytes (w_fs w) (STAMPED ++ [d; jname]) = Raise e -> run = skipped)
  /\ (forall text, FS.read_bytes (w_fs w) (STAMPED ++ [d; jname]) = Ret text ->
        json_loads text = None -> run = skipped)
  /\ (forall text v, FS.read_bytes (w_fs w) (STAMPED ++ [d; jname]) = Ret text ->
        json_loads text = Some v ->
        (forall kv, v <> JObj kv) -> run = Stopped BadValue w)
  /\ (forall text v e, FS.read_bytes (w_fs w) (STAMPED ++ [d; jname]) = Ret text ->
        json_loads text = Some v ->
        parse_woleet_receipt repr fromisoformat v = Raise e ->
        run = Stopped BadValue w).
Proof.
  cbn zeta. unfold import_receipt, bind.
  assert (P : forall text v e,
            FS.read_bytes (w_fs w) (STAMPED ++ [d; jname]) = Ret text ->
            json_loads text = Some v ->
            parse_woleet_receipt repr fromisoformat v = Raise e ->
            match
              match FS.read_bytes (w_fs w) (STAMPED ++ [d; jname]) with
              | Ret text0 =>
                  match json_loads text0 with
                  | Some v0 => Ret v0
                  | None => Raise BadValue
                  end
              | Raise e0 => Raise e0
              end
            with
            | Ret jdata =>
                (info <- lift (parse_woleet_receipt repr fromisoformat jdata) ;;
                 m <- match_pdf d pdf_by_base pdf_index jname (sha256 info) ;;
                 match m with
                 | Some pdf_match =>
                     assemble repr json_dumps guess_type now a d files jname info
                       pdf_match acc
                 | None => mret acc
                 end) w
            | Raise _ => (emit (WarnBadJson d jname) ;; mret acc) w
            end = Stopped BadValue w).
  { intros text v e Hr Hj Hp. rewrite Hr, Hj.
    unfold mbind at 1. unfold lift, reading. rewrite Hp.
    now rewrite (parse_woleet_receipt_raise _ _ _ _ Hp). }
  repeat split.
  - intros e Hr. now rewrite Hr.
  - intros text Hr Hj. now rewrite Hr, Hj.
  - intros text v Hr Hj Hv.
    destruct (parse_woleet_receipt repr fromisoformat v) as [info|e] eqn:Hp.
    + destruct v; try discriminate. now destruct (Hv kv).
    + exact (P text v e Hr Hj Hp).
  - exact P.
Qed.

(** The theorem on [tree_bad_receipts]: the first receipt is skipped, the
    second stops the run. *)
Lemma X17_unreadable_is_skipped_witness :
  FS.read_bytes Sample.tree_bad_receipts (STAMPED ++ ["Doc"; "broken.json"]) = Ret "{oops"
  /\ Sample.json_loads "{oops" = None
  /\ import_receipt Sample.repr Sample.fromisoformat Sample.json_loads
       Sample.json_dumps Sample.guess_type Sample.now Sample.normal_run "Doc"
       {| jsons := ["broken.json"; "list.json"]; pdf_canons := ["Doc.pdf"];
          attestations := []; screenshots := [] |} [] [] ([], []) "broken.json"
       {| w_fs := Sample.tree_bad_receipts; w_out := [] |}
     = Done ([], []) {| w_fs := Sample.tree_bad_receipts;
                        w_out := [WarnBadJson "Doc" "broken.json"] |}
  /\ exists w', Sample.run Sample.normal_run Sample.tree_bad_receipts
                = Stopped BadValue w'.
Proof.
  split; [reflexivity|]. split; [reflexivity|]. split.
  - exact (proj1 (proj2 (X17_unreadable_is_skipped_malformed_stops
                           Sample.repr Sample.fromisoformat Sample.json_loads
                           Sample.json_dumps Sample.guess_type Sample.now
                           Sample.normal_run "Doc"
                           {| jsons := ["broken.json"; "list.json"];
                              pdf_canons := ["Doc.pdf"];
                              attestations := []; screenshots := [] |} [] [] ([], [])
                           "broken.json"
                           {| w_fs := Sample.tree_bad_receipts; w_out := [] |}))
             "{oops" eq_refl eq_refl).
  - eexists. vm_compute. reflexivity.
Defined.

(** *** Two records in one directory *)

Section Collision.

Variable repr : json -> string.
Variable json_dumps : bool -> json -> string.
Variable guess_type : string -> option string.
Variable now : Z.

(** [mkdir] puts nothing in the directory it makes. *)
Lemma mkdir_p_child (p : path) (x : string) (fs fs' : node) :
  FS.mkdir_p now fs p = Ret fs' ->
  FS.lookup fs (p ++ [x]) = None ->
  FS.lookup fs' (p ++ [x]) = None.
Proof.
  revert fs fs'. induction p as [|y p IH]; intros fs fs' H L.
  - destruct fs; cbn in H; try discriminate. now injection H as <-.
  - destruct fs as [| m es |]; cbn [FS.mkdir_p] in H; try discriminate.
    destruct (FS.mkdir_p now _ p) as [c'|] eqn:Ec; [|discriminate].
    injection H as <-. cbn [app FS.lookup] in *. unfold FS.set_entry.
    rewrite assoc_dict_set, String.eqb_refl.
    apply (IH _ _ Ec). destruct (assoc y es) as [c|]; [exact L|].
    now destruct p.
Qed.

(** The receipt annex of a call that finds none is the receipt of that
    call, with its date. *)
Lemma write_proof_set_annex (outdir : path) (pj : json) (pdf_path rpath : path)
    (att : option path) (shots : list path) (v : bool) (w w' : world)
    (m : Z) (d : string) :
  write_proof_set repr json_dumps now outdir pj pdf_path rpath att shots false false v w
    = Done tt w' ->
  FS.exists_ (w_fs w) (outdir ++ ["woleet_receipt.json"]) = false ->
  rpath <> outdir ++ ["proof.json"] -> rpath <> outdir ++ ["checksums.txt"] ->
  FS.lookup (w_fs w) rpath = Some (File m d) ->
  FS.lookup (w_fs w') (outdir ++ ["woleet_receipt.json"]) = Some (File m d).
Proof.
  intros H Hex Hn1 Hn2 L.
  destruct (write_proof_set_steps _ _ _ _ _ _ _ _ _ _ _ _ _ H)
    as (fs0 & fs1 & fs2 & line & fs3 & w4 & w5 & H0 & H1 & H2 & _ & H3 & H4 & H5 & H6).
  unfold FS.write_file in H1, H2, H3.
  assert (N0 : FS.lookup (w_fs w) (outdir ++ ["woleet_receipt.json"]) = None).
  { unfold FS.exists_ in Hex. now destruct (FS.lookup (w_fs w) _). }
  pose proof (mkdir_p_child _ _ _ _ H0 N0) as N0'.
  assert (N1 : FS.lookup fs1 (outdir ++ ["woleet_receipt.json"]) = None).
  { rewrite (put_leaf_sibling now _ _ _ _ "woleet_receipt.json" _ _ H1); [exact N0'|].
    discriminate. }
  assert (N2 : FS.lookup fs2 (outdir ++ ["woleet_receipt.json"]) = None).
  { rewrite (put_leaf_sibling now _ _ _ _ "woleet_receipt.json" _ _ H2); [exact N1|].
    discriminate. }
  assert (N3 : FS.lookup fs3 (outdir ++ ["woleet_receipt.json"]) = None).
  { rewrite (put_leaf_sibling now _ _ _ _ "woleet_receipt.json" _ _ H3); [exact N2|].
    discriminate. }
  pose proof (mkdir_p_keeps now _ _ _ _ _ _ H0 L) as L0.
  pose proof (put_leaf_keeps now _ _ _ _ _ _ _ _ H1 Hn1 L0) as L1.
  pose proof (put_leaf_keeps now _ _ _ _ _ _ _ _ H2 Hn2 L1) as L2.
  pose proof (put_leaf_keeps now _ _ _ _ _ _ _ _ H3 Hn2 L2) as L3.
  assert (A4 : FS.lookup (w_fs w4) (outdir ++ ["woleet_receipt.json"])
               = Some (File m d)).
  { unfold copy_or_link in H4. unfold FS.exists_ in H4. cbn [w_fs] in H4.
    rewrite N3 in H4.
    apply writing_done in H4 as [H4 _]. unfold FS.copy2 in H4. cbn [w_fs] in H4.
    rewrite L3 in H4.
    exact (put_leaf_lookup now _ _ _ _ _ H4). }
  assert (A5 : FS.lookup (w_fs w5) (outdir ++ ["woleet_receipt.json"])
               = Some (File m d)).
  { destruct att as [x|].
    - exact (copy_or_link_keeps now _ _ _ _ _ _ _ _ _ _ H5 A4).
    - unfold mret in H5. now injection H5 as <-. }
  destruct shots as [|sh shots].
  - unfold mret in H6. now injection H6 as <-.
  - exact (copy_or_link_keeps now _ _ _ _ _ _ _ _ _ _ H6 A5).
Qed.

End Collision.

(** X18.  Two pairs of one folder whose documents carry no version token
    get the same composite slug, hence the same directory.  Outside a
    simulation and in copy mode, after the loop body has dealt with both,
    that directory mixes them: [proof.json] and [checksums.txt] are those
    of the second pair, the receipt annex is still the receipt of the
    first (an annex is never replaced), and the tables have one row for
    each pair, both with that slug. *)
Theorem X18_same_slug_mixes_two_records (repr : json -> string)
    (json_dumps : bool -> json -> string) (guess_type : string -> option string)
    (now : Z) (a : args) (d : string) (files : folder_files)
    (j1 j2 p1 p2 : string) (info1 info2 : receipt_info)
    (acc acc1 acc2 : tables) (w w1 w2 : world) (m : Z) (text1 : string) :
  dry_run a = false -> symlink a = false ->
  parse_version_from_name p1 = None -> parse_version_from_name p2 = None ->
  let slug := build_slug_version (base_slug_of d) p1 d (anchored_utc info1) in
  let outdir := BY_DOC ++ [slug] in
  FS.exists_ (w_fs w) (outdir ++ ["woleet_receipt.json"]) = false ->
  FS.lookup (w_fs w) (STAMPED ++ [d; j1]) = Some (File m text1) ->
  assemble repr json_dumps guess_type now a d files j1 info1 p1 acc w = Done acc1 w1 ->
  assemble repr json_dumps guess_type now a d files j2 info2 p2 acc1 w1 = Done acc2 w2 ->
  exists sha2 row1 row2 pj2,
    sha256_file (w_fs w) (STAMPED ++ [d; p2]) = Ret sha2
    /\ FS.read_bytes (w_fs w2) (outdir ++ ["proof.json"]) = Ret (json_dumps true pj2)
    /\ jget (jget pj2 "document") "sha256" = JStr sha2
    /\ jget (jget pj2 "document") "filename" = JStr (rel_str (STAMPED ++ [d; p2]))
    /\ FS.read_bytes (w_fs w2) (outdir ++ ["checksums.txt"])
       = Ret ("SHA256  " ++ sha2 ++ "  " ++ rel_str (STAMPED ++ [d; p2])%list
              ++ newline)%string
    /\ FS.lookup (w_fs w2) (outdir ++ ["woleet_receipt.json"]) = Some (File m text1)
    /\ fst acc2 = fst acc ++ [row1; row2]
    /\ dget row1 "slug" = JStr slug /\ dget row2 "slug" = JStr slug
    /\ dget row1 "filename" = JStr (rel_str (STAMPED ++ [d; p1]))
    /\ dget row2 "filename" = JStr (rel_str (STAMPED ++ [d; p2])).
Proof.
  intros Hd Hs V1 V2 slug outdir Hex L A1 A2.
  assert (Eslug : build_slug_version (base_slug_of d) p2 d (anchored_utc info2) = slug).
  { unfold slug, build_slug_version. now rewrite V1, V2. }
  assert (Same : same_input (w_fs w) (w_fs w1)).
  { pose proof (keeps_assemble repr json_dumps guess_type now a d files j1 info1 p1
                  acc w) as K.
    rewrite A1 in K. exact (proj1 K). }
  unfold assemble in A1, A2. rewrite Hd, Hs in A1, A2.
  apply mbind_done in A1 as (r1 & u1 & R1 & A1).
  apply mbind_done in A1 as ([] & u2 & W1 & A1).
  unfold mret in A1. injection A1 as E1 Eu2.
  apply mbind_done in A2 as (r2 & u3 & R2 & A2).
  apply mbind_done in A2 as ([] & u4 & W2 & A2).
  unfold mret in A2. injection A2 as E2 Eu4. subst u2 u4.
  destruct (assemble_record_inv _ _ _ _ _ _ _ _ _ R1)
    as (size1 & sha1 & _ & _ & S1 & O1 & _ & _ & _ & Row1 & _ & F1).
  destruct (assemble_record_inv _ _ _ _ _ _ _ _ _ R2)
    as (size2 & sha2 & _ & Hsha2 & S2 & O2 & P2 & _ & Pj2 & Row2 & _ & F2).
  fold slug in S1. rewrite Eslug in S2. rewrite S1 in O1. rewrite S2 in O2.
  fold outdir in O1, O2. rewrite O1 in W1. rewrite O2 in W2.
  assert (An1 : FS.lookup (w_fs w1) (outdir ++ ["woleet_receipt.json"])
                = Some (File m text1)).
  { apply (write_proof_set_annex _ _ _ _ _ _ _ _ _ _ _ _ _ _ W1).
    - now rewrite F1.
    - discriminate.
    - discriminate.
    - now rewrite F1. }
  assert (An2 : FS.lookup (w_fs w2) (outdir ++ ["woleet_receipt.json"])
                = Some (File m text1)).
  { rewrite <- An1. rewrite <- F2.
    apply (write_proof_set_frame _ _ _ _ _ _ _ _ _ _ _ _ _ _ W2); try discriminate.
    unfold FS.exists_. now rewrite F2, An1. }
  destruct (write_proof_set_written _ _ _ _ _ _ _ _ _ _ _ _ _ W2)
    as [Wp (line & Hl & Wc)].
  exists sha2, (a_row r1), (a_row r2), (a_proof_json r2).
  split; [rewrite (reads_sha256_file [d; p2] _ _ Same); exact Hsha2|].
  split; [exact Wp|].
  split; [rewrite Pj2; reflexivity|]. split; [rewrite Pj2; reflexivity|].
  split.
  { rewrite Wc. rewrite Pj2, checksum_line_made in Hl. injection Hl as <-.
    now rewrite P2. }
  split; [exact An2|].
  split.
  { rewrite <- E2, <- E1. cbn [fst]. now rewrite <- app_assoc. }
  rewrite Row1, Row2, S1, S2. repeat split; reflexivity.
Qed.

(** The theorem on [tree_two_pairs]: after both pairs the directory
    [report_v2] has the record of [B.pdf] and the receipt of [A.pdf]. *)
Lemma X18_same_slug_witness :
  exists acc1 w1 acc2 w2,
    assemble Sample.repr Sample.json_dumps Sample.guess_type Sample.now
      Sample.normal_run "Report_v2" no_files "A.json"
      {| proof_id := JStr "PA"; sha256 := None; txid := None;
         block_height := JNull; anchored_utc := None; link := JNull |}
      "A.pdf" ([], []) {| w_fs := Sample.tree_two_pairs; w_out := [] |}
    = Done acc1 w1
    /\ assemble Sample.repr Sample.json_dumps Sample.guess_type Sample.now
         Sample.normal_run "Report_v2" no_files "B.json"
         {| proof_id := JStr "PB"; sha256 := None; txid := None;
            block_height := JNull; anchored_utc := None; link := JNull |}
         "B.pdf" acc1 w1
       = Done acc2 w2
    /\ FS.lookup (w_fs w2) ["proofs"; "by-doc"; "report_v2"; "woleet_receipt.json"]
       = FS.lookup Sample.tree_two_pairs ["stamped"; "Report_v2"; "A.json"]
    /\ FS.read_bytes (w_fs w2) ["proofs"; "by-doc"; "report_v2"; "checksums.txt"]
       = Ret ("SHA256  " ++ Sample.hash_B ++ "  stamped/Report_v2/B.pdf" ++ newline)%string.
Proof.
  assert (H : exists acc1 w1 acc2 w2,
            assemble Sample.repr Sample.json_dumps Sample.guess_type Sample.now
              Sample.normal_run "Report_v2" no_files "A.json"
              {| proof_id := JStr "PA"; sha256 := None; txid := None;
                 block_height := JNull; anchored_utc := None; link := JNull |}
              "A.pdf" ([], []) {| w_fs := Sample.tree_two_pairs; w_out := [] |}
            = Done acc1 w1
            /\ assemble Sample.repr Sample.json_dumps Sample.guess_type Sample.now
                 Sample.normal_run "Report_v2" no_files "B.json"
                 {| proof_id := JStr "PB"; sha256 := None; txid := None;
                    block_height := JNull; anchored_utc := None; link := JNull |}
                 "B.pdf" acc1 w1
               = Done acc2 w2).
  { eexists _, _, _, _. split; [vm_compute; reflexivity|vm_compute; reflexivity]. }
  destruct H as (acc1 & w1 & acc2 & w2 & H1 & H2).
  exists acc1, w1, acc2, w2. split; [exact H1|]. split; [exact H2|].
  destruct (X18_same_slug_mixes_two_records Sample.repr Sample.json_dumps
              Sample.guess_type Sample.now Sample.normal_run "Report_v2" no_files
              "A.json" "B.json" "A.pdf" "B.pdf"
              {| proof_id := JStr "PA"; sha256 := None; txid := None;
                 block_height := JNull; anchored_utc := None; link := JNull |}
              {| proof_id := JStr "PB"; sha256 := None; txid := None;
                 block_height := JNull; anchored_utc := None; link := JNull |}
              ([], []) acc1 acc2 {| w_fs := Sample.tree_two_pairs; w_out := [] |}
              w1 w2 30%Z (Sample.quoted "{'id': 'PA'}")
              eq_refl eq_refl eq_refl eq_refl eq_refl eq_refl H1 H2)
    as (sha2 & row1 & row2 & pj2 & Hsha & _ & _ & _ & Hc & Ha & _).
  split; [exact Ha|].
  assert (E : sha2 = Sample.hash_B).
  { assert (F : sha256_file Sample.tree_two_pairs (STAMPED ++ ["Report_v2"; "B.pdf"])
                = Ret Sample.hash_B) by (vm_compute; reflexivity).
    cbn [w_fs] in Hsha. rewrite F in Hsha. now injection Hsha as <-. }
  rewrite E in Hc. exact Hc.
Defined.

(** *** Base names *)

Lemma at_dollar_length (r : string) : at_dollar r = true -> (length r <= 1)%nat.
Proof.
  unfold at_dollar. intro H. apply orb_true_iff in H as [H|H];
    apply String.eqb_eq in H; subst r; cbn; lia.
Qed.

Lemma length_drop (n : nat) (s : string) : length (drop n s) = (length s - n)%nat.
Proof.
  revert s. induction n as [|n IH]; intro s; [cbn; lia|].
  destruct s as [|c s]; [reflexivity|]. cbn. apply IH.
Qed.

Lemma prefix_length (p s : string) : prefix p s = true -> (length p <= length s)%nat.
Proof.
  revert s. induction p as [|a p IH]; intros s H; [cbn; lia|].
  destruct s as [|b s]; [discriminate|]. cbn in H.
  destruct (ascii_dec a b); [|discriminate]. cbn. apply IH in H. lia.
Qed.

Lemma prefix_cons (a b : ascii) (p s : string) :
  prefix (String a p) (String b s) = true -> a = b /\ prefix p s = true.
Proof. cbn [prefix]. destruct (ascii_dec a b); [auto|discriminate]. Qed.

(** The fourth character of a text of three characters followed by an
    underscore is still the underscore once the text is put in lower
    case. *)
Lemma lower_fourth (c1 c2 c3 : ascii) (rest : string) :
  exists x1 x2 x3, lower (String c1 (String c2 (String c3 (String "_" rest))))
                   = String x1 (String x2 (String x3 (String "_" (lower rest)))).
Proof.
  assert (U : is_upper_letter "_" = false) by reflexivity.
  assert (T : is_latin1_upper_tail "_" = false) by reflexivity.
  assert (L : lower (String "_" rest) = String "_" (lower rest)).
  { rewrite lower_cons, U. destruct rest as [|r rest]; [reflexivity|].
    replace ("_" =? lead_c3)%char with false by reflexivity. reflexivity. }
  assert (L3 : exists x3, lower (String c3 (String "_" rest))
                          = String x3 (String "_" (lower rest))).
  { rewrite lower_cons. destruct (is_upper_letter c3); [rewrite L; eauto|].
    rewrite T, andb_false_r, L. eauto. }
  assert (L2 : exists x2 x3, lower (String c2 (String c3 (String "_" rest)))
                             = String x2 (String x3 (String "_" (lower rest)))).
  { destruct L3 as [x3 E3]. rewrite lower_cons.
    destruct (is_upper_letter c2); [rewrite E3; eauto|].
    destruct ((c2 =? lead_c3)%char && is_latin1_upper_tail c3); [rewrite L|rewrite E3]; eauto. }
  destruct L2 as (x2 & x3 & E2). destruct L3 as [y3 E3]. rewrite lower_cons.
  destruct (is_upper_letter c1); [rewrite E2; eauto|].
  destruct ((c1 =? lead_c3)%char && is_latin1_upper_tail c2); [rewrite E3|rewrite E2]; eauto.
Qed.

Lemma word_to_dollar_before_receipt (t : string) :
  word_to_dollar (t ++ "_receipt") = None.
Proof.
  unfold word_to_dollar.
  destruct (prefix "attestation" (lower (t ++ "_receipt"))
            && at_dollar (drop 11 (t ++ "_receipt"))) eqn:A.
  - exfalso. apply andb_true_iff in A as [P D].
    pose proof (prefix_length _ _ P) as Pl. pose proof (at_dollar_length _ D) as Dl.
    rewrite length_lower, length_append in Pl. rewrite length_drop, length_append in Dl.
    cbn in Pl, Dl.
    destruct t as [|c1 [|c2 [|c3 [|c4 [|c5 t]]]]]; cbn in Pl, Dl; try lia;
      [|discriminate].
    clear Pl D Dl. revert P. cbn [append].
    destruct (lower_fourth c1 c2 c3 "receipt") as (x1 & x2 & x3 & ->).
    intro P. apply prefix_cons in P as [_ P]. apply prefix_cons in P as [_ P].
    apply prefix_cons in P as [_ P]. apply prefix_cons in P as [E _]. discriminate.
  - destruct (prefix "receipt" (lower (t ++ "_receipt"))
              && at_dollar (drop 7 (t ++ "_receipt"))) eqn:R; [|reflexivity].
    exfalso. apply andb_true_iff in R as [P D].
    apply at_dollar_length in D. rewrite length_drop, length_append in D. cbn in D.
    destruct t as [|c t]; [discriminate|]. cbn in D. lia.
Qed.

Lemma word_to_dollar_before_attestation (t : string) :
  word_to_dollar (t ++ "_attestation") = None.
Proof.
  unfold word_to_dollar.
  destruct (prefix "attestation" (lower (t ++ "_attestation"))
            && at_dollar (drop 11 (t ++ "_attestation"))) eqn:A.
  - exfalso. apply andb_true_iff in A as [P D].
    apply at_dollar_length in D. rewrite length_drop, length_append in D. cbn in D.
    destruct t as [|c t]; [discriminate|]. cbn in D. lia.
  - destruct (prefix "receipt" (lower (t ++ "_attestation"))
              && at_dollar (drop 7 (t ++ "_attestation"))) eqn:R; [|reflexivity].
    exfalso. apply andb_true_iff in R as [_ D].
    apply at_dollar_length in D. rewrite length_drop, length_append in D. cbn in D. lia.
Qed.

Lemma base_of_strips (word s : string) :
  (forall t, word_to_dollar (t ++ word) = None) ->
  base_of word = "" ->
  base_of (s ++ word) = s.
Proof.
  intros Hw Hb. induction s as [|c s IH]; [exact Hb|].
  cbn [append base_of]. rewrite (Hw s).
  change (String c (s ++ word)) with (String c s ++ word)%string. rewrite (Hw (String c s)).
  destruct (c =? "_")%char; cbn [append]; now rewrite IH.
Qed.

Lemma rsplit_dot_ext (x ext : string) :
  rsplit_dot ext = Some ("", ext) ->
  rsplit_dot (x ++ ext) = Some (x, ext).
Proof.
  intro H. induction x as [|c x IH]; [exact H|].
  cbn [append rsplit_dot]. now rewrite IH.
Qed.

Lemma stem_ext (x ext : string) :
  rsplit_dot ext = Some ("", ext) -> (2 <= length ext)%nat -> x <> "" ->
  stem (x ++ ext) = x /\ suffix (x ++ ext) = ext.
Proof.
  intros H L Hx. unfold stem, suffix. rewrite (rsplit_dot_ext _ _ H).
  apply String.eqb_neq in Hx. rewrite Hx. apply Nat.leb_le in L. rewrite L.
  now split.
Qed.

(** X19.  The naming convention of the folders works as the words say:
    [base_of] removes a final [_receipt] or [_attestation] and nothing
    before it, so that a receipt named after a document, with either
    word added, has the base name of that document whenever the name of
    the document does not itself end with one of the two words. *)
Theorem X19_receipt_named_after_document (s : string) :
  base_of (s ++ "_receipt") = s
  /\ base_of (s ++ "_attestation") = s
  /\ (s <> "" -> base_of s = s ->
      lower (base_of (stem (s ++ "_receipt.json"))) = lower (base_of (stem (s ++ ".pdf")))
      /\ lower (base_of (stem (s ++ "_attestation.json")))
         = lower (base_of (stem (s ++ ".pdf")))
      /\ lower (base_of (stem (s ++ ".json"))) = lower (base_of (stem (s ++ ".pdf")))).
Proof.
  assert (R : base_of (s ++ "_receipt") = s)
    by (apply base_of_strips; [apply word_to_dollar_before_receipt|reflexivity]).
  assert (A : base_of (s ++ "_attestation") = s)
    by (apply base_of_strips; [apply word_to_dollar_before_attestation|reflexivity]).
  split; [exact R|]. split; [exact A|]. intros Hs Hb.
  assert (N : forall w, (s ++ w)%string = "" -> False).
  { intros w E. destruct s; [now apply Hs|discriminate]. }
  destruct (stem_ext s ".pdf" eq_refl ltac:(cbn; lia) Hs) as [Sp _].
  destruct (stem_ext s ".json" eq_refl ltac:(cbn; lia) Hs) as [Sj _].
  destruct (stem_ext (s ++ "_receipt") ".json" eq_refl ltac:(cbn; lia)
              (fun E => N _ E)) as [Sr _].
  destruct (stem_ext (s ++ "_attestation") ".json" eq_refl ltac:(cbn; lia)
              (fun E => N _ E)) as [Sa _].
  rewrite append_assoc in Sr, Sa. cbn [append] in Sr, Sa.
  rewrite Sp, Sj, Sr, Sa, R, A, Hb. repeat split; reflexivity.
Qed.

(** The theorem on the name [Report]. *)
Lemma X19_receipt_named_after_document_witness :
  "Report"%string <> ""%string /\ base_of "Report" = "Report"
  /\ lower (base_of (stem "Report_receipt.json")) = lower (base_of (stem "Report.pdf")).
Proof.
  split; [discriminate|]. split; [reflexivity|].
  exact (proj1 (proj2 (proj2 (X19_receipt_named_after_document "Report"))
                  ltac:(discriminate) eq_refl)).
Defined.

(** *** The extraction tool *)

(** X20.  One turn of the loop of the extraction tool leaves, in the
    directory named by the slug of the file name, a [proof.json] that is
    the dump of the record it returns and a [checksums.txt] of one line
    with the computed digest and the path of the document; the row it
    returns has the eleven columns of the importer's header, with the
    slug, the title taken from the file name and an empty version, and
    the record has no version. *)
Theorem X20_extract_pdf_writes_its_record (json_dumps : bool -> json -> string)
    (guess_type : string -> option string) (now : Z)
    (rel : path) (proof : footer_proof) (w w' : world) (pj : json) (r : row) :
  extract_pdf json_dumps guess_type now rel proof w = Done (pj, r) w' ->
  exists size sha,
    FS.st_size (w_fs w) rel = Ret size
    /\ sha256_file (w_fs w) rel = Ret sha
    /\ let base := stem (last rel "") in
       let pdir := BY_DOC ++ [extract_slugify base] in
       FS.read_bytes (w_fs w') (pdir ++ ["proof.json"]) = Ret (json_dumps true pj)
       /\ FS.read_bytes (w_fs w') (pdir ++ ["checksums.txt"])
          = Ret ("SHA256  " ++ sha ++ "  " ++ String.concat "/" rel ++ newline)%string
       /\ map fst r = headers
       /\ dget r "slug" = JStr (extract_slugify base)
       /\ dget r "title" = JStr base
       /\ dget r "version" = JStr ""
       /\ dget r "size_bytes" = JInt size
       /\ jget (jget pj "document") "slug" = JStr (extract_slugify base)
       /\ jget (jget pj "document") "version" = JNull.
Proof.
  intro H. unfold extract_pdf in H.
  apply mbind_done in H as ([] & w0 & H0 & H).
  apply mbind_done in H as (size & w1 & H1 & H).
  apply mbind_done in H as (sha & w2 & H2 & H).
  apply mbind_done in H as ([] & w3 & H3 & H).
  apply mbind_done in H as ([] & w4 & H4 & H).
  apply mbind_done in H as ([] & w5 & H5 & H).
  apply mbind_done in H as ([] & w6 & H6 & H).
  unfold mret in H. injection H as <- <- <-.
  unfold emit in H0. injection H0 as <-.
  apply reading_done in H1 as [-> H1]. apply reading_done in H2 as [-> H2].
  cbn [w_fs] in H1, H2.
  apply writing_done in H5 as [H5 _]. apply writing_done in H6 as [H6 _].
  unfold FS.write_file in H5, H6.
  pose proof (put_leaf_lookup now _ _ _ _ _ H5) as L5.
  pose proof (put_leaf_lookup now _ _ _ _ _ H6) as L6.
  assert (Hne : BY_DOC ++ [extract_slugify (stem (last rel ""))] ++ ["proof.json"]
                <> BY_DOC ++ [extract_slugify (stem (last rel ""))] ++ ["checksums.txt"])
    by (cbn; intro E; injection E; discriminate).
  rewrite <- !app_assoc in H5, H6, L5, L6.
  pose proof (put_leaf_keeps now _ _ _ _ _ _ _ _ H6 Hne L5) as L5'.
  exists size, sha. split; [exact H1|]. split; [exact H2|].
  cbn zeta. rewrite <- !app_assoc.
  split; [exact (read_bytes_lookup _ _ _ _ L5')|].
  split; [exact (read_bytes_lookup _ _ _ _ L6)|].
  repeat split; reflexivity.
Qed.

(** The theorem on the document of [tree_docs]. *)
Lemma X20_extract_pdf_witness :
  exists pj r w',
    extract_pdf Sample.json_dumps Sample.guess_type Sample.now
      ["docs"; "Guide Final.pdf"]
      {| f_sha256 := None; f_bitcoin_txid := None; f_woleet_proof_id := None;
         f_anchored_utc := None |}
      {| w_fs := Sample.tree_docs; w_out := [] |}
    = Done (pj, r) w'
    /\ FS.read_bytes (w_fs w') ["proofs"; "by-doc"; "guide-final"; "checksums.txt"]
       = Ret ("SHA256  " ++ Sample.hash_B ++ "  docs/Guide Final.pdf" ++ newline)%string.
Proof.
  assert (H : exists pj r w',
            extract_pdf Sample.json_dumps Sample.guess_type Sample.now
              ["docs"; "Guide Final.pdf"]
              {| f_sha256 := None; f_bitcoin_txid := None; f_woleet_proof_id := None;
                 f_anchored_utc := None |}
              {| w_fs := Sample.tree_docs; w_out := [] |}
            = Done (pj, r) w').
  { eexists _, _, _. vm_compute. reflexivity. }
  destruct H as (pj & r & w' & H). exists pj, r, w'. split; [exact H|].
  destruct (X20_extract_pdf_writes_its_record _ _ _ _ _ _ _ _ _ H)
    as (size & sha & _ & Hsha & _ & Hc & _).
  assert (E : sha = Sample.hash_B).
  { assert (F : sha256_file Sample.tree_docs ["docs"; "Guide Final.pdf"]
                = Ret Sample.hash_B) by (vm_compute; reflexivity).
    cbn [w_fs] in Hsha. rewrite F in Hsha. now injection Hsha as <-. }
  rewrite E in Hc. exact Hc.
Defined.
(** *** The footer of a document *)

Lemma boundary_before_snoc (pre : string) (c : ascii) :
  boundary_before (pre ++ String c EmptyString) = negb (is_word c).
Proof.
  induction pre as [|x pre IH]; [reflexivity|].
  cbn [append boundary_before]. destruct pre; exact IH.
Qed.

Lemma take_app_length (pre s : string) : take (length pre) (pre ++ s) = pre.
Proof. induction pre as [|c pre IH]; [now destruct s|]. cbn. now rewrite IH. Qed.

Lemma drop_app_length (pre s : string) : drop (length pre) (pre ++ s) = s.
Proof. induction pre as [|c pre IH]; [now destruct s|]. cbn. exact IH. Qed.

Lemma append_snoc (pre : string) (c : ascii) (s : string) :
  (pre ++ String c s = (pre ++ String c EmptyString) ++ s)%string.
Proof. now rewrite append_assoc. Qed.

Lemma length_snoc (pre : string) (c : ascii) :
  length (pre ++ String c EmptyString) = S (length pre).
Proof. rewrite length_append. cbn. lia. Qed.

(** The place right after [pre] in the text [pre ++ s]. *)
Lemma occurs_at_here (here : string -> bool) (pre : string) (c : ascii) (s : string) :
  occurs_at here (pre ++ String c s) (length pre)
  = boundary_before pre && here (String c s).
Proof.
  unfold occurs_at. rewrite take_app_length, drop_app_length, length_append.
  assert (L : (length pre <? length pre + length (String c s))%nat = true)
    by (apply Nat.ltb_lt; cbn [length]; lia).
  now rewrite L.
Qed.

Section Places.

Variable here : string -> bool.
Variable n : nat.

(** The first match of a scan that is not inside a match is the first
    place of the pattern from there on. *)
Lemma findall_head (s : string) :
  forall pre prev,
    prev = negb (boundary_before pre) ->
    match findall here n 0 prev s with
    | [] =>
        forall j, (length pre <= j)%nat -> occurs_at here (pre ++ s) j = false
    | m :: _ =>
        exists k, (length pre <= k)%nat
                  /\ occurs_at here (pre ++ s) k = true
                  /\ (forall j, (length pre <= j < k)%nat ->
                                occurs_at here (pre ++ s) j = false)
                  /\ m = take (S n) (drop k (pre ++ s))
    end.
Proof.
  induction s as [|c s IH]; intros pre prev Hp.
  - cbn [findall]. intros j Hj. unfold occurs_at. rewrite length_append.
    cbn [length]. destruct (Nat.ltb_spec j (length pre + 0)); [lia|reflexivity].
  - cbn [findall]. pose proof (occurs_at_here here pre c s) as O.
    rewrite Hp, negb_involutive.
    destruct (boundary_before pre && here (String c s)) eqn:E.
    + exists (length pre). split; [lia|]. split; [exact O|].
      split; [intros j Hj; lia|]. now rewrite drop_app_length.
    + specialize (IH (pre ++ String c EmptyString)%string (is_word c)).
      rewrite boundary_before_snoc, negb_involutive, length_snoc, <- append_snoc in IH.
      specialize (IH eq_refl).
      destruct (findall here n 0 (is_word c) s) as [|m l].
      * intros j Hj. destruct (Nat.eq_dec j (length pre)) as [->|Hne]; [exact O|].
        apply IH. lia.
      * destruct IH as (k & Hk & Ho & Hj & Hm). exists k. split; [lia|].
        split; [exact Ho|]. split; [|exact Hm].
        intros j Hjk. destruct (Nat.eq_dec j (length pre)) as [->|Hne]; [exact O|].
        apply Hj. lia.
Qed.

(** What [search] returns is the text at the first place of the pattern,
    and it returns nothing when the pattern has no place. *)
Lemma search_first (text : string) :
  match search here n text with
  | Some m => exists k, first_place here text k /\ m = take (S n) (drop k text)
  | None => forall k, occurs_at here text k = false
  end.
Proof.
  unfold search. pose proof (findall_head text "" false eq_refl) as H.
  cbn [append length] in H.
  destruct (findall here n 0 false text) as [|m l].
  - intro k. apply H. lia.
  - destruct H as (k & _ & Ho & Hj & Hm). exists k. split; [|exact Hm].
    split; [exact Ho|]. intros j Hjk. apply Hj. lia.
Qed.

(** A pattern whose matches are made of [n + 1] characters of [\w] only. *)
Hypothesis here_word :
  forall s, here s = true -> forallb_str is_word (take (S n) s) = true.

(** The matches of a scan are the texts at the places of the pattern, in
    order: no place is inside a match. *)
Lemma findall_places (s : string) :
  forall pre skip prev,
    (skip = 0%nat -> prev = negb (boundary_before pre)) ->
    (skip <> 0%nat -> boundary_before pre = false) ->
    forallb_str is_word (take skip s) = true ->
    findall here n skip prev s
    = map (fun k => take (S n) (drop k (pre ++ s)))
        (filter (occurs_at here (pre ++ s)) (seq (length pre) (length s))).
Proof.
  induction s as [|c s IH]; intros pre skip prev H0 H1 Hw; [reflexivity|].
  pose proof (occurs_at_here here pre c s) as O.
  assert (Tail : forall skip' prev',
            (skip' = 0%nat -> prev' = is_word c) ->
            (skip' <> 0%nat -> is_word c = true) ->
            forallb_str is_word (take skip' s) = true ->
            findall here n skip' prev' s
            = map (fun k => take (S n) (drop k (pre ++ String c s)))
                (filter (occurs_at here (pre ++ String c s))
                   (seq (S (length pre)) (length s)))).
  { intros skip' prev' A0 A1 Aw.
    rewrite (append_snoc pre c s), <- (length_snoc pre c).
    apply IH; [| |exact Aw]; rewrite boundary_before_snoc.
    - intro Z. now rewrite negb_involutive, (A0 Z).
    - intro Z. now rewrite (A1 Z). }
  cbn [findall length seq filter]. rewrite O.
  destruct skip as [|k].
  - rewrite (H0 eq_refl), negb_involutive.
    destruct (boundary_before pre && here (String c s)) eqn:E.
    + cbn [map]. rewrite drop_app_length. f_equal.
      apply andb_true_iff in E as [_ E]. pose proof (here_word _ E) as W.
      cbn [take forallb_str] in W. apply andb_true_iff in W as [Wc Ws].
      apply Tail; [intros _; now rewrite Wc|intros _; exact Wc|exact Ws].
    + apply Tail; [reflexivity|intro N; now elim N|reflexivity].
  - rewrite (H1 ltac:(discriminate)). cbn [andb].
    cbn [take forallb_str] in Hw. apply andb_true_iff in Hw as [Wc Ws].
    apply Tail; [intros _; now rewrite Wc|intros _; exact Wc|exact Ws].
Qed.

End Places.

(** The first of the places a test keeps, and those after it. *)
Lemma head_places (p : nat -> bool) (w : nat -> string) (len : nat) :
  forall a,
    match map w (filter p (seq a len)) with
    | [] => forall j, (a <= j < a + len)%nat -> p j = false
    | m :: rest =>
        exists k, (a <= k < a + len)%nat /\ p k = true /\ m = w k
                  /\ (forall j, (a <= j < k)%nat -> p j = false)
                  /\ rest = map w (filter p (seq (S k) (a + len - S k)))
    end.
Proof.
  induction len as [|len IH]; intro a; [cbn; intros; lia|].
  cbn [seq filter]. destruct (p a) eqn:E.
  - cbn [map]. exists a. split; [lia|]. split; [exact E|]. split; [reflexivity|].
    split; [intros; lia|]. now replace (a + S len - S a)%nat with len by lia.
  - specialize (IH (S a)). destruct (map w (filter p (seq (S a) len))) as [|m rest].
    + intros j Hj. destruct (Nat.eq_dec j a) as [->|N]; [exact E|]. apply IH. lia.
    + destruct IH as (k & Hk & Hp & Hm & Hj & Hr). exists k. split; [lia|].
      split; [exact Hp|]. split; [exact Hm|]. split.
      * intros j Hjk. destruct (Nat.eq_dec j a) as [->|N]; [exact E|]. apply Hj. lia.
      * rewrite Hr. now replace (a + S len - S k)%nat with (S a + len - S k)%nat by lia.
Qed.

(** The first of the places whose text passes a second test. *)
Lemma find_places (p : nat -> bool) (w : nat -> string) (q : string -> bool)
    (len : nat) :
  forall a,
    match find q (map w (filter p (seq a len))) with
    | None => forall j, (a <= j < a + len)%nat -> p j = true -> q (w j) = false
    | Some x =>
        exists k, (a <= k < a + len)%nat /\ p k = true /\ x = w k /\ q x = true
                  /\ (forall j, (a <= j < k)%nat -> p j = true -> q (w j) = false)
    end.
Proof.
  induction len as [|len IH]; intro a; [cbn; intros; lia|].
  cbn [seq filter]. specialize (IH (S a)). destruct (p a) eqn:E.
  - cbn [map find]. destruct (q (w a)) eqn:Q.
    + exists a. split; [lia|]. split; [exact E|]. split; [reflexivity|].
      split; [exact Q|]. intros; lia.
    + destruct (find q (map w (filter p (seq (S a) len)))) as [x|].
      * destruct IH as (k & Hk & Hp & Hx & Hq & Hj). exists k. split; [lia|].
        split; [exact Hp|]. split; [exact Hx|]. split; [exact Hq|].
        intros j Hjk Pj. destruct (Nat.eq_dec j a) as [->|N]; [exact Q|].
        apply Hj; [lia|exact Pj].
      * intros j Hj Pj. destruct (Nat.eq_dec j a) as [->|N]; [exact Q|].
        apply IH; [lia|exact Pj].
  - destruct (find q (map w (filter p (seq (S a) len)))) as [x|].
    + destruct IH as (k & Hk & Hp & Hx & Hq & Hj). exists k. split; [lia|].
      split; [exact Hp|]. split; [exact Hx|]. split; [exact Hq|].
      intros j Hjk Pj. destruct (Nat.eq_dec j a) as [->|N]; [congruence|].
      apply Hj; [lia|exact Pj].
    + intros j Hj Pj. destruct (Nat.eq_dec j a) as [->|N]; [congruence|].
      apply IH; [lia|exact Pj].
Qed.

Lemma hexdigit_word (c : ascii) : is_hexdigit c = true -> is_word c = true.
Proof.
  destruct c as [[] [] [] [] [] [] [] []]; try discriminate; reflexivity.
Qed.

Lemma hex64_here_word (s : string) :
  hex64_here s = true -> forallb_str is_word (take 64 s) = true.
Proof.
  unfold hex64_here, hex_run. intro H. apply andb_true_iff in H as [H _].
  apply andb_true_iff in H as [_ H].
  revert H. generalize (take 64 s). intro t.
  induction t as [|c t IH]; [reflexivity|]. cbn [forallb_str]. intro H.
  apply andb_true_iff in H as [Hc Ht]. now rewrite (hexdigit_word c Hc), IH.
Qed.

Lemma hexdigit_lower (c : ascii) :
  is_hexdigit c = true ->
  (if is_upper_letter c then is_lower_hex (shift_ascii 32 c)
   else is_lower_hex c && negb (c =? lead_c3)%char) = true.
Proof.
  destruct c as [[] [] [] [] [] [] [] []]; try discriminate; reflexivity.
Qed.

(** The lower case of hexadecimal digits. *)
Lemma lower_hex (s : string) :
  forallb_str is_hexdigit s = true -> forallb_str is_lower_hex (lower s) = true.
Proof.
  induction s as [|c s IH]; [reflexivity|]. intro H.
  cbn [forallb_str] in H. apply andb_true_iff in H as [Hc Hs].
  pose proof (hexdigit_lower c Hc) as L. rewrite lower_cons.
  destruct (is_upper_letter c).
  - cbn [forallb_str]. now rewrite L, (IH Hs).
  - apply andb_true_iff in L as [L N]. apply negb_true_iff in N.
    destruct s as [|d s]; [cbn; now rewrite L|].
    rewrite N. cbn [andb forallb_str]. rewrite L. exact (IH Hs).
Qed.

Lemma hex_run_lower (n : nat) (s : string) :
  hex_run n s = true ->
  length (lower (take n s)) = n
  /\ forallb_str is_lower_hex (lower (take n s)) = true.
Proof.
  unfold hex_run. intro H. apply andb_true_iff in H as [L F].
  apply Nat.eqb_eq in L. split; [now rewrite length_lower|now apply lower_hex].
Qed.

Lemma length_take (n : nat) (s : string) : (n <= length s)%nat -> length (take n s) = n.
Proof.
  revert s. induction n as [|n IH]; intros s H; [reflexivity|].
  destruct s as [|c s]; cbn in *; [lia|]. rewrite IH; lia.
Qed.

Lemma length_take_le (n : nat) (s : string) :
  length (take n s) = n -> (n <= length s)%nat.
Proof.
  revert s. induction n as [|n IH]; intros s H; [lia|].
  destruct s as [|c s]; cbn in *; [discriminate|]. injection H as H. apply IH in H. lia.
Qed.

(** A word of sixty-four hexadecimal digits at a place of the text, in
    lower case. *)
Lemma hex_word_shape (text : string) (k : nat) :
  occurs_at hex64_here text k = true ->
  length (lower (take 64 (drop k text))) = 64%nat
  /\ forallb_str is_lower_hex (lower (take 64 (drop k text))) = true.
Proof.
  unfold occurs_at, hex64_here. intro H. apply andb_true_iff in H as [_ H].
  apply andb_true_iff in H as [H _]. now apply hex_run_lower.
Qed.

(** X21.  What [parse_proof] reads in the footer of a document, on ASCII
    text.  A word is sixty-four hexadecimal digits with no letter, digit
    or underscore right before or right after.  The hash is the first
    word of the text, in lower case, and there is none exactly when the
    text has no word.  The transaction is the first later word that
    differs from the hash once in lower case: every word before it reads
    as the hash; there is none exactly when every word of the text reads
    as the hash.  The time is the text at the first place of the time
    pattern, and has the shape the importer gives to its own times; the
    proof id is the text at the first place of the id pattern, in lower
    case, and has thirty-six characters. *)
Theorem X21_parse_proof_fields (text : string) :
  forallb_str is_ascii_char text = true ->
  let fp := parse_proof text in
  let word k := lower (take 64 (drop k text)) in
  (forall h, f_sha256 fp = Some h ->
     exists k, first_place hex64_here text k /\ h = word k
               /\ length h = 64%nat /\ forallb_str is_lower_hex h = true)
  /\ (f_sha256 fp = None ->
      f_bitcoin_txid fp = None /\ forall k, occurs_at hex64_here text k = false)
  /\ (forall t, f_bitcoin_txid fp = Some t ->
        exists k k2,
          first_place hex64_here text k /\ f_sha256 fp = Some (word k)
          /\ (k < k2)%nat /\ occurs_at hex64_here text k2 = true
          /\ t = word k2 /\ t <> word k
          /\ (forall j, (j < k2)%nat -> occurs_at hex64_here text j = true ->
                        word j = word k)
          /\ length t = 64%nat /\ forallb_str is_lower_hex t = true)
  /\ (forall h, f_sha256 fp = Some h -> f_bitcoin_txid fp = None ->
        forall j, occurs_at hex64_here text j = true -> word j = h)
  /\ (forall u, f_anchored_utc fp = Some u ->
        exists k, first_place iso_here text k /\ u = take 20 (drop k text)
                  /\ is_iso_utc_seconds u = true)
  /\ (f_anchored_utc fp = None -> forall k, occurs_at iso_here text k = false)
  /\ (forall p, f_woleet_proof_id fp = Some p ->
        exists k, first_place uuid_here text k /\ p = lower (take 36 (drop k text))
                  /\ length p = 36%nat)
  /\ (f_woleet_proof_id fp = None -> forall k, occurs_at uuid_here text k = false).
Proof.
  intros _ fp word. unfold fp, parse_proof.
  cbn [f_sha256 f_bitcoin_txid f_anchored_utc f_woleet_proof_id].
  rewrite (findall_places hex64_here 63 hex64_here_word text "" 0 false
             (fun _ => eq_refl) (fun N => False_ind _ (N eq_refl)) eq_refl).
  cbn [append length].
  pose proof (head_places (occurs_at hex64_here text)
                (fun k => take 64 (drop k text)) (length text) 0) as Hh.
  assert (Out : forall j, (length text <= j)%nat -> occurs_at hex64_here text j = false).
  { intros j Hj. unfold occurs_at. destruct (Nat.ltb_spec j (length text)); [lia|].
    reflexivity. }
  split; [|split; [|split; [|split]]].
  - intros h Hs.
    destruct (map _ (filter _ (seq 0 (length text)))) as [|m rest]; [discriminate|].
    injection Hs as <-. destruct Hh as (k & Hk & Hp & -> & Hj & _).
    exists k. split; [split; [exact Hp|intros j Hjk; apply Hj; lia]|].
    split; [reflexivity|]. now apply hex_word_shape.
  - intros Hs.
    destruct (map _ (filter _ (seq 0 (length text)))) as [|m rest]; [|discriminate].
    split; [reflexivity|]. intro k.
    destruct (Nat.lt_ge_cases k (length text)); [apply Hh; lia|now apply Out].
  - intros t Ht.
    destruct (map _ (filter _ (seq 0 (length text)))) as [|m rest]; [discriminate|].
    destruct Hh as (k & Hk & Hp & -> & Hj & ->).
    pose proof (find_places (occurs_at hex64_here text)
                  (fun k => take 64 (drop k text))
                  (fun x => negb (lower x =? lower (take 64 (drop k text)))%string)
                  (0 + length text - S k) (S k)) as Hf.
    destruct (find _ _) as [x|]; [|discriminate].
    injection Ht as <-. destruct Hf as (k2 & Hk2 & Hp2 & -> & Hq & Hb).
    apply negb_true_iff, String.eqb_neq in Hq.
    exists k, k2. split; [split; [exact Hp|intros j Hjk; apply Hj; lia]|].
    split; [reflexivity|]. split; [lia|]. split; [exact Hp2|].
    split; [reflexivity|]. split; [exact Hq|]. split.
    + intros j Hjk Pj. destruct (Nat.lt_trichotomy j k) as [L|[->|G]].
      * rewrite Hj in Pj by lia. discriminate.
      * reflexivity.
      * specialize (Hb j ltac:(lia) Pj). apply negb_false_iff, String.eqb_eq in Hb.
        exact Hb.
    + now apply hex_word_shape.
  - intros h Hs Ht.
    destruct (map _ (filter _ (seq 0 (length text)))) as [|m rest]; [discriminate|].
    injection Hs as <-. destruct Hh as (k & Hk & Hp & -> & Hj & ->).
    pose proof (find_places (occurs_at hex64_here text)
                  (fun k => take 64 (drop k text))
                  (fun x => negb (lower x =? lower (take 64 (drop k text)))%string)
                  (0 + length text - S k) (S k)) as Hf.
    destruct (find _ _) as [x|]; [discriminate|].
    intros j Pj. destruct (Nat.lt_trichotomy j k) as [L|[->|G]].
    + rewrite Hj in Pj by lia. discriminate.
    + reflexivity.
    + destruct (Nat.lt_ge_cases j (length text)) as [Lj|Gj].
      * specialize (Hf j ltac:(lia) Pj). apply negb_false_iff, String.eqb_eq in Hf.
        exact Hf.
      * rewrite Out in Pj by lia. discriminate.
  - pose proof (search_first iso_here 19 text) as Si.
    pose proof (search_first uuid_here 35 text) as Su.
    split; [|split; [|split]].
    + intros u Hu. rewrite Hu in Si. destruct Si as (k & Hk & ->).
      exists k. split; [exact Hk|]. split; [reflexivity|].
      destruct Hk as [Ho _]. unfold occurs_at, iso_here in Ho.
      apply andb_true_iff in Ho as [_ Ho]. now apply andb_true_iff in Ho as [Ho _].
    + intros Hu. now rewrite Hu in Si.
    + intros p Hp. destruct (search uuid_here 35 text) as [m|]; [|discriminate].
      injection Hp as <-. destruct Su as (k & Hk & ->).
      exists k. split; [exact Hk|]. split; [reflexivity|].
      destruct Hk as [Ho _]. unfold occurs_at, uuid_here in Ho.
      rewrite !andb_true_iff in Ho. destruct Ho as [_ [[_ Hr] _]].
      unfold hex_run in Hr. apply andb_true_iff in Hr as [Hr _].
      apply Nat.eqb_eq, length_take_le in Hr. rewrite length_drop in Hr.
      rewrite length_lower. apply length_take. lia.
    + intros Hp. destruct (search uuid_here 35 text) as [m|]; [discriminate|].
      exact Su.
Qed.

(** The theorem on the footer [footer_twice], where the hash is written
    twice before the transaction: the hash is the word at place 9, the
    transaction the word at place 148, after the second writing of the
    hash at place 75. *)
Lemma X21_parse_proof_fields_witness :
  forallb_str is_ascii_char Sample.footer_twice = true
  /\ f_sha256 (parse_proof Sample.footer_twice) = Some Sample.hash_B
  /\ f_bitcoin_txid (parse_proof Sample.footer_twice)
     = Some "1111111111111111aaaaaaaaaaaaaaaa2222222222222222bbbbbbbbbbbbbbbb"
  /\ occurs_at hex64_here Sample.footer_twice 75 = true
  /\ exists k k2,
       first_place hex64_here Sample.footer_twice k
       /\ (k < k2)%nat /\ occurs_at hex64_here Sample.footer_twice k2 = true
       /\ lower (take 64 (drop k Sample.footer_twice)) = Sample.hash_B
       /\ lower (take 64 (drop k2 Sample.footer_twice))
          = "1111111111111111aaaaaaaaaaaaaaaa2222222222222222bbbbbbbbbbbbbbbb"
       /\ lower (take 64 (drop 75 Sample.footer_twice)) = Sample.hash_B.
Proof.
  split; [vm_compute; reflexivity|]. split; [vm_compute; reflexivity|].
  split; [vm_compute; reflexivity|]. split; [vm_compute; reflexivity|].
  destruct (X21_parse_proof_fields Sample.footer_twice eq_refl)
    as (_ & _ & Ht & _).
  destruct (Ht "1111111111111111aaaaaaaaaaaaaaaa2222222222222222bbbbbbbbbbbbbbbb")
    as (k & k2 & Hk & Hs & Hlt & Ho & Et & _ & Hb & _); [vm_compute; reflexivity|].
  exists k, k2. split; [exact Hk|]. split; [exact Hlt|]. split; [exact Ho|].
  assert (E : f_sha256 (parse_proof Sample.footer_twice) = Some Sample.hash_B)
    by (vm_compute; reflexivity).
  rewrite E in Hs. injection Hs as Hs.
  split; [now symmetry|]. split; [now symmetry|].
  vm_compute. reflexivity.
Defined.

(** *** Folders that are skipped *)

Lemma filter_none {A : Type} (p : A -> bool) (l : list A) :
  (forall x, In x l -> p x = false) -> filter p l = [].
Proof.
  induction l as [|x l IH]; intro H; [reflexivity|].
  cbn [filter]. rewrite (H x) by now left. apply IH. intros y Hy. apply H. now right.
Qed.

(** X22.  A folder is skipped as a whole, with one warning, when none of
    its names has the extension [.json], or when it has such names but
    every name with the extension [.pdf] holds [receipt] or
    [attestation].  Nothing of the folder is read beyond its list of
    names: the receipts of a folder without a canonical document are not
    even decoded, so that a malformed one cannot stop the run there. *)
Theorem X22_folder_without_pair_is_skipped (repr : json -> string)
    (fromisoformat : string -> option datetime)
    (json_loads : string -> option json) (json_dumps : bool -> json -> string)
    (guess_type : string -> option string) (now : Z)
    (a : args) (acc : tables) (d : string) (w : world) (names : list string) :
  FS.iterdir (w_fs w) (STAMPED ++ [d]) = Ret names ->
  let run :=
    import_folder repr fromisoformat json_loads json_dumps guess_type now a acc d w in
  let skipped warning :=
    Done acc {| w_fs := w_fs w;
                w_out := w_out w
                         ++ (if verbose a then [LogFolder d (base_slug_of d)] else [])
                         ++ [warning] |} in
  ((forall n, In n names -> lower (suffix n) <> ".json") -> run = skipped (WarnNoJson d))
  /\ ((exists n, In n names /\ lower (suffix n) = ".json") ->
      (forall n, In n names -> lower (suffix n) = ".pdf" ->
         contains "receipt" (lower n) || contains "attestation" (lower n) = true) ->
      run = skipped (WarnNoPdf d)).
Proof.
  intros Hn run skipped.
  assert (C : collect_folder d (verbose a) w
              = Done (fold_left classify (sort_by String.leb names) no_files)
                  {| w_fs := w_fs w;
                     w_out := w_out w
                              ++ (if verbose a then [LogFolder d (base_slug_of d)]
                                  else []) |}).
  { unfold collect_folder, log. destruct (verbose a).
    - rewrite mbind_emit, mbind_reading. cbn [w_fs]. now rewrite Hn.
    - rewrite mbind_mret, mbind_reading. rewrite Hn, app_nil_r. now destruct w. }
  pose proof (classify_fold (sort_by String.leb names) []) as E.
  cbn zeta in E. cbn [filter app] in E. fold no_files in E.
  unfold run, skipped, import_folder. split.
  - intro H. unfold mbind at 1. rewrite C, E. cbn [jsons pdf_canons].
    rewrite filter_none.
    + rewrite mbind_emit. unfold mret. cbn [w_fs w_out]. now rewrite <- app_assoc.
    + intros x Hx. apply in_sort_by in Hx. apply String.eqb_neq. now apply H.
  - intros (n & Hin & Hj) H. unfold mbind at 1. rewrite C, E. cbn [jsons pdf_canons].
    destruct (filter (fun n0 => (lower (suffix n0) =? ".json")%string)
                (sort_by String.leb names)) as [|j js] eqn:F.
    + exfalso. assert (I : In n []); [|destruct I].
      rewrite <- F. apply filter_In. split; [now apply in_sort_by|].
      now apply String.eqb_eq.
    + rewrite filter_none.
      * rewrite mbind_emit. unfold mret. cbn [w_fs w_out]. now rewrite <- app_assoc.
      * intros x Hx. apply in_sort_by in Hx.
        destruct (lower (suffix x) =? ".json")%string; [reflexivity|]. cbn [negb andb].
        destruct (lower (suffix x) =? ".pdf")%string eqn:P; [|reflexivity].
        apply String.eqb_eq in P. now rewrite (H x Hx P).
Qed.

(** The theorem on a folder whose only document is an attestation and
    whose receipt is no JSON text. *)
Lemma X22_folder_without_pair_witness :
  FS.iterdir (Dir 0 [("stamped", Dir 0 [("Doc", Dir 0 [
       ("Doc_receipt.pdf", File 10 "%PDF-R"); ("Doc.json", File 30 "{oops") ])])])
    (STAMPED ++ ["Doc"]) = Ret ["Doc_receipt.pdf"; "Doc.json"]
  /\ import_folder Sample.repr Sample.fromisoformat Sample.json_loads Sample.json_dumps
       Sample.guess_type Sample.now Sample.normal_run ([], []) "Doc"
       {| w_fs := Dir 0 [("stamped", Dir 0 [("Doc", Dir 0 [
            ("Doc_receipt.pdf", File 10 "%PDF-R"); ("Doc.json", File 30 "{oops") ])])];
          w_out := [] |}
     = Done ([], [])
         {| w_fs := Dir 0 [("stamped", Dir 0 [("Doc", Dir 0 [
              ("Doc_receipt.pdf", File 10 "%PDF-R"); ("Doc.json", File 30 "{oops") ])])];
            w_out := [LogFolder "Doc" "doc"; WarnNoPdf "Doc"] |}.
Proof.
  split; [reflexivity|].
  apply (proj2 (X22_folder_without_pair_is_skipped Sample.repr Sample.fromisoformat
                  Sample.json_loads Sample.json_dumps Sample.guess_type Sample.now
                  Sample.normal_run ([], []) "Doc"
                  {| w_fs := Dir 0 [("stamped", Dir 0 [("Doc", Dir 0 [
                       ("Doc_receipt.pdf", File 10 "%PDF-R");
                       ("Doc.json", File 30 "{oops") ])])];
                     w_out := [] |}
                  ["Doc_receipt.pdf"; "Doc.json"] eq_refl)).
  - exists "Doc.json". split; [right; now left|reflexivity].
  - intros n [<-|[<-|[]]] H; [reflexivity|discriminate].
Defined.
